(** * init_project.py: the project initializer of the dbt-workflow template

    A shallow embedding of [scripts/init_project.py] and the properties of
    its text-substitution engine, tree scanner, path renamer and driver.

    Modelling conventions.
    - A Python [str] is a [string]; a character is a code point of the
      Latin-1 range.  [str.count] and [str.replace] do not look at what the
      characters are, [str.lower] and [str.strip] are modelled on that range.
      Every string of the model has a UTF-8 encoding: a lone surrogate,
      which [f.write] refuses with a [UnicodeEncodeError], is no character
      of the model, as none is typed where the standard input is decoded
      strictly.
    - A file holds a sequence of cells: a decoded character, or a byte the
      UTF-8 decoder rejects.  [open(..., errors="ignore")] drops the latter,
      and reading in text mode then turns the line ends CRLF and CR into LF.
      Writing is that of a POSIX system, where [os.linesep] is LF and
      nothing is translated.
    - The file system is a tree of named entries below the project root; a
      path is the list of its components.  Symbolic links, hard links and
      directory permissions are outside the model.  A component is looked
      up as the name of an entry: the model is that of the script for
      [plain] paths, whose components are not empty, are not [.] or [..]
      and hold no separator.
    - Effects are threaded through a [world]: the file tree, the lines still
      to be typed, the outcomes of the child processes and the trace of
      what has happened so far. *)

From Stdlib Require Import List String Ascii Bool Arith Lia DecimalString.
Import ListNotations.
Local Open Scope string_scope.
Local Open Scope list_scope.

(** ** Python strings *)

Module Py.

(** [s.count(sub)] for a non-empty [sub]: occurrences are taken left to
    right and do not overlap; [skip] characters of the last occurrence are
    still to be passed. *)
Fixpoint count_from (sub s : string) (skip : nat) : nat :=
  match s with
  | EmptyString => 0
  | String _ s' =>
      match skip with
      | S k => count_from sub s' k
      | O => if String.prefix sub s
             then S (count_from sub s' (String.length sub - 1))
             else count_from sub s' 0
      end
  end.

(** [s.count(sub)]; the empty string occurs between all characters and at
    both ends. *)
Definition count (s sub : string) : nat :=
  match sub with
  | EmptyString => S (String.length s)
  | _ => count_from sub s 0
  end.

Fixpoint replace_from (old new s : string) (skip : nat) : string :=
  match s with
  | EmptyString => EmptyString
  | String c s' =>
      match skip with
      | S k => replace_from old new s' k
      | O => if String.prefix old s
             then new ++ replace_from old new s' (String.length old - 1)
             else String c (replace_from old new s' 0)
      end
  end.

Fixpoint interleave (new s : string) : string :=
  match s with
  | EmptyString => new
  | String c s' => new ++ String c (interleave new s')
  end.

(** [s.replace(old, new)]. *)
Definition replace (s old new : string) : string :=
  match old with
  | EmptyString => interleave new s
  | _ => replace_from old new s 0
  end.

Definition CR : ascii := ascii_of_nat 13.
Definition LF : ascii := ascii_of_nat 10.

(** What text mode makes of the decoded characters when reading with
    universal newlines, the default of [open]: a CR becomes an LF, and the
    LF that follows a CR is dropped; [after_cr] says that the character
    before was a CR. *)
Fixpoint newlines_from (s : string) (after_cr : bool) : string :=
  match s with
  | EmptyString => EmptyString
  | String c s' =>
      if Ascii.eqb c CR then String LF (newlines_from s' true)
      else if Ascii.eqb c LF && after_cr then newlines_from s' false
      else String c (newlines_from s' false)
  end.

Definition universal_newlines (s : string) : string := newlines_from s false.

(** Code points below 256 that [str.isspace] accepts. *)
Definition isspace (c : ascii) : bool :=
  let n := nat_of_ascii c in
  (((9 <=? n) && (n <=? 13)) || ((28 <=? n) && (n <=? 32))
   || (n =? 133) || (n =? 160))%nat.

Fixpoint lstrip (s : string) : string :=
  match s with
  | EmptyString => EmptyString
  | String c s' => if isspace c then lstrip s' else s
  end.

(** Drops the trailing white space: a character is kept when something
    other than white space follows it or it is none itself. *)
Fixpoint rstrip (s : string) : string :=
  match s with
  | EmptyString => EmptyString
  | String c s' =>
      match rstrip s' with
      | EmptyString => if isspace c then EmptyString else String c EmptyString
      | r => String c r
      end
  end.

Definition strip (s : string) : string := rstrip (lstrip s).

(** [str.lower] on the Latin-1 range: A-Z and the capital letters
    U+00C0-U+00DE (but the multiplication sign U+00D7) move up by 32. *)
Definition lower_char (c : ascii) : ascii :=
  let n := nat_of_ascii c in
  if (((65 <=? n) && (n <=? 90))
      || ((192 <=? n) && (n <=? 222) && negb (n =? 215)))%nat
  then ascii_of_nat (n + 32) else c.

Fixpoint lower (s : string) : string :=
  match s with
  | EmptyString => EmptyString
  | String c s' => String (lower_char c) (lower s')
  end.

(** [str(n)] for a natural number. *)
Definition str_of_nat (n : nat) : string :=
  NilEmpty.string_of_uint (Nat.to_uint n).

Definition is_dot (c : ascii) : bool := Ascii.eqb c ".".

(** Position of the last dot of [s], if any ([s.rfind(".")]). *)
Fixpoint rfind_dot (s : string) : option nat :=
  match s with
  | EmptyString => None
  | String c s' =>
      match rfind_dot s' with
      | Some i => Some (S i)
      | None => if is_dot c then Some 0 else None
      end
  end.

Fixpoint all_dots (s : string) : bool :=
  match s with
  | EmptyString => true
  | String c s' => is_dot c && all_dots s'
  end.

(** [os.path.splitext] of a file name (no separator in it): the extension
    starts at the last dot, unless only dots stand before it. *)
Definition splitext (p : string) : string * string :=
  match rfind_dot p with
  | Some i =>
      if all_dots (String.substring 0 i p) then (p, EmptyString)
      else (String.substring 0 i p,
            String.substring i (String.length p - i) p)
  | None => (p, EmptyString)
  end.

End Py.

(** ** The file system *)

(** What the UTF-8 decoder finds in a file: a character, or a byte that is
    part of no well-formed sequence. *)
Inductive cell : Type :=
  | Chr (c : ascii)
  | Undecodable (b : ascii).

Record file : Type := mkFile {
  cells : list cell;
  readable : bool;
  writable : bool
}.

Inductive node : Type :=
  | File (f : file)
  | Dir (entries : list (string * node)).

Definition path : Type := list string.

(** [bytes.decode("utf-8", errors="ignore")]. *)
Fixpoint decode_ignore (cs : list cell) : string :=
  match cs with
  | [] => EmptyString
  | Chr c :: r => String c (decode_ignore r)
  | Undecodable _ :: r => decode_ignore r
  end.

(** What [open(p, "r", encoding="utf-8", errors="ignore").read()] returns
    for the file: the characters that decode, with universal newlines. *)
Definition read_of (cs : list cell) : string :=
  Py.universal_newlines (decode_ignore cs).

(** Whether [bytes.decode("utf-8")] succeeds. *)
Fixpoint decodes (cs : list cell) : bool :=
  match cs with
  | [] => true
  | Chr _ :: r => decodes r
  | Undecodable _ :: _ => false
  end.

Fixpoint encode (s : string) : list cell :=
  match s with
  | EmptyString => []
  | String c s' => Chr c :: encode s'
  end.

Fixpoint path_eqb (p q : path) : bool :=
  match p, q with
  | [], [] => true
  | a :: p', b :: q' => String.eqb a b && path_eqb p' q'
  | _, _ => false
  end.

Fixpoint is_prefix (p q : path) : bool :=
  match p, q with
  | [], _ => true
  | a :: p', b :: q' => String.eqb a b && is_prefix p' q'
  | _ :: _, [] => false
  end.

Definition mem (x : string) (l : list string) : bool :=
  existsb (String.eqb x) l.

Fixpoint has_separator (n : string) : bool :=
  match n with
  | EmptyString => false
  | String c n' => Ascii.eqb c "/" || has_separator n'
  end.

(** A name that [os.path.join] and the operating system take as the name
    of one entry. *)
Definition plain_name (n : string) : bool :=
  negb (String.eqb n EmptyString) && negb (String.eqb n ".")
  && negb (String.eqb n "..") && negb (has_separator n).

Definition plain (p : path) : bool := forallb plain_name p.

Definition dirname (p : path) : path := removelast p.
Definition basename (p : path) : string := last p EmptyString.

Fixpoint assoc (n : string) (es : list (string * node)) : option node :=
  match es with
  | [] => None
  | (m, c) :: r => if String.eqb n m then Some c else assoc n r
  end.

(** The entry named [n] becomes [x]; a new entry goes last. *)
Fixpoint set_entry (n : string) (x : node) (es : list (string * node))
  : list (string * node) :=
  match es with
  | [] => [(n, x)]
  | (m, c) :: r =>
      if String.eqb n m then (m, x) :: r else (m, c) :: set_entry n x r
  end.

Definition del_entry (n : string) (es : list (string * node))
  : list (string * node) :=
  filter (fun e => negb (String.eqb n (fst e))) es.

(** The node at [p], every component being the name of an entry: for a
    [plain] path this is what the operating system finds; [.] and [..]
    are not resolved. *)
Fixpoint lookup (t : node) (p : path) : option node :=
  match p with
  | [] => Some t
  | n :: p' =>
      match t with
      | Dir es =>
          match assoc n es with
          | Some c => lookup c p'
          | None => None
          end
      | File _ => None
      end
  end.

Definition isdir (t : node) (p : path) : bool :=
  match lookup t p with
  | Some (Dir _) => true
  | _ => false
  end.

(** [os.path.exists(os.path.join(root, p))]; the empty name gives the root
    with a trailing separator, which only a directory answers to. *)
Definition path_exists (t : node) (p : path) : bool :=
  match p with
  | [] => isdir t []
  | _ => match lookup t p with Some _ => true | None => false end
  end.

(** The node at [p] becomes [x]; the parent of [p] has to be a directory. *)
Fixpoint put (p : path) (x : node) (t : node) : node :=
  match p with
  | [] => x
  | n :: p' =>
      match t with
      | Dir es =>
          match assoc n es with
          | Some c => Dir (set_entry n (put p' x c) es)
          | None =>
              match p' with
              | [] => Dir (set_entry n x es)
              | _ => t
              end
          end
      | File _ => t
      end
  end.

Fixpoint remove (p : path) (t : node) : node :=
  match p with
  | [] => t
  | n :: p' =>
      match t with
      | Dir es =>
          match p' with
          | [] => Dir (del_entry n es)
          | _ =>
              match assoc n es with
              | Some c => Dir (set_entry n (remove p' c) es)
              | None => t
              end
          end
      | File _ => t
      end
  end.

Fixpoint fresh_dirs (p : path) : node :=
  match p with
  | [] => Dir []
  | n :: p' => Dir [(n, fresh_dirs p')]
  end.

(** [os.makedirs(p, exist_ok=True)]: the missing directories of [p] are
    created; [None] when a component of [p] is a file, which raises before
    anything is created. *)
Fixpoint makedirs_tree (p : path) (t : node) : option node :=
  match t with
  | File _ => None
  | Dir es =>
      match p with
      | [] => Some t
      | n :: p' =>
          match assoc n es with
          | Some c =>
              match makedirs_tree p' c with
              | Some c' => Some (Dir (set_entry n c' es))
              | None => None
              end
          | None => Some (Dir (set_entry n (fresh_dirs p') es))
          end
      end
  end.

(** ** The world, and the effects of the script *)

Inductive event : Type :=
  | EvPrint (s : string)
  | EvPrompt (s : string)
  | EvAnswer (line : string)
  | EvWalk (found : list path)
  | EvOpenRead (p : path)
  | EvOpenWrite (p : path)
  | EvWrite (p : path) (content : string)
  | EvMakedirs (p : path)
  | EvMove (src dst : path)
  | EvRun (args : list string)
  | EvRemove (p : path)
  | EvRmdir (p : path).

Inductive exn : Type :=
  | EOFError
  | OSError
  | ShutilError
  | CalledProcessError.

Inductive result (A : Type) : Type :=
  | Ok (a : A)
  | Raise (e : exn).
Arguments Ok {A} a.
Arguments Raise {A} e.

Record world : Type := mkWorld {
  fs : node;
  stdin : list string;
  procs : list (bool * string);
  trace : list event
}.

Definition M (A : Type) : Type := world -> result A * world.

Definition ret {A : Type} (a : A) : M A := fun w => (Ok a, w).

Definition bind {A B : Type} (m : M A) (k : A -> M B) : M B :=
  fun w =>
    match m w with
    | (Ok a, w') => k a w'
    | (Raise e, w') => (Raise e, w')
    end.

Notation "x <- m ;; k" := (bind m (fun x => k))
  (at level 61, m at next level, right associativity).
Notation "m ;; k" := (bind m (fun _ => k))
  (at level 61, right associativity).

Definition raise {A : Type} (e : exn) : M A := fun w => (Raise e, w).

Definition emit (e : event) : M unit :=
  fun w => (Ok tt, mkWorld (fs w) (stdin w) (procs w) (trace w ++ [e])).

Definition get_fs : M node := fun w => (Ok (fs w), w).

Definition set_fs (t : node) : M unit :=
  fun w => (Ok tt, mkWorld t (stdin w) (procs w) (trace w)).

(** [try: body  except OSError: handler]. *)
Definition try_OSError {A : Type} (body handler : M A) : M A :=
  fun w =>
    match body w with
    | (Raise OSError, w') => handler w'
    | r => r
    end.

(** [try: body  except subprocess.CalledProcessError: handler]. *)
Definition try_CalledProcessError {A : Type} (body handler : M A) : M A :=
  fun w =>
    match body w with
    | (Raise CalledProcessError, w') => handler w'
    | r => r
    end.

Definition print (s : string) : M unit := emit (EvPrint s).

(** [input(prompt)]: the next line typed, [EOFError] when there is none. *)
Definition input (prompt : string) : M string :=
  emit (EvPrompt prompt) ;;
  fun w =>
    match stdin w with
    | [] => (Raise EOFError, w)
    | line :: rest =>
        (Ok line,
         mkWorld (fs w) rest (procs w) (trace w ++ [EvAnswer line]))
    end.

(** [with open(p, "r", encoding="utf-8", errors="ignore") as f: f.read()]. *)
Definition read_text (p : path) : M string :=
  emit (EvOpenRead p) ;;
  t <- get_fs ;;
  match lookup t p with
  | Some (File f) =>
      if readable f then ret (read_of (cells f)) else raise OSError
  | _ => raise OSError
  end.

(** [with open(p, "w", encoding="utf-8") as f: f.write(content)], for a
    [content] that UTF-8 encodes, as every string of the model does, and
    with LF as the line separator of the system. *)
Definition write_text (p : path) (content : string) : M unit :=
  emit (EvOpenWrite p) ;;
  t <- get_fs ;;
  match lookup t p with
  | Some (File f) =>
      if writable f
      then set_fs (put p (File (mkFile (encode content) (readable f) true)) t) ;;
           emit (EvWrite p content)
      else raise OSError
  | Some (Dir _) => raise OSError
  | None =>
      if isdir t (dirname p) && negb (path_eqb p [])
      then set_fs (put p (File (mkFile (encode content) true true)) t) ;;
           emit (EvWrite p content)
      else raise OSError
  end.

(** [os.makedirs(os.path.join(root, p), exist_ok=True)]. *)
Definition makedirs (p : path) : M unit :=
  emit (EvMakedirs p) ;;
  t <- get_fs ;;
  match makedirs_tree p t with
  | Some t' => set_fs t'
  | None => raise OSError
  end.

(** [os.rename(src, dst)] as [shutil.move] falls back on it, for [src]
    holding [s].  A directory goes to a path that does not exist yet (its
    missing parents are made by the copy [shutil.move] resorts to); a file
    replaces a file. *)
Definition rename_tree (s : node) (src dst : path) (t : node) : result node :=
  if path_eqb src dst then Ok t
  else if is_prefix src dst then
    match s with
    | Dir _ => Raise ShutilError
    | File _ => Raise OSError
    end
  else
    match s, lookup t dst with
    | File _, Some (Dir _) => Raise OSError
    | File _, _ =>
        if isdir t (dirname dst) then Ok (put dst s (remove src t))
        else Raise OSError
    | Dir _, Some _ => Raise OSError
    | Dir _, None =>
        match makedirs_tree (dirname dst) t with
        | Some t1 => Ok (put dst s (remove src t1))
        | None => Raise OSError
        end
    end.

(** [shutil.move(src, dst)]: into [dst] when that is a directory, onto
    [dst] otherwise. *)
Definition move_tree (src dst : path) (t : node) : result node :=
  match src, lookup t src with
  | [], _ => Raise ShutilError
  | _, None => Raise OSError
  | _, Some s =>
      if isdir t dst then
        if path_eqb src dst then Ok t
        else
          let real_dst := dst ++ [basename src] in
          if path_exists t real_dst then Raise ShutilError
          else rename_tree s src real_dst t
      else rename_tree s src dst t
  end.

Definition move (src dst : path) : M unit :=
  emit (EvMove src dst) ;;
  t <- get_fs ;;
  match move_tree src dst t with
  | Ok t' => set_fs t'
  | Raise e => raise e
  end.

(** ** Configuration *)

Definition SKIP_DIRS : list string :=
  [".git"; "venv"; "__pycache__"; "target"; "dbt_packages"; "logs";
   ".sqlfluff_cache"].

Definition BINARY_EXTENSIONS : list string :=
  [".csv"; ".pptx"; ".xlsx"; ".png"; ".jpg"; ".gif"; ".ico"; ".woff";
   ".woff2"; ".pyc"].

(** (key, label, default) *)
Definition PROMPTS : list (string * string * string) :=
  [("project_name",   "Project name (dbt_project.yml)", "ci_cd_project");
   ("author_name",    "Author name",                    "Anouar Zbaida");
   ("organization",   "Organization",                   "Crithink");
   ("app_database",   "Application database",           "APP_DB");
   ("ci_database",    "CI/utilities database",          "_DB_UTILS");
   ("warehouse_name", "Warehouse name",                 "ANALYTICS_WH")].

(** ** Helpers *)

Definition is_dir_node (c : node) : bool :=
  match c with Dir _ => true | File _ => false end.

Definition dir_names (es : list (string * node)) : list string :=
  map fst (filter (fun e => is_dir_node (snd e)) es).

Definition file_names (es : list (string * node)) : list string :=
  map fst (filter (fun e => negb (is_dir_node (snd e))) es).

(** [os.walk(root)], top down: a directory yields its path, the names of
    its directories and the names of its files; the caller cuts the list of
    directories down with [prune], and the walk goes on into those that
    are left, in their order. *)
Fixpoint os_walk (prune : list string -> list string) (dirpath : path)
    (t : node) : list (path * list string * list string) :=
  match t with
  | File _ => []
  | Dir es =>
      let dirnames := prune (dir_names es) in
      (dirpath, dirnames, file_names es) ::
      (fix descend (l : list (string * node)) :=
         match l with
         | [] => []
         | (n, c) :: r =>
             (if is_dir_node c && mem n dirnames
              then os_walk prune (dirpath ++ [n]) c else [])
             ++ descend r
         end) es
  end.

Definition keep_dirs (dirnames : list string) : list string :=
  filter (fun d => negb (mem d SKIP_DIRS)) dirnames.

Definition is_binary (filename : string) : bool :=
  let ext := snd (Py.splitext filename) in
  mem (Py.lower ext) BINARY_EXTENSIONS.

Definition text_files_of (t : node) : list path :=
  flat_map
    (fun '(dirpath, _, filenames) =>
       map (fun filename => dirpath ++ [filename])
           (filter (fun filename => negb (is_binary filename)) filenames))
    (os_walk keep_dirs [] t).

(** Walk the project and return all text file paths (skipping
    binary/ignored dirs). *)
Definition collect_text_files : M (list path) :=
  t <- get_fs ;;
  let text_files := text_files_of t in
  emit (EvWalk text_files) ;;
  ret text_files.

Fixpoint count_loop (files : list path) (old : string)
    (total_count file_count : nat) : M (nat * nat) :=
  match files with
  | [] => ret (total_count, file_count)
  | filepath :: rest =>
      acc <- try_OSError
               (content <- read_text filepath ;;
                let count := Py.count content old in
                if Nat.ltb 0 count
                then ret (total_count + count, file_count + 1)
                else ret (total_count, file_count))
               (ret (total_count, file_count)) ;;
      count_loop rest old (fst acc) (snd acc)
  end.

(** Count how many times old appears across all files (content only). *)
Definition count_replacements (files : list path) (old new : string)
  : M (nat * nat) :=
  if String.eqb old new then ret (0, 0)
  else count_loop files old 0 0.

Fixpoint replace_loop (files : list path) (old new : string) (total : nat)
  : M nat :=
  match files with
  | [] => ret total
  | filepath :: rest =>
      total' <- try_OSError
                  (content <- read_text filepath ;;
                   let count := Py.count content old in
                   if Nat.ltb 0 count
                   then
                     let new_content := Py.replace content old new in
                     write_text filepath new_content ;;
                     ret (total + count)
                   else ret total)
                  (ret total) ;;
      replace_loop rest old new total'
  end.

(** Replace all occurrences of old with new in file contents. *)
Definition replace_in_files (files : list path) (old new : string) : M nat :=
  if String.eqb old new then ret 0
  else replace_loop files old new 0.

(** Rename a file or directory under root. Returns True if renamed. *)
Definition rename_path (old_name new_name : path) : M bool :=
  if path_eqb old_name new_name then ret false
  else
    t <- get_fs ;;
    if path_exists t old_name
    then
      makedirs (dirname new_name) ;;
      move old_name new_name ;;
      ret true
    else ret false.

(** [subprocess.run(args, cwd=root, ...)]: the next outcome of [procs]
    says whether the child exits with status 0 and what it prints; what it
    does to the repository is not part of the tree. *)
Definition run (args : list string) (check : bool) : M string :=
  emit (EvRun args) ;;
  fun w =>
    match procs w with
    | [] => (Ok EmptyString, w)
    | (ok, out) :: rest =>
        let w' := mkWorld (fs w) (stdin w) rest (trace w) in
        if check && negb ok then (Raise CalledProcessError, w')
        else (Ok out, w')
    end.

(** [os.remove(p)]. *)
Definition os_remove (p : path) : M unit :=
  emit (EvRemove p) ;;
  t <- get_fs ;;
  match p, lookup t p with
  | _ :: _, Some (File _) => set_fs (remove p t)
  | _, _ => raise OSError
  end.

(** [os.rmdir(p)]. *)
Definition os_rmdir (p : path) : M unit :=
  emit (EvRmdir p) ;;
  t <- get_fs ;;
  match p, lookup t p with
  | _ :: _, Some (Dir []) => set_fs (remove p t)
  | _, _ => raise OSError
  end.

Definition nl : string := String (ascii_of_nat 10) EmptyString.

Definition nonempty (s : string) : bool :=
  match s with EmptyString => false | _ => true end.

Definition show_path (p : path) : string := String.concat "/" p.

Definition dict_get (key : string) (values : list (string * string)) : string :=
  match find (fun kv => String.eqb key (fst kv)) values with
  | Some kv => snd kv
  | None => EmptyString
  end.

Fixpoint prompt_loop (prompts : list (string * string * string))
    (values : list (string * string)) : M (list (string * string)) :=
  match prompts with
  | [] => ret values
  | (key, label, default) :: rest =>
      line <- input ("  " ++ label ++ " [" ++ default ++ "]: ") ;;
      let user_input := Py.strip line in
      prompt_loop rest
        (values ++ [(key, if nonempty user_input then user_input else default)])
  end.

(** Prompt user for each configurable value. Returns dict of
    {key: new_value}. *)
Definition prompt_values : M (list (string * string)) :=
  print "" ;;
  print "  dbt-workflow Project Initializer" ;;
  print "  =================================" ;;
  print "" ;;
  print "  Customize this template for your project." ;;
  print "  Press Enter to keep the default value shown in [brackets]." ;;
  print "" ;;
  prompt_loop PROMPTS [].

(** [PROMPTS[i][2]] *)
Definition default_of (i : nat) : string :=
  snd (nth i PROMPTS (EmptyString, EmptyString, EmptyString)).

Definition SCRIPT_PATH : path := ["scripts"; "init_project.py"].

(** ** Main *)

Fixpoint dry_run_replacements (text_files : list path)
    (replacements : list (string * string * string)) : M unit :=
  match replacements with
  | [] => ret tt
  | (old, new, label) :: rest =>
      r <- count_replacements text_files old new ;;
      (let (total, files) := r in
       if Nat.ltb 0 total
       then print ("    - Replace '" ++ old ++ "' -> '" ++ new ++ "' ("
                   ++ Py.str_of_nat total ++ " occurrences in "
                   ++ Py.str_of_nat files ++ " files)")
       else print ("    - Replace '" ++ old ++ "' -> '" ++ new
                   ++ "' (0 occurrences found)")) ;;
      dry_run_replacements text_files rest
  end.

Fixpoint dry_run_renames (what : string) (shown : path -> string)
    (renames : list (path * path)) : M unit :=
  match renames with
  | [] => ret tt
  | (old, new) :: rest =>
      t <- get_fs ;;
      (if path_exists t old
       then print ("    - Rename " ++ what ++ ": " ++ show_path old ++ " -> "
                   ++ shown new)
       else ret tt) ;;
      dry_run_renames what shown rest
  end.

Fixpoint apply_renames (shown : path -> string) (renames : list (path * path))
  : M unit :=
  match renames with
  | [] => ret tt
  | (old, new) :: rest =>
      renamed <- rename_path old new ;;
      (if renamed : bool
       then print ("  Renamed: " ++ show_path old ++ " -> " ++ shown new)
       else ret tt) ;;
      apply_renames shown rest
  end.

Fixpoint apply_replacements (text_files : list path)
    (replacements : list (string * string * string))
    (total_replacements : nat) : M nat :=
  match replacements with
  | [] => ret total_replacements
  | (old, new, label) :: rest =>
      count <- replace_in_files text_files old new ;;
      apply_replacements text_files rest (total_replacements + count)
  end.

Definition yes_or_empty (answer : string) : bool :=
  negb (nonempty answer) || String.eqb answer "y".

(** Git remote & initial commit *)
Definition git_setup : M unit :=
  t <- get_fs ;;
  if isdir t [".git"]
  then
    print "" ;;
    print "  ── Git Setup ──" ;;
    print "" ;;
    line <- input "  New Git repository URL (leave blank to skip): " ;;
    let repo_url := Py.strip line in
    if nonempty repo_url
    then
      try_CalledProcessError
        (run ["git"; "remote"; "set-url"; "origin"; repo_url] true ;;
         print ("  Remote origin updated to: " ++ repo_url))
        (run ["git"; "remote"; "add"; "origin"; repo_url] true ;;
         print ("  Remote origin set to: " ++ repo_url)) ;;
      out <- run ["git"; "branch"; "--show-current"] false ;;
      let branch := if nonempty (Py.strip out) then Py.strip out else "main" in
      print "" ;;
      line <- input ("  Create initial commit and push to '" ++ branch
                     ++ "'? [Y/n]: ") ;;
      let push_confirm := Py.lower (Py.strip line) in
      if yes_or_empty push_confirm
      then
        run ["git"; "add"; "-A"] true ;;
        run ["git"; "commit"; "-m";
             "Initialize project from dbt-workflow template"] true ;;
        print "  Initial commit created." ;;
        try_CalledProcessError
          (run ["git"; "push"; "-u"; "origin"; branch] true ;;
           print ("  Pushed to origin/" ++ branch ++ "."))
          (print "  Push failed (is the remote repo created?). You can push manually:" ;;
           print ("    git push -u origin " ++ branch))
      else print "  Skipped. You can commit and push manually later."
    else
      print "  Skipped Git setup. Remote origin unchanged." ;;
      print "  To update later: git remote set-url origin <your-repo-url>"
  else
    print "" ;;
    print "  No .git directory found. To set up Git:" ;;
    print "    git init && git remote add origin <your-repo-url>" ;;
    print "    git add -A && git commit -m 'Initial commit' && git push -u origin main".

(** Optionally delete this script *)
Definition delete_script : M unit :=
  print "" ;;
  line <- input "  Delete this init script? [y/N]: " ;;
  let delete := Py.lower (Py.strip line) in
  (if String.eqb delete "y"
   then
     os_remove SCRIPT_PATH ;;
     t <- get_fs ;;
     (match lookup t (dirname SCRIPT_PATH) with
      | Some (Dir []) => os_rmdir (dirname SCRIPT_PATH)
      | _ => ret tt
      end) ;;
     print "  Init script deleted."
   else print "  Init script kept. You can re-run it or delete it manually.") ;;
  print "".

(** The plans [main] builds from the values typed, no-ops filtered out. *)
Definition replacements_of (values : list (string * string))
  : list (string * string * string) :=
  filter (fun r => negb (String.eqb (fst (fst r)) (snd (fst r))))
    [(default_of 0, dict_get "project_name" values,   "project name");
     (default_of 1, dict_get "author_name" values,    "author name");
     (default_of 2, dict_get "organization" values,   "organization");
     (default_of 3, dict_get "app_database" values,   "application database");
     (default_of 4, dict_get "ci_database" values,    "CI/utilities database");
     (default_of 5, dict_get "warehouse_name" values, "warehouse name")].

Definition dir_renames_of (values : list (string * string))
  : list (path * path) :=
  filter (fun r => negb (path_eqb (fst r) (snd r)))
    [(["ddls"; default_of 3], ["ddls"; dict_get "app_database" values]);
     (["ddls"; default_of 4], ["ddls"; dict_get "ci_database" values])].

Definition file_renames_of (values : list (string * string))
  : list (path * path) :=
  filter (fun r => negb (path_eqb (fst r) (snd r)))
    [(["ddls"; "_account"; "databases"; (default_of 3 ++ ".sql")%string],
      ["ddls"; "_account"; "databases";
       (dict_get "app_database" values ++ ".sql")%string]);
     (["ddls"; "_account"; "databases"; (default_of 4 ++ ".sql")%string],
      ["ddls"; "_account"; "databases";
       (dict_get "ci_database" values ++ ".sql")%string]);
     (["ddls"; "_account"; "warehouses"; (default_of 5 ++ ".sql")%string],
      ["ddls"; "_account"; "warehouses";
       (dict_get "warehouse_name" values ++ ".sql")%string])].

(** Everything [main] does once the user has agreed. *)
Definition apply_changes (replacements : list (string * string * string))
    (dir_renames file_renames : list (path * path)) : M unit :=
  (* 1. Rename directories first (before file content replacement) *)
  apply_renames show_path dir_renames ;;
  (* 2. Rename individual files *)
  apply_renames basename file_renames ;;
  (* 3. Re-collect text files after renames *)
  text_files <- collect_text_files ;;
  (* 4. Replace file contents *)
  total_replacements <- apply_replacements text_files replacements 0 ;;
  print "" ;;
  print ("  Done! " ++ Py.str_of_nat total_replacements
         ++ " replacements applied.") ;;
  git_setup ;;
  delete_script.

Definition CONFIRM_PROMPT : string := "  Apply these changes? [Y/n]: ".

Definition main : M unit :=
  values <- prompt_values ;;
  let replacements := replacements_of values in
  let dir_renames := dir_renames_of values in
  let file_renames := file_renames_of values in
  match replacements, dir_renames, file_renames with
  | [], [], [] =>
      print (nl ++ "  All values match defaults. Nothing to change.")
  | _, _, _ =>
      (* Collect text files for scanning *)
      text_files <- collect_text_files ;;
      (* Dry-run summary *)
      print "" ;;
      print "  Changes to apply:" ;;
      dry_run_replacements text_files replacements ;;
      dry_run_renames "directory" show_path dir_renames ;;
      dry_run_renames "file" basename file_renames ;;
      print "" ;;
      line <- input CONFIRM_PROMPT ;;
      let confirm := Py.lower (Py.strip line) in
      if nonempty confirm && negb (String.eqb confirm "y")
      then print "  Aborted."
      else apply_changes replacements dir_renames file_renames
  end.

(** ** Vocabulary of the properties *)

Definition file_at (t : node) (p : path) : option file :=
  match lookup t p with
  | Some (File f) => Some f
  | _ => None
  end.

(** What [read_text] finds at [p], when it finds something. *)
Definition text_at (t : node) (p : path) : option string :=
  match file_at t p with
  | Some f => if readable f then Some (read_of (cells f)) else None
  | None => None
  end.

Definition occurrences (t : node) (p : path) (old : string) : nat :=
  match text_at t p with
  | Some content => Py.count content old
  | None => 0
  end.

Fixpoint total_occurrences (t : node) (files : list path) (old : string)
  : nat :=
  match files with
  | [] => 0
  | p :: rest => occurrences t p old + total_occurrences t rest old
  end.

Definition files_with (t : node) (files : list path) (old : string) : nat :=
  List.length (filter (fun p => Nat.ltb 0 (occurrences t p old)) files).

(** The file at [p] can be opened for reading and for writing. *)
Definition read_write (t : node) (p : path) : Prop :=
  exists f, file_at t p = Some f /\ readable f = true /\ writable f = true.


(** Events that rewrite the content of a file. *)
Definition is_write (e : event) : bool :=
  match e with
  | EvOpenWrite _ | EvWrite _ _ => true
  | _ => false
  end.

(** Events that rename a path. *)
Definition is_rename (e : event) : bool :=
  match e with
  | EvMakedirs _ | EvMove _ _ => true
  | _ => false
  end.

(** Events that change something outside the script. *)
Definition mutating (e : event) : bool :=
  match e with
  | EvOpenWrite _ | EvWrite _ _ | EvMakedirs _ | EvMove _ _
  | EvRun _ | EvRemove _ | EvRmdir _ => true
  | _ => false
  end.

(** The path an event is about. *)
Definition touches (q : path) (e : event) : bool :=
  match e with
  | EvOpenRead p | EvOpenWrite p | EvWrite p _ => path_eqb p q
  | _ => false
  end.

(** [p] lies under a directory whose name is in [SKIP_DIRS]. *)
Definition under_skipped (p : path) : bool :=
  existsb (fun d => mem d SKIP_DIRS) (dirname p).

(** The world after more events. *)
Definition log (w : world) (evs : list event) : world :=
  mkWorld (fs w) (stdin w) (procs w) (trace w ++ evs).

(** The world with another tree and more events. *)
Definition after (w : world) (t : node) (evs : list event) : world :=
  mkWorld t (stdin w) (procs w) (trace w ++ evs).

(** What one turn of the loop of [replace_in_files] does with the file at
    [p]: the tree afterwards, what it adds to the total, and its events. *)
Definition rewrite_file (t : node) (p : path) (old new : string)
  : node * nat * list event :=
  match text_at t p, file_at t p with
  | Some content, Some f =>
      let count := Py.count content old in
      if Nat.ltb 0 count then
        if writable f
        then (put p (File (mkFile (encode (Py.replace content old new))
                                  (readable f) true)) t,
              count,
              [EvOpenRead p; EvOpenWrite p;
               EvWrite p (Py.replace content old new)])
        else (t, 0, [EvOpenRead p; EvOpenWrite p])
      else (t, 0, [EvOpenRead p])
  | _, _ => (t, 0, [EvOpenRead p])
  end.

(** What [replace_in_files] leaves of a file it can read and write: where
    [old] occurs in the text read, the encoding of that text with [old]
    replaced by [new]; the file as it was otherwise. *)
Definition rewritten (f : file) (old new : string) : file :=
  let content := read_of (cells f) in
  if Nat.ltb 0 (Py.count content old)
  then mkFile (encode (Py.replace content old new)) (readable f) true
  else f.

Fixpoint rewrite_files (t : node) (files : list path) (old new : string)
  : node * nat * list event :=
  match files with
  | [] => (t, 0, [])
  | p :: rest =>
      let '(t1, n1, evs1) := rewrite_file t p old new in
      let '(t2, n2, evs2) := rewrite_files t1 rest old new in
      (t2, n1 + n2, evs1 ++ evs2)
  end.



(** No component of [p] is a name of [SKIP_DIRS]. *)
Definition no_skipped (p : path) : bool :=
  negb (existsb (fun d => mem d SKIP_DIRS) p).

(** Every event of [m] is one that [allowed] accepts. *)
Definition only (allowed : event -> bool) {A : Type} (m : M A) : Prop :=
  forall w, exists evs,
    trace (snd (m w)) = trace w ++ evs /\
    Forall (fun e => allowed e = true) evs.

(** [m] leaves the tree as it is. *)
Definition keeps_fs {A : Type} (m : M A) : Prop :=
  forall w, fs (snd (m w)) = fs w.

(** The confirmation prompt of [main]. *)
Definition is_confirm (e : event) : bool :=
  match e with
  | EvPrompt prompt => String.eqb prompt CONFIRM_PROMPT
  | _ => false
  end.

(** Events of the dry run: nothing is changed and the confirmation prompt
    is not among them. *)
Definition dry_run_event (e : event) : bool :=
  negb (mutating e) && negb (is_confirm e).

(** Events of the renames: no file is rewritten. *)
Definition rename_event (e : event) : bool :=
  negb (is_write e) && negb (is_confirm e).

(** Events after the renames: no path is renamed, and a file that is
    rewritten is one of [files]. *)
Definition later_event (files : list path) (e : event) : bool :=
  negb (is_rename e) && negb (is_confirm e)
  && (negb (is_write e) || existsb (fun p => touches p e) files).

(** The answer at the confirmation prompt lets [main] go on. *)
Definition agrees (line : string) : bool :=
  negb (nonempty (Py.lower (Py.strip line))
        && negb (String.eqb (Py.lower (Py.strip line)) "y")).

(** The two phases of [apply_changes]. *)
Definition rename_phase (dir_renames file_renames : list (path * path))
  : M unit :=
  apply_renames show_path dir_renames ;;
  apply_renames basename file_renames.

(** How [m] goes from any world: a dry run up to some world [w0], with the
    tree as it was, and then [m] either is over without an answer at the
    confirmation prompt, or is over after an answer that does not agree, or
    goes on after an answer that agrees as [apply_changes] does from [w0]. *)
Definition confirms_first (m : M unit) : Prop :=
  forall w, exists w0 evs,
    fs w0 = fs w /\
    Forall (fun e => dry_run_event e = true) evs /\
    (((trace w0 = trace w ++ evs \/
       trace w0 = trace w ++ evs ++ [EvPrompt CONFIRM_PROMPT]) /\
      exists r, m w = (r, w0)) \/
     (exists line,
        agrees line = false /\
        trace w0 = trace w ++ evs ++ [EvPrompt CONFIRM_PROMPT; EvAnswer line;
                                      EvPrint "  Aborted."] /\
        m w = (Ok tt, w0)) \/
     (exists line values,
        agrees line = true /\
        trace w0 = trace w ++ evs ++ [EvPrompt CONFIRM_PROMPT; EvAnswer line] /\
        m w = apply_changes (replacements_of values) (dir_renames_of values)
                (file_renames_of values) w0)).

(** [user_input if user_input else default], for the line typed. *)
Definition value_of (default answer : string) : string :=
  if nonempty (Py.strip answer) then Py.strip answer else default.

(** The commands run, in order. *)
Definition commands (evs : list event) : list (list string) :=
  flat_map (fun e => match e with EvRun args => [args] | _ => [] end) evs.

(** What is printed, in order. *)
Definition printed (evs : list event) : list string :=
  flat_map (fun e => match e with EvPrint s => [s] | _ => [] end) evs.

(** Events that look at the tree or change something. *)
Definition uses_tree (e : event) : bool :=
  match e with
  | EvWalk _ | EvOpenRead _ => true
  | _ => mutating e
  end.

Fixpoint distinct (l : list string) : bool :=
  match l with
  | [] => true
  | x :: r => negb (mem x r) && distinct r
  end.

(** No directory holds two entries of one name. *)
Fixpoint well_formed (t : node) : bool :=
  match t with
  | File _ => true
  | Dir es =>
      distinct (map fst es)
      && (fix all (l : list (string * node)) : bool :=
            match l with
            | [] => true
            | (_, c) :: r => well_formed c && all r
            end) es
  end.

(** The paths [collect_text_files] takes from the entries of a walk. *)
Definition files_of_walk (entries : list (path * list string * list string))
  : list path :=
  flat_map
    (fun '(dirpath, _, filenames) =>
       map (fun filename => dirpath ++ [filename])
           (filter (fun filename => negb (is_binary filename)) filenames))
    entries.

(** [m] never fails, and all it does is print and look at the tree. *)
Definition reads_only {A : Type} (m : M A) : Prop :=
  forall w, exists a evs,
    m w = (Ok a, log w evs) /\
    Forall (fun e => mutating e = false) evs.

(** The tree a call of [rename_path] leaves, or the exception it ends
    with. *)
Definition renamed_tree (t : node) (old_name new_name : path) : result node :=
  if path_eqb old_name new_name then Ok t
  else if path_exists t old_name then
    match makedirs_tree (dirname new_name) t with
    | Some t1 => move_tree old_name new_name t1
    | None => Raise OSError
    end
  else Ok t.

(** The tree the calls of [rename_path] for [renames] leave, made in the
    order of the list; the first exception ends them. *)
Fixpoint rename_paths (t : node) (renames : list (path * path)) : result node :=
  match renames with
  | [] => Ok t
  | (old, new) :: rest =>
      match renamed_tree t old new with
      | Ok t1 => rename_paths t1 rest
      | Raise e => Raise e
      end
  end.

(** What the calls of [replace_in_files] over [files] do, made for the
    pairs of [replacements] in the order of the list: the tree they leave,
    the sum of what they return, and their events. *)
Fixpoint rewrite_pairs (t : node) (files : list path)
    (replacements : list (string * string * string))
  : node * nat * list event :=
  match replacements with
  | [] => (t, 0, [])
  | (old, new, _) :: rest =>
      let '(t1, n1, evs1) :=
        if String.eqb old new then (t, 0, [])
        else rewrite_files t files old new in
      let '(t2, n2, evs2) := rewrite_pairs t1 files rest in
      (t2, n1 + n2, evs1 ++ evs2)
  end.

(** No end of [v] is a start of [pat] or starts with [pat]: an occurrence
    of [pat] in a text neither begins within an occurrence of [v] nor runs
    into one. *)
Fixpoint no_overlap (v pat : string) : bool :=
  match v with
  | EmptyString => true
  | String _ v' =>
      negb (String.prefix v pat) && negb (String.prefix pat v)
      && no_overlap v' pat
  end.

Fixpoint has_cr (s : string) : bool :=
  match s with
  | EmptyString => false
  | String c s' => Ascii.eqb c Py.CR || has_cr s'
  end.

Definition txt (s : string) : node := File (mkFile (encode s) true true).

Definition cr : string := String Py.CR EmptyString.

(** * Properties *)

(** ** Strings *)

Lemma count_from_zero_replace_from (old new s : string) :
  forall k, Py.count_from old s k = 0 ->
  Py.replace_from old new s k = String.substring k (String.length s - k) s.
Proof.
  induction s as [|c s IH]; intros k H.
  - destruct k; reflexivity.
  - cbn [Py.count_from Py.replace_from] in *. destruct k as [|k].
    + destruct (String.prefix old (String c s)); [discriminate|].
      rewrite (IH 0 H). rewrite Nat.sub_0_r. cbn [String.length String.substring].
      rewrite Nat.sub_0_r. reflexivity.
    + rewrite (IH k H). reflexivity.
Qed.

Lemma substring_all (s : string) : String.substring 0 (String.length s) s = s.
Proof. induction s; simpl; [reflexivity|]. f_equal. assumption. Qed.

(** Where [old] does not occur, [replace] changes nothing. *)
Lemma count_zero_replace (s old new : string) :
  Py.count s old = 0 -> Py.replace s old new = s.
Proof.
  unfold Py.count, Py.replace. destruct old as [|a old]; [discriminate|].
  intros H. rewrite (count_from_zero_replace_from _ new _ 0 H).
  rewrite Nat.sub_0_r. apply substring_all.
Qed.

Lemma decode_encode (s : string) : decode_ignore (encode s) = s.
Proof. induction s; simpl; [reflexivity|]. f_equal. assumption. Qed.

Lemma decodes_encode (s : string) : decodes (encode s) = true.
Proof. induction s; simpl; auto. Qed.

(** ** The tree *)

Lemma path_eqb_eq (p q : path) : path_eqb p q = true <-> p = q.
Proof.
  revert q. induction p as [|a p IH]; intros [|b q]; simpl; split; intros H;
    try reflexivity; try discriminate.
  - apply andb_true_iff in H as [H1 H2]. apply String.eqb_eq in H1.
    apply IH in H2. subst. reflexivity.
  - inversion H; subst. rewrite String.eqb_refl. simpl. apply IH. reflexivity.
Qed.

Lemma path_eqb_refl (p : path) : path_eqb p p = true.
Proof. apply path_eqb_eq. reflexivity. Qed.

Lemma path_eqb_neq (p q : path) : path_eqb p q = false <-> p <> q.
Proof.
  split; intros H.
  - intros E. apply path_eqb_eq in E. congruence.
  - destruct (path_eqb p q) eqn:E; [|reflexivity].
    apply path_eqb_eq in E. contradiction.
Qed.

Lemma is_prefix_refl (p : path) : is_prefix p p = true.
Proof. induction p; simpl; [reflexivity|]. rewrite String.eqb_refl. assumption. Qed.

Lemma is_prefix_app (p q : path) : is_prefix p (p ++ q) = true.
Proof. induction p; simpl; [reflexivity|]. rewrite String.eqb_refl. assumption. Qed.

Lemma is_prefix_split (p q : path) :
  is_prefix p q = true -> exists r, q = p ++ r.
Proof.
  revert q. induction p as [|a p IH]; intros q H; simpl in *.
  - exists q. reflexivity.
  - destruct q as [|b q]; [discriminate|].
    apply andb_true_iff in H as [H1 H2]. apply String.eqb_eq in H1. subst.
    destruct (IH _ H2) as [r ->]. exists r. reflexivity.
Qed.

Lemma assoc_set_entry_same (n : string) (x : node) (es : list (string * node)) :
  assoc n (set_entry n x es) = Some x.
Proof.
  induction es as [|[m c] es IH]; simpl.
  - rewrite String.eqb_refl. reflexivity.
  - destruct (String.eqb n m) eqn:E; simpl; rewrite E; [reflexivity | exact IH].
Qed.

Lemma assoc_set_entry_other (n m : string) (x : node)
    (es : list (string * node)) :
  n <> m -> assoc m (set_entry n x es) = assoc m es.
Proof.
  intros Hnm. induction es as [|[k c] es IH]; simpl.
  - apply String.eqb_neq in Hnm. rewrite String.eqb_sym, Hnm. reflexivity.
  - destruct (String.eqb n k) eqn:E; simpl.
    + apply String.eqb_eq in E. subst k.
      assert (String.eqb m n = false) as -> by (apply String.eqb_neq; congruence).
      reflexivity.
    + rewrite IH. reflexivity.
Qed.

Lemma assoc_del_entry_same (n : string) (es : list (string * node)) :
  assoc n (del_entry n es) = None.
Proof.
  induction es as [|[m c] es IH]; simpl; [reflexivity|].
  destruct (String.eqb n m) eqn:E; simpl; [exact IH|]. rewrite E. exact IH.
Qed.

Lemma assoc_del_entry_other (n m : string) (es : list (string * node)) :
  n <> m -> assoc m (del_entry n es) = assoc m es.
Proof.
  intros Hnm. induction es as [|[k c] es IH]; simpl; [reflexivity|].
  destruct (String.eqb n k) eqn:E; simpl.
  - apply String.eqb_eq in E. subst k.
    assert (String.eqb m n = false) as -> by (apply String.eqb_neq; congruence).
    exact IH.
  - rewrite IH. reflexivity.
Qed.

(** A path that diverges from [p] does not see what [put] does at [p]. *)
Lemma lookup_put_diverge (p q : path) (x t : node) :
  is_prefix p q = false -> is_prefix q p = false ->
  lookup (put p x t) q = lookup t q.
Proof.
  revert q t. induction p as [|n p IH]; intros q t Hpq Hqp; [discriminate|].
  destruct q as [|m q]; [discriminate|]. simpl in Hpq, Hqp.
  destruct t as [f|es]; [reflexivity|]. simpl.
  destruct (String.eqb n m) eqn:E.
  - apply String.eqb_eq in E. subst m. rewrite String.eqb_refl in Hqp.
    simpl in Hpq, Hqp.
    destruct (assoc n es) as [c|] eqn:A.
    + simpl. rewrite assoc_set_entry_same. apply IH; assumption.
    + destruct p; [discriminate|]. simpl. rewrite A. reflexivity.
  - apply String.eqb_neq in E.
    destruct (assoc n es) as [c|] eqn:A.
    + simpl. rewrite assoc_set_entry_other by assumption. reflexivity.
    + destruct p; simpl; [|reflexivity].
      rewrite assoc_set_entry_other by assumption. reflexivity.
Qed.

(** Below a file there is nothing. *)
Lemma lookup_below_file (t : node) (p r : path) (f : file) :
  lookup t p = Some (File f) -> r <> [] -> lookup t (p ++ r) = None.
Proof.
  revert t. induction p as [|n p IH]; intros t H Hr; simpl in *.
  - inversion H; subst. destruct r; [contradiction | reflexivity].
  - destruct t as [g|es]; [discriminate|].
    destruct (assoc n es); [|discriminate]. apply IH; assumption.
Qed.

(** What is above an existing path is a directory. *)
Lemma lookup_above (t : node) (p r : path) (x : node) :
  lookup t (p ++ r) = Some x -> r <> [] ->
  exists es, lookup t p = Some (Dir es).
Proof.
  revert t. induction p as [|n p IH]; intros t H Hr; simpl in *.
  - destruct r as [|m r]; [contradiction|]. simpl in H.
    destruct t as [g|es]; [discriminate|]. exists es. reflexivity.
  - destruct t as [g|es]; [discriminate|].
    destruct (assoc n es); [|discriminate]. apply IH with (1 := H). assumption.
Qed.

Lemma lookup_put_same (p : path) (x y t : node) :
  lookup t p = Some y -> lookup (put p x t) p = Some x.
Proof.
  revert t. induction p as [|n p IH]; intros t H; simpl in *; [reflexivity|].
  destruct t as [g|es]; [discriminate|].
  destruct (assoc n es) as [c|] eqn:A; [|discriminate].
  simpl. rewrite assoc_set_entry_same. apply IH. assumption.
Qed.

(** Writing a file over a file changes nothing at any other path that is
    not above it. *)
Lemma lookup_put_file (p q : path) (f f' : file) (t : node) :
  lookup t p = Some (File f) -> is_prefix q p = false ->
  lookup (put p (File f') t) q = lookup t q.
Proof.
  intros H Hqp. destruct (is_prefix p q) eqn:Hpq.
  - apply is_prefix_split in Hpq as [r ->].
    assert (r <> []) as Hr.
    { intros ->. rewrite app_nil_r, is_prefix_refl in Hqp. discriminate. }
    rewrite (lookup_below_file _ _ _ _ H Hr).
    apply lookup_below_file with (f := f'); [|assumption].
    apply lookup_put_same with (y := File f). assumption.
  - apply lookup_put_diverge; assumption.
Qed.

Lemma file_at_put_same (p : path) (f f' : file) (t : node) :
  file_at t p = Some f -> file_at (put p (File f') t) p = Some f'.
Proof.
  unfold file_at. intros H. destruct (lookup t p) as [[g|es]|] eqn:L;
    try discriminate. rewrite (lookup_put_same _ _ _ _ L). reflexivity.
Qed.

(** Writing a file over a file changes no other file. *)
Lemma file_at_put_other (p q : path) (f f' : file) (t : node) :
  file_at t p = Some f -> q <> p ->
  file_at (put p (File f') t) q = file_at t q.
Proof.
  unfold file_at. intros H Hne.
  destruct (lookup t p) as [[g|es]|] eqn:L; try discriminate.
  destruct (is_prefix q p) eqn:Hqp.
  - apply is_prefix_split in Hqp as [r ->].
    assert (r <> []) as Hr by (intros ->; rewrite app_nil_r in Hne; congruence).
    destruct (lookup_above _ _ _ _ L Hr) as [es ->].
    assert (lookup (put (q ++ r) (File f') t) (q ++ r) = Some (File f')) as L'
      by (apply lookup_put_same with (y := File g); assumption).
    destruct (lookup_above _ _ _ _ L' Hr) as [es' ->]. reflexivity.
  - rewrite (lookup_put_file _ _ _ _ _ L Hqp). reflexivity.
Qed.

(** ** The loops over the files *)

Lemma after_after (w : world) (t1 t2 : node) (evs1 evs2 : list event) :
  after (after w t1 evs1) t2 evs2 = after w t2 (evs1 ++ evs2).
Proof. unfold after. simpl. rewrite app_assoc. reflexivity. Qed.

Lemma after_nil (w : world) : after w (fs w) [] = w.
Proof. destruct w. unfold after. simpl. rewrite app_nil_r. reflexivity. Qed.

(** One turn of the loop of [replace_in_files]. *)
Lemma replace_loop_cons (p : path) (rest : list path) (old new : string)
    (total : nat) (w : world) :
  replace_loop (p :: rest) old new total w =
  let '(t1, n1, evs1) := rewrite_file (fs w) p old new in
  replace_loop rest old new (total + n1) (after w t1 evs1).
Proof.
  cbn [replace_loop]. unfold rewrite_file, text_at, file_at.
  unfold bind at 1. unfold try_OSError, read_text, write_text.
  unfold bind, emit, get_fs, set_fs, raise, ret, after. cbn [fs stdin procs trace].
  destruct (lookup (fs w) p) as [[f|es]|] eqn:L;
    [| rewrite Nat.add_0_r; reflexivity | rewrite Nat.add_0_r; reflexivity].
  destruct (readable f) eqn:R; [| rewrite Nat.add_0_r; reflexivity].
  destruct (Nat.ltb 0 (Py.count (read_of (cells f)) old));
    [| rewrite Nat.add_0_r; reflexivity].
  cbn [fs stdin procs trace]. rewrite L, ?R.
  destruct (writable f); cbn [fs stdin procs trace];
    rewrite <- ?app_assoc; cbn [app]; rewrite ?Nat.add_0_r; reflexivity.
Qed.

(** The loop of [replace_in_files] always comes to its end, and does what
    [rewrite_files] says. *)
Lemma replace_loop_spec (files : list path) (old new : string) :
  forall (total : nat) (w : world),
  replace_loop files old new total w =
  let '(t, n, evs) := rewrite_files (fs w) files old new in
  (Ok (total + n), after w t evs).
Proof.
  induction files as [|p rest IH]; intros total w.
  - cbn. rewrite Nat.add_0_r, after_nil. reflexivity.
  - rewrite replace_loop_cons. cbn [rewrite_files].
    destruct (rewrite_file (fs w) p old new) as [[t1 n1] evs1].
    rewrite IH. cbn [after fs].
    destruct (rewrite_files t1 rest old new) as [[t2 n2] evs2].
    rewrite after_after, Nat.add_assoc. reflexivity.
Qed.

Lemma replace_in_files_spec (files : list path) (old new : string) (w : world) :
  replace_in_files files old new w =
  if String.eqb old new then (Ok 0, w)
  else let '(t, n, evs) := rewrite_files (fs w) files old new in
       (Ok n, after w t evs).
Proof.
  unfold replace_in_files. destruct (String.eqb old new); [reflexivity|].
  rewrite replace_loop_spec. reflexivity.
Qed.

Lemma log_log (w : world) (evs1 evs2 : list event) :
  log (log w evs1) evs2 = log w (evs1 ++ evs2).
Proof. unfold log. simpl. rewrite app_assoc. reflexivity. Qed.

(** One turn of the loop of [count_replacements]. *)
Lemma count_loop_cons (p : path) (rest : list path) (old : string)
    (total_count file_count : nat) (w : world) :
  count_loop (p :: rest) old total_count file_count w =
  count_loop rest old
    (total_count + occurrences (fs w) p old)
    (file_count + if Nat.ltb 0 (occurrences (fs w) p old) then 1 else 0)
    (log w [EvOpenRead p]).
Proof.
  cbn [count_loop]. unfold occurrences, text_at, file_at.
  unfold bind at 1. unfold try_OSError, read_text.
  unfold bind, emit, get_fs, raise, ret, log. cbn [fs stdin procs trace].
  destruct (lookup (fs w) p) as [[f|es]|] eqn:L;
    [| cbn; rewrite !Nat.add_0_r; reflexivity
     | cbn; rewrite !Nat.add_0_r; reflexivity].
  destruct (readable f) eqn:R; [| cbn; rewrite !Nat.add_0_r; reflexivity].
  destruct (Nat.ltb 0 (Py.count (read_of (cells f)) old)) eqn:C;
    cbn [fst snd]; [reflexivity|].
  apply Nat.ltb_ge in C.
  replace (Py.count (read_of (cells f)) old) with 0 by lia.
  rewrite !Nat.add_0_r. reflexivity.
Qed.

Lemma count_loop_spec (files : list path) (old : string) :
  forall (total_count file_count : nat) (w : world),
  count_loop files old total_count file_count w =
  (Ok (total_count + total_occurrences (fs w) files old,
       file_count + files_with (fs w) files old),
   log w (map EvOpenRead files)).
Proof.
  induction files as [|p rest IH]; intros tc fc w.
  - cbn. rewrite !Nat.add_0_r. unfold log. rewrite app_nil_r.
    destruct w; reflexivity.
  - rewrite count_loop_cons, IH, log_log. cbn [log fs app map].
    cbn [total_occurrences]. unfold files_with. cbn [filter].
    rewrite Nat.add_assoc. do 3 f_equal.
    destruct (Nat.ltb 0 (occurrences (fs w) p old)); cbn [List.length]; lia.
Qed.

Lemma count_replacements_spec (files : list path) (old new : string)
    (w : world) :
  count_replacements files old new w =
  if String.eqb old new then (Ok (0, 0), w)
  else (Ok (total_occurrences (fs w) files old, files_with (fs w) files old),
        log w (map EvOpenRead files)).
Proof.
  unfold count_replacements. destruct (String.eqb old new); [reflexivity|].
  rewrite count_loop_spec. reflexivity.
Qed.

(** ** What the rewriting of the files changes *)

(** A turn of the loop changes no file but its own. *)
Lemma rewrite_file_other (t t1 : node) (p q : path) (old new : string)
    (n1 : nat) (evs1 : list event) :
  rewrite_file t p old new = (t1, n1, evs1) -> q <> p ->
  file_at t1 q = file_at t q.
Proof.
  unfold rewrite_file, text_at. intros H Hne.
  destruct (file_at t p) as [f|] eqn:F; [|inversion H; reflexivity].
  destruct (readable f); [|inversion H; reflexivity].
  destruct (Nat.ltb 0 _); [|inversion H; reflexivity].
  destruct (writable f); inversion H; subst; [|reflexivity].
  apply file_at_put_other with (f := f); assumption.
Qed.

(** A turn of the loop writes to its own file only, and only when [old]
    occurs in it. *)
Lemma rewrite_file_events (t t1 : node) (p : path) (old new : string)
    (n1 : nat) (evs1 : list event) :
  rewrite_file t p old new = (t1, n1, evs1) ->
  Forall (fun e => touches p e = true) evs1 /\
  (occurrences t p old = 0 -> t1 = t /\ evs1 = [EvOpenRead p]).
Proof.
  unfold rewrite_file, occurrences, text_at. intros H.
  assert (touches p (EvOpenRead p) = true) as T1 by apply path_eqb_refl.
  assert (touches p (EvOpenWrite p) = true) as T2 by apply path_eqb_refl.
  assert (forall c, touches p (EvWrite p c) = true) as T3
    by (intros; apply path_eqb_refl).
  destruct (file_at t p) as [f|] eqn:F;
    [|inversion H; subst; split; [repeat constructor; assumption | tauto]].
  destruct (readable f);
    [|inversion H; subst; split; [repeat constructor; assumption | tauto]].
  destruct (Nat.ltb 0 _) eqn:C;
    [|inversion H; subst; split; [repeat constructor; assumption | tauto]].
  apply Nat.ltb_lt in C.
  destruct (writable f); inversion H; subst; split;
    try (repeat constructor; auto); intros; lia.
Qed.

(** What a turn of the loop adds to the total, for a file that can be
    written whenever it can be read. *)
Lemma rewrite_file_count (t t1 : node) (p : path) (old new : string)
    (n1 : nat) (evs1 : list event) :
  rewrite_file t p old new = (t1, n1, evs1) ->
  (forall f, file_at t p = Some f -> readable f = true -> writable f = true) ->
  n1 = occurrences t p old.
Proof.
  unfold rewrite_file, occurrences, text_at. intros H W.
  destruct (file_at t p) as [f|] eqn:F; [|inversion H; reflexivity].
  destruct (readable f) eqn:R; [|inversion H; reflexivity].
  rewrite (W f eq_refl R) in H.
  destruct (Nat.ltb 0 _) eqn:C; inversion H; subst; [reflexivity|].
  apply Nat.ltb_ge in C. lia.
Qed.

(** What a turn of the loop leaves in a file that can be read and
    written. *)
Lemma rewrite_file_text (t t1 : node) (p : path) (old new : string)
    (n1 : nat) (evs1 : list event) (f : file) :
  rewrite_file t p old new = (t1, n1, evs1) ->
  file_at t p = Some f -> readable f = true -> writable f = true ->
  file_at t1 p = Some (rewritten f old new) /\ read_write t1 p.
Proof.
  unfold rewrite_file, rewritten, text_at. intros H F R W.
  rewrite F, R, W in H.
  destruct (Nat.ltb 0 _) eqn:C; inversion H; subst; clear H.
  - rewrite (file_at_put_same _ _ _ _ F). split; [rewrite R; reflexivity|].
    eexists. split; [apply (file_at_put_same _ _ _ _ F)|]. cbn. auto.
  - split; [exact F|]. exists f. auto.
Qed.

Lemma total_occurrences_ext (t t' : node) (files : list path) (old : string) :
  (forall q, In q files -> file_at t' q = file_at t q) ->
  total_occurrences t' files old = total_occurrences t files old.
Proof.
  induction files as [|p rest IH]; intros H; cbn; [reflexivity|].
  rewrite IH by (intros; apply H; right; assumption).
  unfold occurrences, text_at. rewrite H by (left; reflexivity). reflexivity.
Qed.

(** The loop changes no file outside its list. *)
Lemma rewrite_files_other (files : list path) (old new : string) :
  forall (t t' : node) (n : nat) (evs : list event) (q : path),
  rewrite_files t files old new = (t', n, evs) -> ~ In q files ->
  file_at t' q = file_at t q.
Proof.
  induction files as [|p rest IH]; intros t t' n evs q H Hq; cbn in H.
  - inversion H. reflexivity.
  - destruct (rewrite_file t p old new) as [[t1 n1] evs1] eqn:S1.
    destruct (rewrite_files t1 rest old new) as [[t2 n2] evs2] eqn:S2.
    inversion H; subst; clear H.
    rewrite (IH _ _ _ _ q S2) by (intros X; apply Hq; right; exact X).
    apply (rewrite_file_other _ _ _ _ _ _ _ _ S1).
    intros ->. apply Hq. left. reflexivity.
Qed.

(** Over distinct files that can be written whenever they can be read, the
    loop replaces as many occurrences as the files hold. *)
Lemma rewrite_files_count (files : list path) (old new : string) :
  forall (t t' : node) (n : nat) (evs : list event),
  rewrite_files t files old new = (t', n, evs) ->
  NoDup files ->
  (forall p f, In p files -> file_at t p = Some f -> readable f = true ->
               writable f = true) ->
  n = total_occurrences t files old.
Proof.
  induction files as [|p rest IH]; intros t t' n evs H ND W; cbn in H.
  - inversion H. reflexivity.
  - destruct (rewrite_file t p old new) as [[t1 n1] evs1] eqn:S1.
    destruct (rewrite_files t1 rest old new) as [[t2 n2] evs2] eqn:S2.
    inversion H; subst; clear H. inversion ND as [|? ? Hnotin ND']; subst.
    assert (forall q, In q rest -> file_at t1 q = file_at t q) as Same.
    { intros q Hq. apply (rewrite_file_other _ _ _ _ _ _ _ _ S1).
      intros ->. contradiction. }
    cbn [total_occurrences].
    rewrite (rewrite_file_count _ _ _ _ _ _ _ S1)
      by (intros f; apply W; left; reflexivity).
    rewrite (IH _ _ _ _ S2 ND').
    + rewrite (total_occurrences_ext _ _ _ _ Same). reflexivity.
    + intros q f Hq. rewrite (Same q Hq). apply W. right. exact Hq.
Qed.

(** Over distinct files that can be read and written, the loop leaves of
    each file what [rewritten] says. *)
Lemma rewrite_files_text (files : list path) (old new : string) :
  forall (t t' : node) (n : nat) (evs : list event),
  rewrite_files t files old new = (t', n, evs) ->
  NoDup files -> (forall p, In p files -> read_write t p) ->
  forall p f, In p files -> file_at t p = Some f ->
  file_at t' p = Some (rewritten f old new).
Proof.
  induction files as [|p rest IH]; intros t t' n evs H ND RW q f Hq F;
    cbn in H; [contradiction|].
  destruct (rewrite_file t p old new) as [[t1 n1] evs1] eqn:S1.
  destruct (rewrite_files t1 rest old new) as [[t2 n2] evs2] eqn:S2.
  inversion H; subst; clear H. inversion ND as [|? ? Hnotin ND']; subst.
  assert (forall r, In r rest -> file_at t1 r = file_at t r) as Same.
  { intros r Hr. apply (rewrite_file_other _ _ _ _ _ _ _ _ S1).
    intros ->. contradiction. }
  destruct Hq as [->|Hq].
  - destruct (RW q (or_introl eq_refl)) as (g & G & R & W).
    assert (g = f) by congruence. subst g.
    destruct (rewrite_file_text _ _ _ _ _ _ _ _ S1 F R W) as [T1 _].
    rewrite (rewrite_files_other _ _ _ _ _ _ _ _ S2 Hnotin). exact T1.
  - apply (IH _ _ _ _ S2 ND'); [| exact Hq |].
    + intros r Hr. destruct (RW r (or_intror Hr)) as (g & G & R & W).
      exists g. rewrite (Same r Hr). auto.
    + rewrite (Same q Hq). exact F.
Qed.

Lemma touches_other (p q : path) (e : event) :
  touches p e = true -> q <> p -> touches q e = false.
Proof.
  destruct e; cbn; try discriminate; intros H Hne;
    apply path_eqb_eq in H; subst; apply path_eqb_neq; congruence.
Qed.

(** A file in which [old] does not occur is neither changed nor opened for
    writing by the loop, whatever else is in the list. *)
Lemma rewrite_files_untouched (files : list path) (old new : string) :
  forall (t t' : node) (n : nat) (evs : list event) (q : path) (f : file),
  rewrite_files t files old new = (t', n, evs) ->
  file_at t q = Some f -> Py.count (read_of (cells f)) old = 0 ->
  file_at t' q = Some f /\
  Forall (fun e => is_write e && touches q e = false) evs.
Proof.
  induction files as [|p rest IH]; intros t t' n evs q f H F C; cbn in H.
  - inversion H; subst. split; [assumption | constructor].
  - destruct (rewrite_file t p old new) as [[t1 n1] evs1] eqn:S1.
    destruct (rewrite_files t1 rest old new) as [[t2 n2] evs2] eqn:S2.
    inversion H; subst; clear H.
    destruct (rewrite_file_events _ _ _ _ _ _ _ S1) as [Hev Hzero].
    assert (file_at t1 q = Some f /\
            Forall (fun e => is_write e && touches q e = false) evs1)
      as [F1 E1].
    { destruct (path_eqb p q) eqn:E.
      - apply path_eqb_eq in E. subst q.
        destruct Hzero as [-> ->].
        + unfold occurrences, text_at. rewrite F.
          destruct (readable f); [exact C | reflexivity].
        + split; [assumption | repeat constructor].
      - apply path_eqb_neq in E. split.
        + rewrite (rewrite_file_other _ _ _ _ _ _ _ _ S1); [assumption|].
          congruence.
        + eapply Forall_impl; [|exact Hev]. cbn. intros e He.
          rewrite (touches_other p q e He) by congruence.
          apply andb_false_r. }
    destruct (IH _ _ _ _ q f S2 F1 C) as [F2 E2].
    split; [assumption|]. apply Forall_app. split; assumption.
Qed.

Lemma file_at_lookup (t : node) (p : path) (f : file) :
  file_at t p = Some f <-> lookup t p = Some (File f).
Proof.
  unfold file_at. destruct (lookup t p) as [[g|es]|]; split; intros H;
    inversion H; reflexivity.
Qed.

(** ** The claims about the replacement engine *)

(** C9.  A file in which [old] does not occur, that is, does not occur in
    the text [replace_in_files] reads from it (the bytes that decode, line
    ends read as LF), is not rewritten: it is never opened for writing and
    what it holds is what it held before, also when other files of the
    list are rewritten. *)
Theorem replace_in_files_leaves_files_without_old
    (files : list path) (old new : string) (w : world) (q : path) (f : file) :
  lookup (fs w) q = Some (File f) ->
  Py.count (read_of (cells f)) old = 0 ->
  exists n w' evs,
    replace_in_files files old new w = (Ok n, w') /\
    lookup (fs w') q = Some (File f) /\
    trace w' = trace w ++ evs /\
    Forall (fun e => is_write e && touches q e = false) evs.
Proof.
  intros L C. apply file_at_lookup in L.
  rewrite replace_in_files_spec. destruct (String.eqb old new).
  - exists 0, w, []. rewrite app_nil_r. repeat split; try constructor.
    apply file_at_lookup. assumption.
  - destruct (rewrite_files (fs w) files old new) as [[t' n] evs] eqn:S.
    destruct (rewrite_files_untouched _ _ _ _ _ _ _ _ _ S L C) as [F E].
    exists n, (after w t' evs), evs. repeat split; try assumption.
    apply file_at_lookup. assumption.
Qed.

Lemma replace_in_files_leaves_files_without_old_witness :
  let kept := mkFile (encode "nothing here") true true in
  let t := Dir [("a.txt", txt "APP_DB"); ("b.txt", File kept)] in
  let w := mkWorld t [] [] [] in
  exists n w' evs,
    replace_in_files [["a.txt"]; ["b.txt"]] "APP_DB" "ACME_DB" w = (Ok n, w') /\
    lookup (fs w') ["b.txt"] = Some (File kept) /\
    trace w' = trace w ++ evs /\
    Forall (fun e => is_write e && touches ["b.txt"] e = false) evs.
Proof.
  cbv zeta.
  apply (replace_in_files_leaves_files_without_old
           [["a.txt"]; ["b.txt"]] "APP_DB" "ACME_DB"); reflexivity.
Defined.




(** C1, amended.  Over a list of distinct files, each of which can be
    written if it can be read, the total that [count_replacements] reports
    is the count that [replace_in_files] returns when it runs on the same
    files as they were counted. *)
Theorem dry_run_count_is_applied_count (files : list path) (old new : string)
    (w : world) :
  NoDup files ->
  (forall p f, In p files -> file_at (fs w) p = Some f ->
               readable f = true -> writable f = true) ->
  exists n k w1 w2,
    count_replacements files old new w = (Ok (n, k), w1) /\
    replace_in_files files old new w = (Ok n, w2).
Proof.
  intros ND W. rewrite count_replacements_spec, replace_in_files_spec.
  destruct (String.eqb old new).
  - exists 0, 0, w, w. split; reflexivity.
  - destruct (rewrite_files (fs w) files old new) as [[t' n] evs] eqn:S.
    exists (total_occurrences (fs w) files old), (files_with (fs w) files old),
      (log w (map EvOpenRead files)), (after w t' evs).
    split; [reflexivity|].
    rewrite (rewrite_files_count _ _ _ _ _ _ _ S ND W). reflexivity.
Qed.

Lemma dry_run_count_is_applied_count_witness :
  let t := Dir [("a.txt", txt "APP_DB and APP_DB"); ("b.txt", txt "APP_DB")] in
  let w := mkWorld t [] [] [] in
  exists n k w1 w2,
    count_replacements [["a.txt"]; ["b.txt"]] "APP_DB" "ACME_DB" w
    = (Ok (n, k), w1) /\
    replace_in_files [["a.txt"]; ["b.txt"]] "APP_DB" "ACME_DB" w = (Ok n, w2).
Proof.
  cbv zeta. apply dry_run_count_is_applied_count.
  - repeat constructor; cbn; intuition discriminate.
  - intros p f [<-|[<-|[]]] F _; vm_compute in F; inversion F; reflexivity.
Defined.

(** C1 as stated fails in [main]: the pairs are applied one after the
    other, and replacing APP_DB by ACME in APP_DB_UTILS leaves nothing of
    _DB_UTILS, which the dry run had counted once. *)
Lemma dry_run_count_differs :
  let t := Dir [("ddl.sql", txt "USE DATABASE APP_DB_UTILS;")] in
  let w := mkWorld t [""; ""; ""; "ACME"; "ACME_UTILS"; ""; "y"; "n"] [] [] in
  let files := text_files_of t in
  fst (count_replacements files "_DB_UTILS" "ACME_UTILS" w) = Ok (1, 1) /\
  (exists w1,
     replace_in_files files "APP_DB" "ACME" w = (Ok 1, w1) /\
     fst (replace_in_files files "_DB_UTILS" "ACME_UTILS" w1) = Ok 0) /\
  fst (main w) = Ok tt /\
  In (EvPrint
        "    - Replace 'APP_DB' -> 'ACME' (1 occurrences in 1 files)")
     (trace (snd (main w))) /\
  In (EvPrint
        "    - Replace '_DB_UTILS' -> 'ACME_UTILS' (1 occurrences in 1 files)")
     (trace (snd (main w))) /\
  In (EvPrint "  Done! 1 replacements applied.") (trace (snd (main w))).
Proof.
  cbv zeta. split; [reflexivity|]. split.
  - eexists. split; [vm_compute; reflexivity | reflexivity].
  - split; [reflexivity|]. vm_compute.
    repeat split; repeat (first [left; reflexivity | right]).
Qed.

(** C2.  The claim says what the code sets out to do and does not do: a
    file with a byte that does not decode is not skipped.  Since the file
    is opened with [errors="ignore"], no [UnicodeDecodeError] is ever
    raised for the [except] clause to catch: the file is read without that
    byte, counted by what is left, and rewritten without the byte. *)
Lemma undecodable_file_is_not_skipped :
  let f := mkFile (Undecodable (ascii_of_nat 255) :: encode "APP_DB") true true in
  let w := mkWorld (Dir [("f", File f)]) [] [] [] in
  decodes (cells f) = false /\
  fst (count_replacements [["f"]] "APP_DB" "X" w) = Ok (1, 1) /\
  fst (replace_in_files [["f"]] "APP_DB" "X" w) = Ok 1 /\
  file_at (fs (snd (replace_in_files [["f"]] "APP_DB" "X" w))) ["f"]
  = Some (mkFile (encode "X") true true).
Proof. cbv zeta. repeat split. Qed.

(** ** The walk over the tree *)

Lemma node_ind' (P : node -> Prop) :
  (forall f, P (File f)) ->
  (forall es, Forall (fun e => P (snd e)) es -> P (Dir es)) ->
  forall t, P t.
Proof.
  intros HF HD. fix IH 1. intros [f|es]; [apply HF|]. apply HD.
  induction es as [|[n c] es IHes]; constructor; [apply IH | exact IHes].
Qed.

(** The walk of a directory: the directory itself, then the walks of the
    directories in it that were not pruned. *)
Lemma os_walk_dir (prune : list string -> list string) (dirpath : path)
    (es : list (string * node)) :
  os_walk prune dirpath (Dir es) =
  (dirpath, prune (dir_names es), file_names es) ::
  flat_map
    (fun e => if is_dir_node (snd e) && mem (fst e) (prune (dir_names es))
              then os_walk prune (dirpath ++ [fst e]) (snd e) else [])
    es.
Proof.
  cbn [os_walk]. f_equal. generalize (prune (dir_names es)) as kept.
  intros kept. induction es as [|[n c] es IH]; [reflexivity|].
  cbn [flat_map fst snd]. f_equal. exact IH.
Qed.

Lemma mem_true (x : string) (l : list string) : mem x l = true <-> In x l.
Proof.
  unfold mem. rewrite existsb_exists. split.
  - intros (y & Hy & E). apply String.eqb_eq in E. subst. exact Hy.
  - intros H. exists x. split; [exact H | apply String.eqb_refl].
Qed.

Lemma mem_keep_dirs (d : string) (l : list string) :
  mem d (keep_dirs l) = true -> mem d SKIP_DIRS = false.
Proof.
  intros H. apply mem_true in H. unfold keep_dirs in H.
  apply filter_In in H as [_ H]. apply negb_true_iff in H. exact H.
Qed.

Lemma no_skipped_app (p q : path) :
  no_skipped (p ++ q) = no_skipped p && no_skipped q.
Proof.
  unfold no_skipped. rewrite existsb_app, negb_orb. reflexivity.
Qed.

(** The walk yields no directory at or below a directory named in
    [SKIP_DIRS]. *)
Lemma os_walk_no_skipped (t : node) :
  forall dirpath entry,
  In entry (os_walk keep_dirs dirpath t) ->
  exists sub, fst (fst entry) = dirpath ++ sub /\ no_skipped sub = true.
Proof.
  induction t as [f|es IH] using node_ind'; intros dirpath entry H.
  - contradiction.
  - rewrite os_walk_dir in H. destruct H as [<-|H].
    + exists []. rewrite app_nil_r. split; reflexivity.
    + apply in_flat_map in H as ([n c] & Hin & H). cbn [fst snd] in H.
      destruct (is_dir_node c && mem n (keep_dirs (dir_names es))) eqn:E;
        [|contradiction].
      apply andb_true_iff in E as [_ E]. apply mem_keep_dirs in E.
      rewrite Forall_forall in IH.
      destruct (IH (n, c) Hin _ _ H) as (sub & -> & Hsub).
      exists (n :: sub). rewrite <- app_assoc. split; [reflexivity|].
      unfold no_skipped in *. cbn [existsb]. rewrite E. exact Hsub.
Qed.

Lemma dirname_app_last (p : path) (n : string) : dirname (p ++ [n]) = p.
Proof. unfold dirname. apply removelast_last. Qed.

Lemma basename_app_last (p : path) (n : string) : basename (p ++ [n]) = n.
Proof. unfold basename. apply last_last. Qed.

(** Where the collected paths come from. *)
Lemma text_files_of_In (t : node) (p : path) :
  In p (text_files_of t) <->
  exists dirpath dirnames filenames filename,
    In (dirpath, dirnames, filenames) (os_walk keep_dirs [] t) /\
    In filename filenames /\ is_binary filename = false /\
    p = dirpath ++ [filename].
Proof.
  unfold text_files_of. rewrite in_flat_map. split.
  - intros ([[dp ds] fns] & Hin & H). apply in_map_iff in H as (f & <- & Hf).
    apply filter_In in Hf as [Hf B]. apply negb_true_iff in B.
    exists dp, ds, fns, f. auto.
  - intros (dp & ds & fns & f & Hin & Hf & B & ->).
    exists (dp, ds, fns). split; [exact Hin|].
    apply in_map_iff. exists f. split; [reflexivity|].
    apply filter_In. split; [exact Hf|]. rewrite B. reflexivity.
Qed.

Lemma text_files_of_ok (t : node) (p : path) :
  In p (text_files_of t) ->
  under_skipped p = false /\ is_binary (basename p) = false.
Proof.
  intros H. apply text_files_of_In in H as (dp & ds & fns & f & Hin & _ & B & ->).
  rewrite basename_app_last. split; [|exact B].
  unfold under_skipped. rewrite dirname_app_last.
  destruct (os_walk_no_skipped _ _ _ Hin) as (sub & E & Hsub).
  cbn in E. subst dp. unfold no_skipped in Hsub.
  apply negb_true_iff in Hsub. exact Hsub.
Qed.

(** The loop of [replace_in_files] opens no path outside its list. *)
Lemma rewrite_files_events (files : list path) (old new : string) :
  forall (t t' : node) (n : nat) (evs : list event),
  rewrite_files t files old new = (t', n, evs) ->
  Forall (fun e => exists p, In p files /\ touches p e = true) evs.
Proof.
  induction files as [|p rest IH]; intros t t' n evs H; cbn in H.
  - inversion H. constructor.
  - destruct (rewrite_file t p old new) as [[t1 n1] evs1] eqn:S1.
    destruct (rewrite_files t1 rest old new) as [[t2 n2] evs2] eqn:S2.
    inversion H; subst; clear H. apply Forall_app. split.
    + destruct (rewrite_file_events _ _ _ _ _ _ _ S1) as [Hev _].
      eapply Forall_impl; [|exact Hev]. cbn. intros e He.
      exists p. split; [left; reflexivity | exact He].
    + eapply Forall_impl; [|exact (IH _ _ _ _ S2)]. cbn.
      intros e (q & Hq & He). exists q. split; [right; exact Hq | exact He].
Qed.

Lemma lower_binary_extension (ext : string) :
  mem ext BINARY_EXTENSIONS = true -> Py.lower ext = ext.
Proof.
  intros H. apply mem_true in H. cbn in H.
  repeat (destruct H as [<-|H]; [reflexivity|]). contradiction.
Qed.

(** C5.  [collect_text_files] returns what the walk finds; the walk enters
    no directory whose name is in [SKIP_DIRS]; no path returned lies under
    such a directory or has an extension of [BINARY_EXTENSIONS]; and so
    counting and replacing over the collected files neither opens nor
    changes a file under such a directory. *)
Theorem collect_text_files_skips (w : world) :
  collect_text_files w
  = (Ok (text_files_of (fs w)), log w [EvWalk (text_files_of (fs w))]) /\
  (forall entry, In entry (os_walk keep_dirs [] (fs w)) ->
     no_skipped (fst (fst entry)) = true) /\
  (forall p, In p (text_files_of (fs w)) ->
     under_skipped p = false /\
     mem (snd (Py.splitext (basename p))) BINARY_EXTENSIONS = false /\
     is_binary (basename p) = false) /\
  (forall q old new, under_skipped q = true ->
     (exists r evs,
        count_replacements (text_files_of (fs w)) old new w
        = (Ok r, log w evs) /\
        Forall (fun e => touches q e = false) evs) /\
     (exists n w' evs,
        replace_in_files (text_files_of (fs w)) old new w = (Ok n, w') /\
        trace w' = trace w ++ evs /\
        Forall (fun e => touches q e = false) evs /\
        file_at (fs w') q = file_at (fs w) q)).
Proof.
  split; [reflexivity|]. split; [|split].
  - intros entry H. destruct (os_walk_no_skipped _ _ _ H) as (sub & E & Hs).
    cbn in E. rewrite E. exact Hs.
  - intros p H. destruct (text_files_of_ok _ _ H) as [U B].
    split; [exact U|]. split; [|exact B].
    destruct (mem (snd (Py.splitext (basename p))) BINARY_EXTENSIONS) eqn:M;
      [|reflexivity].
    unfold is_binary in B. rewrite (lower_binary_extension _ M) in B.
    congruence.
  - intros q old new U.
    assert (~ In q (text_files_of (fs w))) as Hq.
    { intros H. apply text_files_of_ok in H as [U' _]. congruence. }
    split.
    + rewrite count_replacements_spec. destruct (String.eqb old new).
      * exists (0, 0), []. unfold log. rewrite app_nil_r.
        destruct w; split; [reflexivity | constructor].
      * eexists. eexists. split; [reflexivity|].
        apply Forall_forall. intros e He. apply in_map_iff in He as (p & <- & Hp).
        cbn. apply path_eqb_neq. intros ->. contradiction.
    + rewrite replace_in_files_spec. destruct (String.eqb old new).
      * exists 0, w, []. rewrite app_nil_r. repeat split. constructor.
      * destruct (rewrite_files (fs w) (text_files_of (fs w)) old new)
          as [[t' n] evs] eqn:S.
        exists n, (after w t' evs), evs. repeat split.
        -- eapply Forall_impl; [|exact (rewrite_files_events _ _ _ _ _ _ _ S)].
           cbn. intros e (p & Hp & He). apply (touches_other p q e He).
           intros ->. contradiction.
        -- exact (rewrite_files_other _ _ _ _ _ _ _ _ S Hq).
Qed.

Example collect_text_files_example :
  text_files_of
    (Dir [("README.md", txt "x");
          (".git", Dir [("config", txt "x")]);
          ("models", Dir [("a.sql", txt "x"); ("seed.CSV", txt "x");
                          ("target", Dir [("b.sql", txt "x")])]);
          ("logo.Png", txt "x")])
  = [["README.md"]; ["models"; "a.sql"]].
Proof. reflexivity. Qed.

(** ** Extensions and case *)

Lemma lower_char_idem (c : ascii) :
  Py.lower_char (Py.lower_char c) = Py.lower_char c.
Proof.
  destruct c as [b0 b1 b2 b3 b4 b5 b6 b7].
  destruct b0, b1, b2, b3, b4, b5, b6, b7; vm_compute; reflexivity.
Qed.

Lemma is_dot_lower_char (c : ascii) :
  Py.is_dot (Py.lower_char c) = Py.is_dot c.
Proof.
  destruct c as [b0 b1 b2 b3 b4 b5 b6 b7].
  destruct b0, b1, b2, b3, b4, b5, b6, b7; vm_compute; reflexivity.
Qed.

Lemma lower_idem (s : string) : Py.lower (Py.lower s) = Py.lower s.
Proof.
  induction s as [|c s IH]; cbn; [reflexivity|].
  rewrite lower_char_idem, IH. reflexivity.
Qed.

Lemma length_lower (s : string) : String.length (Py.lower s) = String.length s.
Proof. induction s; cbn; congruence. Qed.

Lemma substring_lower (s : string) :
  forall n m, String.substring n m (Py.lower s) = Py.lower (String.substring n m s).
Proof.
  induction s as [|c s IH]; intros [|n] [|m]; cbn; try reflexivity.
  - rewrite IH. reflexivity.
  - apply IH.
  - apply IH.
Qed.

Lemma rfind_dot_lower (s : string) : Py.rfind_dot (Py.lower s) = Py.rfind_dot s.
Proof.
  induction s as [|c s IH]; cbn; [reflexivity|].
  rewrite IH, is_dot_lower_char. reflexivity.
Qed.

Lemma all_dots_lower (s : string) : Py.all_dots (Py.lower s) = Py.all_dots s.
Proof.
  induction s as [|c s IH]; cbn; [reflexivity|].
  rewrite IH, is_dot_lower_char. reflexivity.
Qed.

(** The extension of the lowercased name is the lowercased extension. *)
Lemma splitext_lower (f : string) :
  snd (Py.splitext (Py.lower f)) = Py.lower (snd (Py.splitext f)).
Proof.
  unfold Py.splitext. rewrite rfind_dot_lower.
  destruct (Py.rfind_dot f) as [i|]; [|reflexivity].
  rewrite !substring_lower, all_dots_lower, length_lower.
  destruct (Py.all_dots (String.substring 0 i f)); reflexivity.
Qed.

Lemma is_binary_lower (f : string) : is_binary (Py.lower f) = is_binary f.
Proof.
  unfold is_binary. rewrite splitext_lower, lower_idem. reflexivity.
Qed.

(** C10.  The exclusion by extension does not look at case: a file name is
    excluded when the lowercased form of its extension is in
    [BINARY_EXTENSIONS], names that differ in case only are treated alike,
    a file the walk finds is collected unless it is excluded in this way,
    and so DATA.CSV and logo.Png are excluded as data.csv and logo.png
    are. *)
Theorem binary_extension_ignores_case :
  (forall f, is_binary f
             = mem (Py.lower (snd (Py.splitext f))) BINARY_EXTENSIONS) /\
  (forall f g, Py.lower f = Py.lower g -> is_binary f = is_binary g) /\
  (forall t dirpath dirnames filenames f,
     In (dirpath, dirnames, filenames) (os_walk keep_dirs [] t) ->
     In f filenames ->
     (In (dirpath ++ [f]) (text_files_of t) <-> is_binary f = false)) /\
  is_binary "DATA.CSV" = true /\ is_binary "data.csv" = true /\
  is_binary "logo.Png" = true /\ is_binary "logo.png" = true /\
  text_files_of (Dir [("DATA.CSV", txt "a,b"); ("logo.Png", txt "p");
                      ("data.csv", txt "a,b"); ("notes.TXT", txt "n")])
  = [["notes.TXT"]].
Proof.
  split; [reflexivity|]. split; [|split; [|repeat split]].
  - intros f g H. rewrite <- (is_binary_lower f), <- (is_binary_lower g), H.
    reflexivity.
  - intros t dp ds fns f Hin Hf. rewrite text_files_of_In. split.
    + intros (dp' & ds' & fns' & f' & _ & _ & B & E).
      apply app_inj_tail in E as [_ ->]. exact B.
    + intros B. exists dp, ds, fns, f. auto.
Qed.

(** ** Making directories, removing and moving *)

Lemma set_entry_same (n : string) (c : node) (es : list (string * node)) :
  assoc n es = Some c -> set_entry n c es = es.
Proof.
  induction es as [|[m d] es IH]; cbn; [discriminate|].
  destruct (String.eqb n m) eqn:E; intros H.
  - inversion H; subst. reflexivity.
  - rewrite IH by assumption. reflexivity.
Qed.

Lemma is_prefix_nil_r (q : path) : is_prefix q [] = false -> q <> [].
Proof. intros H ->. discriminate. Qed.

Lemma lookup_fresh_dirs (p q : path) :
  is_prefix q p = false -> lookup (fresh_dirs p) q = None.
Proof.
  revert q. induction p as [|n p IH]; intros [|m q] H; cbn in *;
    try discriminate; try reflexivity.
  destruct (String.eqb m n) eqn:E; [|reflexivity].
  cbn in H. apply IH. exact H.
Qed.

Lemma isdir_fresh_dirs (p : path) : isdir (fresh_dirs p) p = true.
Proof.
  unfold isdir. induction p as [|n p IH]; cbn; [reflexivity|].
  rewrite String.eqb_refl. exact IH.
Qed.

(** [makedirs] changes nothing but along its path. *)
Lemma makedirs_tree_other (p : path) :
  forall (t t1 : node) (q : path),
  makedirs_tree p t = Some t1 -> is_prefix q p = false ->
  lookup t1 q = lookup t q.
Proof.
  induction p as [|n p IH]; intros t t1 q H Hq.
  - destruct t; cbn in H; inversion H; reflexivity.
  - destruct t as [f|es]; [discriminate|]. cbn in H.
    destruct q as [|m q]; [discriminate|]. cbn in Hq.
    destruct (assoc n es) as [c|] eqn:A.
    + destruct (makedirs_tree p c) as [c'|] eqn:Mk; [|discriminate].
      inversion H; subst; clear H. cbn.
      destruct (String.eqb m n) eqn:E.
      * apply String.eqb_eq in E. subst m.
        rewrite assoc_set_entry_same, A. cbn in Hq.
        apply (IH _ _ _ Mk Hq).
      * apply String.eqb_neq in E.
        rewrite assoc_set_entry_other by congruence. reflexivity.
    + inversion H; subst; clear H. cbn.
      destruct (String.eqb m n) eqn:E.
      * apply String.eqb_eq in E. subst m.
        rewrite assoc_set_entry_same, A. cbn in Hq.
        apply lookup_fresh_dirs. exact Hq.
      * apply String.eqb_neq in E.
        rewrite assoc_set_entry_other by congruence. reflexivity.
Qed.

(** After [makedirs] the path is a directory. *)
Lemma makedirs_tree_isdir (p : path) :
  forall (t t1 : node), makedirs_tree p t = Some t1 -> isdir t1 p = true.
Proof.
  unfold isdir. induction p as [|n p IH]; intros t t1 H.
  - destruct t; cbn in H; inversion H; reflexivity.
  - destruct t as [f|es]; [discriminate|]. cbn in H.
    destruct (assoc n es) as [c|] eqn:A.
    + destruct (makedirs_tree p c) as [c'|] eqn:Mk; [|discriminate].
      inversion H; subst; clear H. cbn.
      rewrite assoc_set_entry_same. apply (IH _ _ Mk).
    + inversion H; subst; clear H. cbn.
      rewrite assoc_set_entry_same. apply isdir_fresh_dirs.
Qed.

(** [makedirs] succeeds when no file is in its way. *)
Lemma makedirs_tree_succeeds (p : path) :
  forall (t : node),
  (forall q f, is_prefix q p = true -> lookup t q <> Some (File f)) ->
  exists t1, makedirs_tree p t = Some t1.
Proof.
  induction p as [|n p IH]; intros t H.
  - destruct t as [f|es]; [|eexists; reflexivity].
    exfalso. apply (H [] f); reflexivity.
  - destruct t as [f|es]; [exfalso; apply (H [] f); reflexivity|]. cbn.
    destruct (assoc n es) as [c|] eqn:A; [|eexists; reflexivity].
    destruct (IH c) as [c' ->]; [|eexists; reflexivity].
    intros q f Hq. specialize (H (n :: q) f). cbn in H.
    rewrite String.eqb_refl, A in H. apply H. exact Hq.
Qed.

(** Where the directory is there already, [makedirs] does nothing. *)
Lemma makedirs_tree_exists (p : path) :
  forall (t : node), isdir t p = true -> makedirs_tree p t = Some t.
Proof.
  unfold isdir. induction p as [|n p IH]; intros t H.
  - destruct t; cbn in *; [discriminate | reflexivity].
  - destruct t as [f|es]; [discriminate|]. cbn in *.
    destruct (assoc n es) as [c|] eqn:A; [|discriminate].
    rewrite (IH c H), (set_entry_same _ _ _ A). reflexivity.
Qed.

Lemma remove_dir (p : path) (es : list (string * node)) :
  exists es', remove p (Dir es) = Dir es'.
Proof.
  destruct p as [|n [|m p]]; cbn; try (eexists; reflexivity).
  destruct (assoc n es); eexists; reflexivity.
Qed.

(** Nothing is left at a removed path. *)
Lemma lookup_remove_same (p : path) :
  forall t, p <> [] -> lookup (remove p t) p = None.
Proof.
  induction p as [|n p IH]; intros t H; [contradiction|].
  destruct t as [f|es]; [reflexivity|].
  destruct p as [|m p].
  - cbn. rewrite assoc_del_entry_same. reflexivity.
  - cbn [remove]. destruct (assoc n es) as [c|] eqn:A.
    + cbn [lookup]. rewrite assoc_set_entry_same. apply IH. discriminate.
    + cbn [lookup]. rewrite A. reflexivity.
Qed.

(** A path that diverges from [p] does not see the removal of [p]. *)
Lemma lookup_remove_diverge (p : path) :
  forall t q, is_prefix p q = false -> is_prefix q p = false ->
  lookup (remove p t) q = lookup t q.
Proof.
  induction p as [|n p IH]; intros t q Hpq Hqp; [discriminate|].
  destruct q as [|m q]; [discriminate|].
  destruct t as [f|es]; [reflexivity|]. cbn in Hpq, Hqp.
  destruct (String.eqb n m) eqn:E.
  - apply String.eqb_eq in E. subst m. rewrite String.eqb_refl in Hqp.
    cbn in Hpq, Hqp. destruct p as [|k p]; [discriminate|].
    cbn [remove]. destruct (assoc n es) as [c|] eqn:A; [|reflexivity].
    cbn [lookup]. rewrite assoc_set_entry_same, A. apply IH; assumption.
  - apply String.eqb_neq in E. destruct p as [|k p].
    + cbn. rewrite assoc_del_entry_other by assumption. reflexivity.
    + cbn [remove]. destruct (assoc n es) as [c|] eqn:A; [|reflexivity].
      cbn [lookup]. rewrite assoc_set_entry_other by assumption. reflexivity.
Qed.

(** What is above a removed path, or aside of it, stays a directory. *)
Lemma isdir_remove (p : path) :
  forall t q, is_prefix p q = false ->
  isdir (remove p t) q = isdir t q.
Proof.
  unfold isdir. induction p as [|n p IH]; intros t q Hpq; [discriminate|].
  destruct t as [f|es]; [reflexivity|].
  destruct q as [|m q].
  - destruct (remove_dir (n :: p) es) as [es' ->]. reflexivity.
  - cbn in Hpq. destruct (String.eqb n m) eqn:E.
    + apply String.eqb_eq in E. subst m. cbn in Hpq.
      destruct p as [|k p]; [discriminate|].
      cbn [remove]. destruct (assoc n es) as [c|] eqn:A; [|reflexivity].
      cbn [lookup]. rewrite assoc_set_entry_same, A. apply IH. exact Hpq.
    + apply String.eqb_neq in E. destruct p as [|k p].
      * cbn. rewrite assoc_del_entry_other by assumption. reflexivity.
      * cbn [remove]. destruct (assoc n es) as [c|] eqn:A; [|reflexivity].
        cbn [lookup]. rewrite assoc_set_entry_other by assumption.
        reflexivity.
Qed.

Lemma dirname_cons (n m : string) (p : path) :
  dirname (n :: m :: p) = n :: dirname (m :: p).
Proof. reflexivity. Qed.

(** A node put into an existing directory is found there, and the
    directory is still one. *)
Lemma lookup_put_new (p : path) :
  forall (x t : node), p <> [] -> isdir t (dirname p) = true ->
  lookup (put p x t) p = Some x /\ isdir (put p x t) (dirname p) = true.
Proof.
  unfold isdir. induction p as [|n p IH]; intros x t Hne H; [contradiction|].
  destruct p as [|m p].
  - cbn in H. destruct t as [f|es]; [discriminate|]. cbn.
    destruct (assoc n es); cbn; rewrite assoc_set_entry_same; auto.
  - rewrite dirname_cons in *. destruct t as [f|es]; [discriminate|].
    cbn [lookup] in H. destruct (assoc n es) as [c|] eqn:A; [|discriminate].
    cbn [put]. rewrite A. cbn [lookup]. rewrite assoc_set_entry_same.
    apply IH; [discriminate | exact H].
Qed.

Lemma lookup_prefix_exists (t : node) (p r : path) (x : node) :
  lookup t (p ++ r) = Some x -> exists y, lookup t p = Some y.
Proof.
  destruct r as [|n r].
  - rewrite app_nil_r. eauto.
  - intros H. destruct (lookup_above t p (n :: r) x H) as [es E];
      [discriminate|]. eauto.
Qed.

Lemma is_prefix_dirname (q p : path) :
  is_prefix q (dirname p) = true -> is_prefix q p = true.
Proof.
  unfold dirname. revert q. induction p as [|n p IH]; intros q H.
  - exact H.
  - destruct p as [|m p].
    + cbn in H. destruct q; [reflexivity | discriminate].
    + destruct q as [|k q]; [reflexivity|].
      change (removelast (n :: m :: p)) with (n :: removelast (m :: p)) in H.
      cbn in H. cbn. apply andb_true_iff in H as [H1 H2].
      rewrite H1. cbn. apply IH. exact H2.
Qed.

Lemma is_prefix_trans (p q r : path) :
  is_prefix p q = true -> is_prefix q r = true -> is_prefix p r = true.
Proof.
  intros H1 H2. apply is_prefix_split in H1 as [a ->].
  apply is_prefix_split in H2 as [b ->]. rewrite <- app_assoc.
  apply is_prefix_app.
Qed.

Lemma not_prefix_of_dirname (q p : path) :
  p <> [] -> is_prefix p (dirname p) = false.
Proof.
  intros Hne. destruct (is_prefix p (dirname p)) eqn:E; [|reflexivity].
  apply is_prefix_split in E as [r E]. exfalso.
  apply (f_equal (@List.length string)) in E.
  rewrite length_app in E. unfold dirname in E.
  destruct (exists_last Hne) as (l & a & ->).
  rewrite removelast_last, length_app in E. cbn in E. lia.
Qed.

(** What [rename_path] does when there is something at the old path, no
    file on the way to the new one, the new path is not inside the old
    one, and at the new path there is nothing, or a file that a file
    replaces. *)
Lemma rename_path_moves (old_name new_name : path) (w : world) (x : node) :
  lookup (fs w) old_name = Some x ->
  is_prefix old_name new_name = false ->
  (lookup (fs w) new_name = None \/
   exists f g, x = File f /\ lookup (fs w) new_name = Some (File g)) ->
  (forall q f, is_prefix q (dirname new_name) = true ->
               lookup (fs w) q <> Some (File f)) ->
  exists t',
    rename_path old_name new_name w
    = (Ok true,
       after w t' [EvMakedirs (dirname new_name); EvMove old_name new_name]) /\
    lookup t' new_name = Some x /\
    lookup t' old_name = None /\
    isdir t' (dirname new_name) = true /\
    (forall q, is_prefix q old_name = false -> is_prefix old_name q = false ->
               is_prefix q new_name = false -> is_prefix new_name q = false ->
               lookup t' q = lookup (fs w) q).
Proof.
  intros Lold Hin Lnew Hway.
  assert (old_name <> []) as Hold by (intros ->; discriminate).
  assert (is_prefix new_name old_name = false) as Hno.
  { destruct (is_prefix new_name old_name) eqn:E; [|reflexivity].
    apply is_prefix_split in E as [r ->]. destruct r as [|n r].
    - rewrite app_nil_r, is_prefix_refl in Hin. discriminate.
    - destruct Lnew as [Lnew | (f & g & _ & Lnew)].
      + destruct (lookup_prefix_exists _ _ _ _ Lold) as [y Y]. congruence.
      + rewrite (lookup_below_file _ _ (n :: r) g Lnew) in Lold
          by discriminate.
        discriminate. }
  assert (new_name <> []) as Hnew.
  { intros ->. destruct old_name; [contradiction | discriminate]. }
  assert (path_eqb old_name new_name = false) as Hne.
  { apply path_eqb_neq. intros ->. rewrite is_prefix_refl in Hin.
    discriminate. }
  assert (is_prefix old_name (dirname new_name) = false) as Hod.
  { destruct (is_prefix old_name (dirname new_name)) eqn:E; [|reflexivity].
    apply is_prefix_dirname in E. congruence. }
  destruct (makedirs_tree_succeeds _ _ Hway) as [t1 Mk].
  pose proof (makedirs_tree_isdir _ _ _ Mk) as D1.
  assert (lookup t1 old_name = Some x) as L1.
  { rewrite (makedirs_tree_other _ _ _ _ Mk Hod). exact Lold. }
  assert (lookup t1 new_name = lookup (fs w) new_name) as N1.
  { apply (makedirs_tree_other _ _ _ _ Mk
             (not_prefix_of_dirname new_name new_name Hnew)). }
  set (t' := put new_name x (remove old_name t1)).
  assert (move_tree old_name new_name t1 = Ok t') as Mv.
  { unfold move_tree. destruct old_name as [|o os]; [contradiction|].
    rewrite L1. unfold isdir at 1. rewrite N1. unfold rename_tree.
    rewrite Hne, Hin, N1.
    destruct Lnew as [-> | (f & g & -> & ->)].
    - destruct x as [f|es].
      + rewrite D1. reflexivity.
      + rewrite (makedirs_tree_exists _ _ D1). reflexivity.
    - rewrite D1. reflexivity. }
  exists t'. split; [|split; [|split; [|split]]].
  - unfold rename_path. rewrite Hne. unfold bind, get_fs at 1.
    unfold path_exists. rewrite Lold.
    destruct old_name as [|o os]; [contradiction|].
    unfold makedirs, move, bind, emit, get_fs, set_fs, raise, ret, after.
    cbn [fs stdin procs trace]. rewrite Mk. cbn [fs stdin procs trace].
    rewrite Mv. cbn [fs stdin procs trace]. rewrite <- app_assoc. reflexivity.
  - apply lookup_put_new; [exact Hnew|].
    rewrite isdir_remove by exact Hod. exact D1.
  - unfold t'. rewrite lookup_put_diverge by assumption.
    apply lookup_remove_same. exact Hold.
  - apply lookup_put_new; [exact Hnew|].
    rewrite isdir_remove by exact Hod. exact D1.
  - intros q Q1 Q2 Q3 Q4. unfold t'.
    rewrite lookup_put_diverge by assumption.
    rewrite lookup_remove_diverge by assumption.
    apply (makedirs_tree_other _ _ _ _ Mk).
    destruct (is_prefix q (dirname new_name)) eqn:E; [|reflexivity].
    apply is_prefix_dirname in E. congruence.
Qed.

(** C4, amended.  [rename_path] returns False and changes nothing when the
    two names are the same, and, for a plain old name, when nothing exists
    at the old path.  When the names differ and are plain, something
    exists at the old path, the new path is not inside the old one, no
    file stands where a parent directory of the new path has to be, and at
    the new path there is nothing, or there is a file and the old path is
    a file too, it makes the missing parent directories of the new path,
    moves what was at the old path to the new path, in place of the file
    that was there if there was one, leaves every path aside of the two as
    it was, and returns True. *)
Theorem rename_path_correct (old_name new_name : path) (w : world) :
  (old_name = new_name ->
   rename_path old_name new_name w = (Ok false, w)) /\
  (old_name <> new_name -> plain old_name = true ->
   path_exists (fs w) old_name = false ->
   rename_path old_name new_name w = (Ok false, w)) /\
  (old_name <> new_name -> plain old_name = true -> plain new_name = true ->
   forall x,
   lookup (fs w) old_name = Some x ->
   is_prefix old_name new_name = false ->
   (lookup (fs w) new_name = None \/
    exists f g, x = File f /\ lookup (fs w) new_name = Some (File g)) ->
   (forall q f, is_prefix q (dirname new_name) = true ->
                lookup (fs w) q <> Some (File f)) ->
   exists w',
     rename_path old_name new_name w = (Ok true, w') /\
     lookup (fs w') new_name = Some x /\
     lookup (fs w') old_name = None /\
     isdir (fs w') (dirname new_name) = true /\
     trace w'
     = trace w ++ [EvMakedirs (dirname new_name); EvMove old_name new_name] /\
     (forall q, is_prefix q old_name = false -> is_prefix old_name q = false ->
                is_prefix q new_name = false -> is_prefix new_name q = false ->
                lookup (fs w') q = lookup (fs w) q)).
Proof.
  split; [|split].
  - intros ->. unfold rename_path. rewrite path_eqb_refl. reflexivity.
  - intros Hne _ E. unfold rename_path. apply path_eqb_neq in Hne.
    rewrite Hne. unfold bind, get_fs. rewrite E. reflexivity.
  - intros _ _ _ x Lold Hin Lnew Hway.
    destruct (rename_path_moves _ _ _ _ Lold Hin Lnew Hway)
      as (t' & E & A & B & C & D).
    eexists. split; [exact E|]. cbn [after fs trace]. auto.
Qed.

Lemma rename_path_correct_witness :
  (let t := Dir [("ddls", Dir [("APP_DB", Dir [("t.sql", txt "x")])])] in
   let w := mkWorld t [] [] [] in
   exists w',
     rename_path ["ddls"; "APP_DB"] ["ddls"; "ACME_DB"] w = (Ok true, w') /\
     lookup (fs w') ["ddls"; "ACME_DB"] = Some (Dir [("t.sql", txt "x")]) /\
     lookup (fs w') ["ddls"; "APP_DB"] = None /\
     isdir (fs w') (dirname ["ddls"; "ACME_DB"]) = true /\
     trace w'
     = trace w ++ [EvMakedirs (dirname ["ddls"; "ACME_DB"]);
                   EvMove ["ddls"; "APP_DB"] ["ddls"; "ACME_DB"]] /\
     (forall q, is_prefix q ["ddls"; "APP_DB"] = false ->
                is_prefix ["ddls"; "APP_DB"] q = false ->
                is_prefix q ["ddls"; "ACME_DB"] = false ->
                is_prefix ["ddls"; "ACME_DB"] q = false ->
                lookup (fs w') q = lookup (fs w) q)) /\
  (let w := mkWorld (Dir []) [] [] [] in
   rename_path ["ddls"; "APP_DB"] ["ddls"; "ACME_DB"] w = (Ok false, w)) /\
  (let w := mkWorld (Dir [("a.sql", txt "old"); ("b.sql", txt "new")])
              [] [] [] in
   exists w',
     rename_path ["a.sql"] ["b.sql"] w = (Ok true, w') /\
     lookup (fs w') ["b.sql"] = Some (txt "old") /\
     lookup (fs w') ["a.sql"] = None /\
     isdir (fs w') (dirname ["b.sql"]) = true /\
     trace w'
     = trace w ++ [EvMakedirs (dirname ["b.sql"]);
                   EvMove ["a.sql"] ["b.sql"]] /\
     (forall q, is_prefix q ["a.sql"] = false ->
                is_prefix ["a.sql"] q = false ->
                is_prefix q ["b.sql"] = false ->
                is_prefix ["b.sql"] q = false ->
                lookup (fs w') q = lookup (fs w) q)).
Proof.
  split; [|split]; cbv zeta.
  - apply (proj2 (proj2 (rename_path_correct ["ddls"; "APP_DB"]
                           ["ddls"; "ACME_DB"] _))); try reflexivity.
    + discriminate.
    + left. reflexivity.
    + intros [|a [|b q]] f H; cbn in H; try discriminate.
      * destruct (String.eqb a "ddls") eqn:E; [|discriminate].
        apply String.eqb_eq in E. subst a. cbn. discriminate.
      * rewrite andb_false_r in H. discriminate.
  - apply (proj1 (proj2 (rename_path_correct ["ddls"; "APP_DB"]
                           ["ddls"; "ACME_DB"] _))); try reflexivity.
    discriminate.
  - apply (proj2 (proj2 (rename_path_correct ["a.sql"] ["b.sql"] _)));
      try reflexivity.
    + discriminate.
    + right. eexists _, _. split; reflexivity.
    + intros [|a q] f H; cbn in H; [|discriminate]. cbn. discriminate.
Defined.

(** C4 as stated fails where the new path is a directory that exists (the
    old path is moved into it, not to it), where a file stands in the way
    of the parent directories (the call raises), and where the new path is
    inside the old one (the call raises). *)
Lemma rename_path_not_always_to_new_path :
  (let moved := Dir [("t.sql", txt "x")] in
   let there := Dir [("u.sql", txt "y")] in
   let t := Dir [("ddls", Dir [("APP_DB", moved); ("_DB_UTILS", there)])] in
   let w := mkWorld t [] [] [] in
   let w' := snd (rename_path ["ddls"; "APP_DB"] ["ddls"; "_DB_UTILS"] w) in
   path_exists (fs w) ["ddls"; "APP_DB"] = true /\
   fst (rename_path ["ddls"; "APP_DB"] ["ddls"; "_DB_UTILS"] w) = Ok true /\
   lookup (fs w') ["ddls"; "_DB_UTILS"; "APP_DB"] = Some moved /\
   lookup (fs w') ["ddls"; "_DB_UTILS"] <> Some moved) /\
  (let t := Dir [("a.sql", txt "x"); ("ddls", txt "not a directory")] in
   let w := mkWorld t [] [] [] in
   path_exists (fs w) ["a.sql"] = true /\
   fst (rename_path ["a.sql"] ["ddls"; "b.sql"] w) = Raise OSError /\
   fs (snd (rename_path ["a.sql"] ["ddls"; "b.sql"] w)) = t) /\
  (let t := Dir [("ddls", Dir [("APP_DB", Dir [])])] in
   let w := mkWorld t [] [] [] in
   path_exists (fs w) ["ddls"; "APP_DB"] = true /\
   fst (rename_path ["ddls"; "APP_DB"] ["ddls"; "APP_DB"; "x"] w)
   = Raise ShutilError /\
   fs (snd (rename_path ["ddls"; "APP_DB"] ["ddls"; "APP_DB"; "x"] w)) = t).
Proof.
  cbv zeta. repeat split. vm_compute. discriminate.
Qed.

(** ** Events of a computation *)

Section Only.

Variable allowed : event -> bool.

Lemma only_ret {A : Type} (a : A) : only allowed (ret a).
Proof. intros w. exists []. rewrite app_nil_r. split; [reflexivity | constructor]. Qed.

Lemma only_raise {A : Type} (e : exn) : only allowed (@raise A e).
Proof. intros w. exists []. rewrite app_nil_r. split; [reflexivity | constructor]. Qed.

Lemma only_get_fs : only allowed get_fs.
Proof. intros w. exists []. rewrite app_nil_r. split; [reflexivity | constructor]. Qed.

Lemma only_set_fs (t : node) : only allowed (set_fs t).
Proof. intros w. exists []. cbn. rewrite app_nil_r. split; [reflexivity | constructor]. Qed.

Lemma only_emit (e : event) : allowed e = true -> only allowed (emit e).
Proof. intros H w. exists [e]. split; [reflexivity | repeat constructor; exact H]. Qed.

Lemma only_bind {A B : Type} (m : M A) (k : A -> M B) :
  only allowed m -> (forall a, only allowed (k a)) -> only allowed (bind m k).
Proof.
  intros Hm Hk w. unfold bind. destruct (Hm w) as (evs1 & E1 & F1).
  destruct (m w) as [[a|e] w1]; cbn [snd] in *.
  - destruct (Hk a w1) as (evs2 & E2 & F2). exists (evs1 ++ evs2).
    rewrite E2, E1, app_assoc. split; [reflexivity | apply Forall_app; auto].
  - exists evs1. auto.
Qed.

Lemma only_try_OSError {A : Type} (body handler : M A) :
  only allowed body -> only allowed handler ->
  only allowed (try_OSError body handler).
Proof.
  intros Hb Hh w. unfold try_OSError. destruct (Hb w) as (evs1 & E1 & F1).
  destruct (body w) as [[a|[]] w1]; cbn [snd] in *; eauto.
  destruct (Hh w1) as (evs2 & E2 & F2). exists (evs1 ++ evs2).
  rewrite E2, E1, app_assoc. split; [reflexivity | apply Forall_app; auto].
Qed.

Lemma only_try_CalledProcessError {A : Type} (body handler : M A) :
  only allowed body -> only allowed handler ->
  only allowed (try_CalledProcessError body handler).
Proof.
  intros Hb Hh w. unfold try_CalledProcessError.
  destruct (Hb w) as (evs1 & E1 & F1).
  destruct (body w) as [[a|[]] w1]; cbn [snd] in *; eauto.
  destruct (Hh w1) as (evs2 & E2 & F2). exists (evs1 ++ evs2).
  rewrite E2, E1, app_assoc. split; [reflexivity | apply Forall_app; auto].
Qed.

Lemma only_input (prompt : string) :
  allowed (EvPrompt prompt) = true -> (forall l, allowed (EvAnswer l) = true) ->
  only allowed (input prompt).
Proof.
  intros H1 H2 w. unfold input, bind, emit. cbn [fs stdin procs trace].
  destruct (stdin w) as [|line rest]; cbn [snd trace].
  - exists [EvPrompt prompt]. split; [reflexivity | repeat constructor; auto].
  - exists [EvPrompt prompt; EvAnswer line]. rewrite <- app_assoc.
    split; [reflexivity | repeat constructor; auto].
Qed.

Lemma only_run (args : list string) (check : bool) :
  allowed (EvRun args) = true -> only allowed (run args check).
Proof.
  intros H w. unfold run, bind, emit. cbn [fs stdin procs trace].
  exists [EvRun args]. split; [|repeat constructor; exact H].
  destruct (procs w) as [|[ok out] rest]; [reflexivity|].
  destruct (check && negb ok); reflexivity.
Qed.

End Only.

Lemma only_mono (allowed allowed' : event -> bool) {A : Type} (m : M A) :
  (forall e, allowed e = true -> allowed' e = true) ->
  only allowed m -> only allowed' m.
Proof.
  intros H Hm w. destruct (Hm w) as (evs & E & F). exists evs.
  split; [exact E|]. eapply Forall_impl; [|exact F]. exact H.
Qed.

Lemma keeps_ret {A : Type} (a : A) : keeps_fs (ret a).
Proof. intros w. reflexivity. Qed.

Lemma keeps_raise {A : Type} (e : exn) : keeps_fs (@raise A e).
Proof. intros w. reflexivity. Qed.

Lemma keeps_get_fs : keeps_fs get_fs.
Proof. intros w. reflexivity. Qed.

Lemma keeps_emit (e : event) : keeps_fs (emit e).
Proof. intros w. reflexivity. Qed.

Lemma keeps_bind {A B : Type} (m : M A) (k : A -> M B) :
  keeps_fs m -> (forall a, keeps_fs (k a)) -> keeps_fs (bind m k).
Proof.
  intros Hm Hk w. unfold bind. specialize (Hm w).
  destruct (m w) as [[a|e] w1]; cbn [snd] in *; [|exact Hm].
  rewrite Hk. exact Hm.
Qed.

Lemma keeps_try_OSError {A : Type} (body handler : M A) :
  keeps_fs body -> keeps_fs handler -> keeps_fs (try_OSError body handler).
Proof.
  intros Hb Hh w. unfold try_OSError. specialize (Hb w).
  destruct (body w) as [[a|[]] w1]; cbn [snd] in *; try exact Hb.
  rewrite Hh. exact Hb.
Qed.

Lemma keeps_input (prompt : string) : keeps_fs (input prompt).
Proof.
  intros w. unfold input, bind, emit. cbn [fs stdin procs trace].
  destruct (stdin w); reflexivity.
Qed.

(** Proves [only allowed m] and [keeps_fs m] along the shape of [m]. *)
Ltac effects :=
  repeat first
    [ apply only_ret | apply only_raise | apply only_get_fs | apply only_set_fs
    | apply only_emit; reflexivity
    | apply only_input; [reflexivity | intros; reflexivity]
    | apply only_run; reflexivity
    | apply only_bind; [|intros]
    | apply only_try_OSError
    | apply only_try_CalledProcessError
    | apply keeps_ret | apply keeps_raise | apply keeps_get_fs
    | apply keeps_emit | apply keeps_input
    | apply keeps_bind; [|intros]
    | apply keeps_try_OSError
    | assumption
    | match goal with
      | |- only _ (if ?b then _ else _) => destruct b
      | |- keeps_fs (if ?b then _ else _) => destruct b
      | |- only _ (match ?x with _ => _ end) => destruct x
      | |- keeps_fs (match ?x with _ => _ end) => destruct x
      | |- only _ (let (_, _) := ?x in _) => destruct x
      | |- keeps_fs (let (_, _) := ?x in _) => destruct x
      end ].

Lemma only_read_text (allowed : event -> bool) (p : path) :
  allowed (EvOpenRead p) = true -> only allowed (read_text p).
Proof.
  intros H. unfold read_text. apply only_bind; [apply only_emit; exact H|].
  intros. effects.
Qed.

Lemma keeps_read_text (p : path) : keeps_fs (read_text p).
Proof. unfold read_text. effects. Qed.

Lemma only_write_text (allowed : event -> bool) (p : path) (content : string) :
  allowed (EvOpenWrite p) = true -> allowed (EvWrite p content) = true ->
  only allowed (write_text p content).
Proof.
  intros H1 H2. unfold write_text.
  apply only_bind; [apply only_emit; exact H1|]. intros _.
  apply only_bind; [effects|]. intros t.
  assert (W : forall t', only allowed
                (set_fs t' ;; emit (EvWrite p content))).
  { intros t'. apply only_bind; [effects|]. intros _. apply only_emit, H2. }
  destruct (lookup t p) as [[f|es]|]; [destruct (writable f)| |
    destruct (isdir t (dirname p) && negb (path_eqb p []))];
    first [apply W | effects].
Qed.

Lemma only_count_replacements (files : list path) (old new : string) :
  only dry_run_event (count_replacements files old new).
Proof.
  unfold count_replacements. destruct (String.eqb old new); [effects|].
  generalize 0 at 2. generalize 0.
  induction files as [|p rest IH]; intros a b; cbn [count_loop]; [effects|].
  apply only_bind; [|intros; apply IH].
  apply only_try_OSError; [|effects].
  apply only_bind; [apply only_read_text; reflexivity|]. intros. effects.
Qed.

Lemma keeps_count_replacements (files : list path) (old new : string) :
  keeps_fs (count_replacements files old new).
Proof.
  unfold count_replacements. destruct (String.eqb old new); [effects|].
  generalize 0 at 2. generalize 0.
  induction files as [|p rest IH]; intros a b; cbn [count_loop]; [effects|].
  apply keeps_bind; [|intros; apply IH].
  apply keeps_try_OSError; [|effects].
  apply keeps_bind; [apply keeps_read_text|]. intros. effects.
Qed.

Lemma only_collect_text_files (allowed : event -> bool) :
  (forall found, allowed (EvWalk found) = true) ->
  only allowed collect_text_files.
Proof.
  intros H. unfold collect_text_files. apply only_bind; [effects|]. intros t.
  apply only_bind; [apply only_emit, H|]. intros. effects.
Qed.

Lemma keeps_collect_text_files : keeps_fs collect_text_files.
Proof. unfold collect_text_files. effects. Qed.

Lemma only_prompt_values : only dry_run_event prompt_values.
Proof.
  unfold prompt_values, print. repeat (apply only_bind; [effects | intros _]).
  unfold PROMPTS. cbn [prompt_loop]. effects.
Qed.

Lemma keeps_prompt_values : keeps_fs prompt_values.
Proof.
  unfold prompt_values, print. repeat (apply keeps_bind; [effects | intros _]).
  unfold PROMPTS. cbn [prompt_loop]. effects.
Qed.

Lemma only_dry_run_replacements (text_files : list path)
    (replacements : list (string * string * string)) :
  only dry_run_event (dry_run_replacements text_files replacements).
Proof.
  induction replacements as [|[[old new] label] rest IH];
    cbn [dry_run_replacements]; [effects|].
  apply only_bind; [apply only_count_replacements|]. intros [total files].
  unfold print. effects.
Qed.

Lemma keeps_dry_run_replacements (text_files : list path)
    (replacements : list (string * string * string)) :
  keeps_fs (dry_run_replacements text_files replacements).
Proof.
  induction replacements as [|[[old new] label] rest IH];
    cbn [dry_run_replacements]; [effects|].
  apply keeps_bind; [apply keeps_count_replacements|]. intros [total files].
  unfold print. effects.
Qed.

Lemma only_dry_run_renames (what : string) (shown : path -> string)
    (renames : list (path * path)) :
  only dry_run_event (dry_run_renames what shown renames).
Proof.
  induction renames as [|[old new] rest IH]; cbn [dry_run_renames];
    unfold print; effects.
Qed.

Lemma keeps_dry_run_renames (what : string) (shown : path -> string)
    (renames : list (path * path)) :
  keeps_fs (dry_run_renames what shown renames).
Proof.
  induction renames as [|[old new] rest IH]; cbn [dry_run_renames];
    unfold print; effects.
Qed.

Lemma only_rename_path (old_name new_name : path) :
  only rename_event (rename_path old_name new_name).
Proof. unfold rename_path, makedirs, move. effects. Qed.

Lemma only_apply_renames (shown : path -> string) (renames : list (path * path)) :
  only rename_event (apply_renames shown renames).
Proof.
  induction renames as [|[old new] rest IH]; cbn [apply_renames]; [effects|].
  apply only_bind; [apply only_rename_path|]. intros. unfold print. effects.
Qed.

Lemma only_rename_phase (dir_renames file_renames : list (path * path)) :
  only rename_event (rename_phase dir_renames file_renames).
Proof.
  unfold rename_phase. apply only_bind; [apply only_apply_renames|].
  intros. apply only_apply_renames.
Qed.

Lemma existsb_touches (files : list path) (p : path) (e : event) :
  In p files -> touches p e = true ->
  existsb (fun q => touches q e) files = true.
Proof. intros H T. apply existsb_exists. exists p. auto. Qed.

Lemma only_replace_loop (all files : list path) (old new : string) :
  incl files all ->
  forall total, only (later_event all) (replace_loop files old new total).
Proof.
  induction files as [|p rest IH]; intros I total; cbn [replace_loop];
    [effects|].
  assert (Hp : In p all) by (apply I; left; reflexivity).
  apply only_bind; [|intros; apply IH; intros q Hq; apply I; right; exact Hq].
  apply only_try_OSError; [|effects].
  apply only_bind; [apply only_read_text; reflexivity|]. intros content.
  cbv zeta. destruct (Nat.ltb 0 (Py.count content old)); [|effects].
  apply only_bind; [|intros; effects].
  apply only_write_text; unfold later_event; cbn [is_rename is_confirm is_write negb andb orb];
    apply (existsb_touches all p); auto; cbn [touches]; apply path_eqb_refl.
Qed.

Lemma only_replace_in_files (files : list path) (old new : string) :
  only (later_event files) (replace_in_files files old new).
Proof.
  unfold replace_in_files. destruct (String.eqb old new); [effects|].
  apply only_replace_loop. apply incl_refl.
Qed.

Lemma only_apply_replacements (text_files : list path)
    (replacements : list (string * string * string)) (total : nat) :
  only (later_event text_files)
       (apply_replacements text_files replacements total).
Proof.
  revert total.
  induction replacements as [|[[old new] label] rest IH]; intros total;
    cbn [apply_replacements]; [effects|].
  apply only_bind; [apply only_replace_in_files|]. intros. apply IH.
Qed.

Lemma only_git_setup (files : list path) : only (later_event files) git_setup.
Proof. unfold git_setup, print. effects. Qed.

Lemma only_delete_script (files : list path) :
  only (later_event files) delete_script.
Proof. unfold delete_script, os_remove, os_rmdir, print. effects. Qed.

(** ** The confirmation *)

Lemma bind_ok {A B : Type} (m : M A) (k : A -> M B) (w w1 : world) (a : A) :
  m w = (Ok a, w1) -> bind m k w = k a w1.
Proof. intros E. unfold bind. rewrite E. reflexivity. Qed.

Lemma bind_raise {A B : Type} (m : M A) (k : A -> M B) (w w1 : world)
    (e : exn) :
  m w = (Raise e, w1) -> bind m k w = (Raise e, w1).
Proof. intros E. unfold bind. rewrite E. reflexivity. Qed.

Lemma confirms_first_stop (m : M unit) :
  only dry_run_event m -> keeps_fs m -> confirms_first m.
Proof.
  intros Ho Hk w. destruct (Ho w) as (evs & E & F). specialize (Hk w).
  exists (snd (m w)), evs. split; [exact Hk|]. split; [exact F|].
  left. split; [left; exact E|]. exists (fst (m w)). destruct (m w); reflexivity.
Qed.

Lemma confirms_first_bind {A : Type} (m : M A) (k : A -> M unit) :
  only dry_run_event m -> keeps_fs m ->
  (forall a, confirms_first (k a)) -> confirms_first (bind m k).
Proof.
  intros Ho Hk Hc w. destruct (Ho w) as (evs1 & E1 & F1). specialize (Hk w).
  destruct (m w) as [[a|e] w1] eqn:Em; cbn [snd] in *.
  - rewrite (bind_ok _ _ _ _ _ Em).
    destruct (Hc a w1) as (w0 & evs2 & Hfs & F2 & H).
    exists w0, (evs1 ++ evs2). split; [congruence|].
    split; [apply Forall_app; auto|].
    rewrite E1 in H.
    destruct H as [[[H|H] R] | [(line & Ag & H & R) | (line & vs & Ag & H & R)]];
      rewrite <- !app_assoc in H.
    + left. split; [left; exact H | exact R].
    + left. split; [right; rewrite <- !app_assoc; exact H | exact R].
    + right. left. exists line. rewrite <- !app_assoc. auto.
    + right. right. exists line, vs. rewrite <- !app_assoc. auto.
  - rewrite (bind_raise _ _ _ _ _ Em). exists w1, evs1.
    split; [exact Hk|]. split; [exact F1|]. left. split; [left; exact E1|].
    eexists. reflexivity.
Qed.

Lemma input_eof (prompt : string) (w : world) :
  stdin w = [] -> input prompt w = (Raise EOFError, log w [EvPrompt prompt]).
Proof. intros E. unfold input, bind, emit, log. cbn. rewrite E. reflexivity. Qed.

Lemma input_line (prompt line : string) (rest : list string) (w : world) :
  stdin w = line :: rest ->
  input prompt w
  = (Ok line,
     mkWorld (fs w) rest (procs w) (trace w ++ [EvPrompt prompt; EvAnswer line])).
Proof.
  intros E. unfold input, bind, emit. cbn. rewrite E, <- app_assoc.
  reflexivity.
Qed.

Lemma confirms_first_ask (values : list (string * string)) :
  confirms_first
    (line <- input CONFIRM_PROMPT ;;
     let confirm := Py.lower (Py.strip line) in
     if nonempty confirm && negb (String.eqb confirm "y")
     then print "  Aborted."
     else apply_changes (replacements_of values) (dir_renames_of values)
            (file_renames_of values)).
Proof.
  intros w. destruct (stdin w) as [|line rest] eqn:E.
  - rewrite (bind_raise _ _ _ _ _ (input_eof _ _ E)).
    exists (log w [EvPrompt CONFIRM_PROMPT]), [].
    split; [reflexivity|]. split; [constructor|]. left.
    split; [right; reflexivity|]. eexists. reflexivity.
  - rewrite (bind_ok _ _ _ _ _ (input_line _ _ _ _ E)). cbv zeta.
    destruct (nonempty (Py.lower (Py.strip line))
              && negb (String.eqb (Py.lower (Py.strip line)) "y")) eqn:T.
    + eexists (mkWorld (fs w) rest (procs w) _), [].
      split; [reflexivity|]. split; [constructor|]. right. left. exists line.
      split; [unfold agrees; rewrite T; reflexivity|].
      split; [|reflexivity]. cbn [trace app]. rewrite <- !app_assoc.
      reflexivity.
    + eexists (mkWorld (fs w) rest (procs w) _), [].
      split; [reflexivity|]. split; [constructor|]. right. right.
      exists line, values.
      split; [unfold agrees; rewrite T; reflexivity|].
      split; [|reflexivity]. cbn [trace app]. reflexivity.
Qed.

Lemma plans_cases {X Y Z T : Type} (P : T -> Prop)
    (xs : list X) (ys : list Y) (zs : list Z) (a b : T) :
  P a -> P b ->
  P (match xs, ys, zs with
     | [], [], [] => a
     | _, _, _ => b
     end).
Proof. intros Ha Hb. destruct xs, ys, zs; assumption. Qed.

Lemma main_confirms_first : confirms_first main.
Proof.
  unfold main.
  apply confirms_first_bind;
    [apply only_prompt_values | apply keeps_prompt_values | intros values].
  cbv zeta. apply (plans_cases confirms_first).
  - apply confirms_first_stop; unfold print; effects.
  - apply confirms_first_bind;
      [apply only_collect_text_files; reflexivity
      | apply keeps_collect_text_files | intros text_files].
    apply confirms_first_bind; [unfold print; effects.. | intros _].
    apply confirms_first_bind; [unfold print; effects.. | intros _].
    apply confirms_first_bind;
      [apply only_dry_run_replacements | apply keeps_dry_run_replacements
      | intros _].
    apply confirms_first_bind;
      [apply only_dry_run_renames | apply keeps_dry_run_renames | intros _].
    apply confirms_first_bind;
      [apply only_dry_run_renames | apply keeps_dry_run_renames | intros _].
    apply confirms_first_bind; [unfold print; effects.. | intros _].
    apply confirms_first_ask.
Qed.

(** ** The phases of [apply_changes] *)

Lemma split_after {P : event -> bool} (l1 l2 pre post : list event)
    (c : event) :
  Forall (fun e => P e = true) l1 -> P c = false ->
  l1 ++ l2 = pre ++ c :: post ->
  exists pre', pre = l1 ++ pre' /\ l2 = pre' ++ c :: post.
Proof.
  intros F Hc. revert pre. induction F as [|x l1 Hx F IH]; intros pre E.
  - exists pre. auto.
  - destruct pre as [|y pre]; cbn in E; injection E as -> E.
    + congruence.
    + destruct (IH _ E) as (pre' & -> & ->). exists pre'. auto.
Qed.

Lemma collect_text_files_run (w : world) :
  collect_text_files w
  = (Ok (text_files_of (fs w)), log w [EvWalk (text_files_of (fs w))]).
Proof. reflexivity. Qed.

Lemma only_aftermath (text_files : list path)
    (replacements : list (string * string * string)) :
  only (later_event text_files)
    (total_replacements <- apply_replacements text_files replacements 0 ;;
     print "" ;;
     print ("  Done! " ++ Py.str_of_nat total_replacements
            ++ " replacements applied.") ;;
     git_setup ;;
     delete_script).
Proof.
  apply only_bind; [apply only_apply_replacements|]. intros total.
  apply only_bind; [unfold print; effects|]. intros _.
  apply only_bind; [unfold print; effects|]. intros _.
  apply only_bind; [apply only_git_setup|]. intros _.
  apply only_delete_script.
Qed.

Lemma apply_changes_phases (replacements : list (string * string * string))
    (dir_renames file_renames : list (path * path)) (w : world) :
  exists r w1 renames,
    rename_phase dir_renames file_renames w = (r, w1) /\
    trace w1 = trace w ++ renames /\
    Forall (fun e => rename_event e = true) renames /\
    match r with
    | Raise e =>
        apply_changes replacements dir_renames file_renames w = (Raise e, w1)
    | Ok _ =>
        exists later,
          trace (snd (apply_changes replacements dir_renames file_renames w))
          = trace w1 ++ EvWalk (text_files_of (fs w1)) :: later /\
          Forall (fun e => later_event (text_files_of (fs w1)) e = true) later
    end.
Proof.
  destruct (only_rename_phase dir_renames file_renames w) as (renames & E & F).
  unfold apply_changes. unfold rename_phase in *.
  destruct (apply_renames show_path dir_renames w) as [[[]|e] wa] eqn:E1.
  - rewrite !(bind_ok _ _ _ _ _ E1) in *.
    destruct (apply_renames basename file_renames wa) as [[[]|e] w1] eqn:E2;
      cbn [snd] in E.
    + exists (Ok tt), w1, renames. repeat split; auto.
      rewrite (bind_ok _ _ _ _ _ E2).
      rewrite (bind_ok _ _ _ _ _ (collect_text_files_run w1)).
      destruct (only_aftermath (text_files_of (fs w1)) replacements
                  (log w1 [EvWalk (text_files_of (fs w1))]))
        as (later & E3 & F3).
      exists later. split; [|exact F3]. rewrite E3. cbn [log trace fs].
      rewrite <- app_assoc. reflexivity.
    + exists (Raise e), w1, renames. repeat split; auto.
      apply bind_raise. exact E2.
  - rewrite !(bind_raise _ _ _ _ _ E1) in *. cbn [snd] in E.
    exists (Raise e), wa, renames. repeat split; auto.
Qed.

Lemma later_event_facts (files : list path) (e : event) :
  later_event files e = true ->
  is_rename e = false /\ is_confirm e = false /\
  (is_write e = true -> exists p, In p files /\ touches p e = true).
Proof.
  unfold later_event. intros H.
  apply andb_prop in H as [H H3]. apply andb_prop in H as [H1 H2].
  apply negb_true_iff in H1, H2. repeat split; auto.
  intros W. rewrite W in H3. cbn in H3. apply existsb_exists in H3. exact H3.
Qed.

Lemma rename_event_facts (e : event) :
  rename_event e = true -> is_write e = false /\ is_confirm e = false.
Proof.
  unfold rename_event. intros H. apply andb_prop in H as [H1 H2].
  apply negb_true_iff in H1, H2. auto.
Qed.

Lemma dry_run_event_facts (e : event) :
  dry_run_event e = true -> mutating e = false /\ is_confirm e = false.
Proof.
  unfold dry_run_event. intros H. apply andb_prop in H as [H1 H2].
  apply negb_true_iff in H1, H2. auto.
Qed.

Lemma mutating_write (e : event) : mutating e = false -> is_write e = false.
Proof. destruct e; cbn; congruence. Qed.

Lemma mutating_rename (e : event) : mutating e = false -> is_rename e = false.
Proof. destruct e; cbn; congruence. Qed.

Lemma apply_changes_trace (replacements : list (string * string * string))
    (dir_renames file_renames : list (path * path)) (w : world) :
  exists evs,
    trace (snd (apply_changes replacements dir_renames file_renames w))
    = trace w ++ evs /\
    Forall (fun e => negb (is_confirm e) = true) evs.
Proof.
  destruct (apply_changes_phases replacements dir_renames file_renames w)
    as (r & w1 & renames & _ & E1 & F1 & H).
  assert (F1' : Forall (fun e => negb (is_confirm e) = true) renames).
  { eapply Forall_impl; [|exact F1]. intros e He.
    apply rename_event_facts in He as [_ ->]. reflexivity. }
  destruct r as [[]|e].
  - destruct H as (later & E2 & F2).
    exists (renames ++ EvWalk (text_files_of (fs w1)) :: later).
    rewrite E2, E1, <- app_assoc. split; [reflexivity|].
    apply Forall_app. split; [exact F1'|]. constructor; [reflexivity|].
    eapply Forall_impl; [|exact F2]. intros e He.
    apply later_event_facts in He as (_ & -> & _). reflexivity.
  - exists renames. rewrite H. auto.
Qed.

Lemma agrees_true (line : string) :
  agrees line = true ->
  Py.lower (Py.strip line) = "" \/ Py.lower (Py.strip line) = "y".
Proof.
  unfold agrees. intros H. apply negb_true_iff, andb_false_iff in H.
  destruct H as [H|H].
  - left. destruct (Py.lower (Py.strip line)); [reflexivity | discriminate].
  - right. apply negb_false_iff, String.eqb_eq in H. exact H.
Qed.

Lemma agrees_false (line : string) :
  agrees line = false ->
  Py.lower (Py.strip line) <> "" /\ Py.lower (Py.strip line) <> "y".
Proof.
  unfold agrees. intros H. apply negb_false_iff, andb_prop in H.
  destruct H as [H1 H2]. split.
  - intros E. rewrite E in H1. discriminate.
  - intros E. rewrite E in H2. discriminate.
Qed.

Lemma dry_run_quiet (evs : list event) :
  Forall (fun e => dry_run_event e = true) evs ->
  Forall (fun e => mutating e = false) evs.
Proof.
  intros F. eapply Forall_impl; [|exact F]. intros e He.
  apply dry_run_event_facts in He. tauto.
Qed.

Lemma dry_run_no_confirm (evs : list event) :
  Forall (fun e => dry_run_event e = true) evs ->
  Forall (fun e => negb (is_confirm e) = true) evs.
Proof.
  intros F. eapply Forall_impl; [|exact F]. intros e He.
  apply dry_run_event_facts in He as [_ ->]. reflexivity.
Qed.

Lemma quiet_not_mutating (evs : list event) :
  Forall (fun e => mutating e = false) evs ->
  Forall (fun e => negb (mutating e) = true) evs.
Proof.
  intros F. eapply Forall_impl; [|exact F]. intros e ->. reflexivity.
Qed.

(** C7.  In every run of [main], whatever is typed and whatever the tree
    holds, an event that changes something (a file opened for writing or
    written, a directory made, a path moved, a command run, a path removed)
    comes only after the confirmation prompt has been answered, and with an
    answer that is empty or "y" once stripped and lowercased.  And when the
    confirmation prompt has been answered with something that, stripped and
    lowercased, is neither empty nor "y", [main] returns normally, the tree
    is what it was, and no event of the whole run changes anything. *)
Theorem main_changes_nothing_before_confirmation (w : world) :
  exists evs,
    trace (snd (main w)) = trace w ++ evs /\
    (forall pre e post,
       evs = pre ++ e :: post -> mutating e = true ->
       exists a line b,
         pre = a ++ EvPrompt CONFIRM_PROMPT :: EvAnswer line :: b /\
         (Py.lower (Py.strip line) = "" \/ Py.lower (Py.strip line) = "y")) /\
    (forall pre line post,
       evs = pre ++ EvPrompt CONFIRM_PROMPT :: EvAnswer line :: post ->
       Py.lower (Py.strip line) <> "" -> Py.lower (Py.strip line) <> "y" ->
       fst (main w) = Ok tt /\
       fs (snd (main w)) = fs w /\
       Forall (fun e => mutating e = false) evs).
Proof.
  destruct (main_confirms_first w)
    as (w0 & dry & Hfs & Fd &
        [[[Ht|Ht] [r Em]] | [(line & Ag & Ht & Em) | (line & values & Ag & Ht & Em)]]).
  - exists dry. rewrite Em. cbn [snd fst]. split; [exact Ht|]. split.
    + intros pre e post -> Me. apply dry_run_quiet, Forall_elt in Fd. congruence.
    + intros pre line post -> _ _. apply dry_run_no_confirm, Forall_elt in Fd.
      discriminate.
  - exists (dry ++ [EvPrompt CONFIRM_PROMPT]). rewrite Em. cbn [snd fst].
    split; [exact Ht|]. split.
    + intros pre e post E Me.
      assert (F : Forall (fun e => mutating e = false)
                    (dry ++ [EvPrompt CONFIRM_PROMPT])).
      { apply Forall_app. split; [apply dry_run_quiet, Fd|]. repeat constructor. }
      rewrite E in F. apply Forall_elt in F. congruence.
    + intros pre line post E _ _.
      apply (split_after (P := fun e => negb (is_confirm e))) in E;
        [|apply dry_run_no_confirm, Fd | reflexivity].
      destruct E as (pre' & _ & E). destruct pre' as [|x [|y pre']]; discriminate.
  - exists (dry ++ [EvPrompt CONFIRM_PROMPT; EvAnswer line;
                    EvPrint "  Aborted."]).
    rewrite Em. cbn [snd fst]. split; [exact Ht|].
    assert (F : Forall (fun e => mutating e = false)
                  (dry ++ [EvPrompt CONFIRM_PROMPT; EvAnswer line;
                           EvPrint "  Aborted."])).
    { apply Forall_app. split; [apply dry_run_quiet, Fd|]. repeat constructor. }
    split.
    + intros pre e post E Me. rewrite E in F. apply Forall_elt in F. congruence.
    + intros pre line' post _ _ _. auto.
  - destruct (apply_changes_trace (replacements_of values)
                (dir_renames_of values) (file_renames_of values) w0)
      as (tail & Et & Ft).
    exists (dry ++ [EvPrompt CONFIRM_PROMPT; EvAnswer line] ++ tail).
    rewrite Em, Et, Ht, <- !app_assoc. split; [reflexivity|]. split.
    + intros pre e post E Me. rewrite app_assoc in E.
      apply (split_after (P := fun e => negb (mutating e))) in E.
      * destruct E as (pre' & -> & _). exists dry, line, pre'.
        rewrite <- app_assoc. split; [reflexivity|]. apply agrees_true, Ag.
      * apply Forall_app. split; [apply quiet_not_mutating, dry_run_quiet, Fd|].
        repeat constructor.
      * rewrite Me. reflexivity.
    + intros pre line' post E N1 N2. exfalso.
      apply (split_after (P := fun e => negb (is_confirm e))) in E;
        [|apply dry_run_no_confirm, Fd | reflexivity].
      destruct E as (pre' & _ & E). destruct pre' as [|x [|y pre']].
      * cbn in E. injection E as E _. subst line'.
        apply agrees_true in Ag. tauto.
      * discriminate.
      * cbn in E. injection E as _ _ E. rewrite E in Ft.
        apply Forall_elt in Ft. discriminate.
Qed.

(** A run that is aborted: "n" at the confirmation prompt. *)
Example main_aborted :
  let t := Dir [("dbt_project.yml", txt "name: dbt_workflow")] in
  let w := mkWorld t ["acme"; ""; ""; ""; ""; ""; "n"] [] [] in
  fst (main w) = Ok tt /\
  fs (snd (main w)) = t /\
  last (trace (snd (main w))) (EvPrint "") = EvPrint "  Aborted.".
Proof. cbv zeta. vm_compute. auto. Qed.

(** A run that renames a directory and rewrites the file in it: the file is
    rewritten where the rename has put it. *)
Example main_renames_then_replaces :
  let t := Dir [("ddls", Dir [("APP_DB", Dir [("t.sql", txt "USE APP_DB;")])])] in
  let w := mkWorld t [""; ""; ""; "ACME_DB"; ""; ""; "y"; "n"] [] [] in
  fst (main w) = Ok tt /\
  fs (snd (main w))
  = Dir [("ddls", Dir [("ACME_DB", Dir [("t.sql", txt "USE ACME_DB;")])])] /\
  filter mutating (trace (snd (main w)))
  = [EvMakedirs ["ddls"]; EvMove ["ddls"; "APP_DB"] ["ddls"; "ACME_DB"];
     EvOpenWrite ["ddls"; "ACME_DB"; "t.sql"];
     EvWrite ["ddls"; "ACME_DB"; "t.sql"] "USE ACME_DB;"].
Proof. cbv zeta. vm_compute. auto. Qed.

(** * More of the script *)

(** ** [prompt_values] *)

Lemma value_of_nonempty (default answer : string) :
  nonempty default = true -> nonempty (value_of default answer) = true.
Proof.
  intros H. unfold value_of.
  destruct (nonempty (Py.strip answer)) eqn:E; assumption.
Qed.

Lemma prompt_values_run (w : world) (a0 a1 a2 a3 a4 a5 : string)
    (rest : list string) :
  stdin w = a0 :: a1 :: a2 :: a3 :: a4 :: a5 :: rest ->
  exists evs,
    prompt_values w
    = (Ok [("project_name",   value_of (default_of 0) a0);
           ("author_name",    value_of (default_of 1) a1);
           ("organization",   value_of (default_of 2) a2);
           ("app_database",   value_of (default_of 3) a3);
           ("ci_database",    value_of (default_of 4) a4);
           ("warehouse_name", value_of (default_of 5) a5)],
       mkWorld (fs w) rest (procs w) (trace w ++ evs)) /\
    Forall (fun e => uses_tree e = false) evs /\
    printed evs
    = [""; "  dbt-workflow Project Initializer";
       "  ================================="; "";
       "  Customize this template for your project.";
       "  Press Enter to keep the default value shown in [brackets]."; ""].
Proof.
  destruct w as [t inp pr tr]. cbn [stdin fs procs trace]. intros ->.
  eexists. split; [|split].
  - cbv [prompt_values PROMPTS prompt_loop print input bind emit ret
         stdin fs procs trace].
    rewrite <- !app_assoc. cbn [app]. reflexivity.
  - repeat constructor.
  - reflexivity.
Qed.

Lemma prompt_values_eof (w : world) :
  List.length (stdin w) < 6 ->
  exists evs,
    prompt_values w
    = (Raise EOFError, mkWorld (fs w) [] (procs w) (trace w ++ evs)) /\
    Forall (fun e => uses_tree e = false) evs.
Proof.
  destruct w as [t inp pr tr]. cbn [stdin fs procs trace]. intros H.
  do 6 (destruct inp as [|? inp];
        [eexists; split;
         [cbv [prompt_values PROMPTS prompt_loop print input bind emit ret
               stdin fs procs trace];
          rewrite <- !app_assoc; cbn [app]; reflexivity
         | repeat constructor]|]).
  cbn in H. lia.
Qed.

(** X1.  Given six lines, [prompt_values] reads exactly those, changes nothing,
    and returns for each of the six keys the line typed, stripped, or the
    default where that is empty; no value it returns is empty. *)
Theorem prompt_values_returns (w : world) (a0 a1 a2 a3 a4 a5 : string)
    (rest : list string) :
  stdin w = a0 :: a1 :: a2 :: a3 :: a4 :: a5 :: rest ->
  exists values w',
    prompt_values w = (Ok values, w') /\
    stdin w' = rest /\ fs w' = fs w /\ procs w' = procs w /\
    map fst values = map (fun p => fst (fst p)) PROMPTS /\
    dict_get "project_name" values = value_of "ci_cd_project" a0 /\
    dict_get "author_name" values = value_of "Anouar Zbaida" a1 /\
    dict_get "organization" values = value_of "Crithink" a2 /\
    dict_get "app_database" values = value_of "APP_DB" a3 /\
    dict_get "ci_database" values = value_of "_DB_UTILS" a4 /\
    dict_get "warehouse_name" values = value_of "ANALYTICS_WH" a5 /\
    Forall (fun kv => nonempty (snd kv) = true) values.
Proof.
  intros H. destruct (prompt_values_run w _ _ _ _ _ _ _ H) as (evs & E & _).
  eexists _, _. split; [exact E|]. cbn [stdin fs procs].
  repeat (split; [reflexivity|]).
  repeat constructor; cbn [snd]; apply value_of_nonempty; reflexivity.
Qed.

Lemma prompt_values_returns_witness :
  exists values w',
    prompt_values (mkWorld (Dir []) ["acme"; "  "; ""; " ACME_DB "; ""; ""; "y"]
                     [] [])
    = (Ok values, w') /\
    stdin w' = ["y"] /\ fs w' = Dir [] /\ procs w' = [] /\
    map fst values = map (fun p => fst (fst p)) PROMPTS /\
    dict_get "project_name" values = value_of "ci_cd_project" "acme" /\
    dict_get "author_name" values = value_of "Anouar Zbaida" "  " /\
    dict_get "organization" values = value_of "Crithink" "" /\
    dict_get "app_database" values = value_of "APP_DB" " ACME_DB " /\
    dict_get "ci_database" values = value_of "_DB_UTILS" "" /\
    dict_get "warehouse_name" values = value_of "ANALYTICS_WH" "" /\
    Forall (fun kv => nonempty (snd kv) = true) values.
Proof.
  apply (prompt_values_returns
           (mkWorld (Dir []) ["acme"; "  "; ""; " ACME_DB "; ""; ""; "y"] [] [])).
  reflexivity.
Defined.

(** ** [main], where it stops early *)

(** X2.  When the input ends before the six values have been typed, [main] ends
    with the [EOFError] of [input], which nothing catches; the tree has not
    been looked at and nothing has been changed. *)
Theorem main_eof_while_prompting (w : world) :
  List.length (stdin w) < 6 ->
  exists evs,
    main w = (Raise EOFError, mkWorld (fs w) [] (procs w) (trace w ++ evs)) /\
    Forall (fun e => uses_tree e = false) evs.
Proof.
  intros H. destruct (prompt_values_eof w H) as (evs & E & F).
  exists evs. split; [|exact F]. unfold main. apply bind_raise. exact E.
Qed.

Lemma main_eof_while_prompting_witness :
  exists evs,
    main (mkWorld (Dir [("a.txt", txt "APP_DB")]) ["acme"; "me"] [] [])
    = (Raise EOFError,
       mkWorld (Dir [("a.txt", txt "APP_DB")]) [] [] ([] ++ evs)) /\
    Forall (fun e => uses_tree e = false) evs.
Proof.
  apply (main_eof_while_prompting
           (mkWorld (Dir [("a.txt", txt "APP_DB")]) ["acme"; "me"] [] [])).
  cbn. lia.
Defined.

Lemma value_of_default (default answer : string) :
  value_of default answer = default ->
  String.eqb default (value_of default answer) = true.
Proof. intros ->. apply String.eqb_refl. Qed.

(** X3.  When every line typed is blank or is the default itself, [main] prints
    that there is nothing to change and returns: it has read the six lines
    and no more, it has not looked at the tree, and it has changed
    nothing. *)
Theorem main_nothing_to_change (w : world) (a0 a1 a2 a3 a4 a5 : string)
    (rest : list string) :
  stdin w = a0 :: a1 :: a2 :: a3 :: a4 :: a5 :: rest ->
  value_of (default_of 0) a0 = default_of 0 ->
  value_of (default_of 1) a1 = default_of 1 ->
  value_of (default_of 2) a2 = default_of 2 ->
  value_of (default_of 3) a3 = default_of 3 ->
  value_of (default_of 4) a4 = default_of 4 ->
  value_of (default_of 5) a5 = default_of 5 ->
  exists evs,
    main w = (Ok tt, mkWorld (fs w) rest (procs w) (trace w ++ evs)) /\
    Forall (fun e => uses_tree e = false) evs /\
    last evs (EvPrint "")
    = EvPrint (nl ++ "  All values match defaults. Nothing to change.").
Proof.
  intros H H0 H1 H2 H3 H4 H5.
  destruct (prompt_values_run w _ _ _ _ _ _ _ H) as (evs & E & F & _).
  exists (evs ++ [EvPrint (nl ++ "  All values match defaults. Nothing to change.")]).
  split; [|split].
  - unfold main. rewrite (bind_ok _ _ _ _ _ E). cbv zeta.
    unfold replacements_of, dir_renames_of, file_renames_of.
    cbn [dict_get find fst snd String.eqb Ascii.eqb Bool.eqb].
    rewrite H0, H1, H2, H3, H4, H5. cbn.
    unfold print, emit. cbn [fs stdin procs trace].
    rewrite <- app_assoc. reflexivity.
  - apply Forall_app. split; [exact F | repeat constructor].
  - apply last_last.
Qed.

Lemma main_nothing_to_change_witness :
  exists evs,
    main (mkWorld (Dir [("a.txt", txt "APP_DB")])
            [""; "  "; "Crithink"; " APP_DB "; ""; ""; "later"] [] [])
    = (Ok tt, mkWorld (Dir [("a.txt", txt "APP_DB")]) ["later"] []
                ([] ++ evs)) /\
    Forall (fun e => uses_tree e = false) evs /\
    last evs (EvPrint "")
    = EvPrint (nl ++ "  All values match defaults. Nothing to change.").
Proof.
  apply (main_nothing_to_change
           (mkWorld (Dir [("a.txt", txt "APP_DB")])
              [""; "  "; "Crithink"; " APP_DB "; ""; ""; "later"] [] [])
           "" "  " "Crithink" " APP_DB " "" "" ["later"]);
    reflexivity.
Defined.

(** ** [count_replacements] *)

(** X7.  [count_replacements] never fails and changes nothing.  With [old] equal
    to [new] it returns (0, 0) without opening a file.  Otherwise it opens
    each file of the list for reading, once and in order, and returns the
    occurrences of [old] in the texts it reads (the bytes that decode, with
    the line ends CRLF and CR read as LF), summed over the list, and the
    number of files of the list in whose text [old] occurs; a file that
    cannot be opened counts for nothing. *)
Theorem count_replacements_counts (files : list path) (old new : string)
    (w : world) :
  (old = new -> count_replacements files old new w = (Ok (0, 0), w)) /\
  (old <> new ->
   count_replacements files old new w
   = (Ok (total_occurrences (fs w) files old, files_with (fs w) files old),
      mkWorld (fs w) (stdin w) (procs w)
        (trace w ++ map EvOpenRead files))).
Proof.
  rewrite count_replacements_spec. split.
  - intros ->. rewrite String.eqb_refl. reflexivity.
  - intros H. apply String.eqb_neq in H. rewrite H. reflexivity.
Qed.

Lemma files_with_bounds (t : node) (files : list path) (old : string) :
  files_with t files old <= total_occurrences t files old /\
  files_with t files old <= List.length files /\
  (total_occurrences t files old = 0 <-> files_with t files old = 0).
Proof.
  unfold files_with.
  induction files as [|p rest (IH1 & IH2 & IH3)]; cbn [total_occurrences filter];
    [cbn; repeat split; lia|].
  destruct (Nat.ltb 0 (occurrences t p old)) eqn:E; cbn [List.length].
  - apply Nat.ltb_lt in E. repeat split; lia.
  - apply Nat.ltb_ge in E. repeat split; lia.
Qed.

(** X8.  Of the two numbers [count_replacements] returns, the number of files is
    at most the number of occurrences and at most the length of the list,
    and one is zero exactly when the other is: the dry run of [main] says
    "0 occurrences found" exactly when no file holds [old]. *)
Theorem count_replacements_bounds (files : list path) (old new : string)
    (w w' : world) (total_count file_count : nat) :
  count_replacements files old new w = (Ok (total_count, file_count), w') ->
  file_count <= total_count /\
  file_count <= List.length files /\
  (total_count = 0 <-> file_count = 0).
Proof.
  rewrite count_replacements_spec. destruct (String.eqb old new); intros H;
    inversion H; subst; clear H.
  - repeat split; lia.
  - apply files_with_bounds.
Qed.

Lemma count_replacements_bounds_witness :
  2 <= 3 /\ 2 <= List.length [["a"]; ["b"]; ["c"]] /\ (3 = 0 <-> 2 = 0).
Proof.
  apply (count_replacements_bounds [["a"]; ["b"]; ["c"]] "x" "y"
           (mkWorld (Dir [("a", txt "xx"); ("b", txt "-"); ("c", txt "x")])
              [] [] [])
           (mkWorld (Dir [("a", txt "xx"); ("b", txt "-"); ("c", txt "x")])
              [] [] [EvOpenRead ["a"]; EvOpenRead ["b"]; EvOpenRead ["c"]])).
  reflexivity.
Defined.

(** ** What [replace_in_files] leaves alone *)

Lemma lookup_put_above (q r : path) (x : node) :
  forall t y, lookup t (q ++ r) = Some y -> r <> [] ->
  exists es, lookup (put (q ++ r) x t) q = Some (Dir es).
Proof.
  induction q as [|n q IH]; intros t y H Hr.
  - destruct r as [|m r]; [contradiction|]. cbn in H |- *.
    destruct t as [g|es]; [discriminate|].
    destruct (assoc m es); [|discriminate]. eexists. reflexivity.
  - cbn in H |- *. destruct t as [g|es]; [discriminate|].
    destruct (assoc n es) as [c|] eqn:A; [|discriminate].
    cbn. rewrite assoc_set_entry_same. apply (IH _ _ H Hr).
Qed.

(** Writing a file over a file leaves every path what it was: nothing, a
    file or a directory. *)
Lemma put_file_shape (p : path) (f f' : file) (t : node) (q : path) :
  lookup t p = Some (File f) ->
  path_exists (put p (File f') t) q = path_exists t q /\
  isdir (put p (File f') t) q = isdir t q.
Proof.
  intros H. destruct (is_prefix q p) eqn:Hqp.
  - apply is_prefix_split in Hqp as [r ->]. destruct r as [|m r].
    + rewrite app_nil_r in *. unfold path_exists, isdir.
      rewrite (lookup_put_same _ _ _ _ H), H.
      destruct q; [cbn in H |- *; inversion H; subst; auto | auto].
    + destruct (lookup_above _ _ _ _ H) as [es L]; [discriminate|].
      destruct (lookup_put_above q (m :: r) (File f') _ _ H) as [es' L'];
        [discriminate|].
      destruct q; unfold path_exists, isdir; rewrite L, L'; auto.
  - destruct q as [|k q]; [discriminate|].
    unfold path_exists, isdir. rewrite (lookup_put_file _ _ _ _ _ H Hqp).
    auto.
Qed.

Lemma rewrite_file_shape (t t1 : node) (p : path) (old new : string)
    (n1 : nat) (evs1 : list event) (q : path) :
  rewrite_file t p old new = (t1, n1, evs1) ->
  path_exists t1 q = path_exists t q /\ isdir t1 q = isdir t q.
Proof.
  unfold rewrite_file, text_at. intros H.
  destruct (file_at t p) as [f|] eqn:F; [|inversion H; auto].
  destruct (readable f); [|inversion H; auto].
  destruct (Nat.ltb 0 _); [|inversion H; auto].
  destruct (writable f); inversion H; subst; auto.
  apply put_file_shape with (f := f). apply file_at_lookup. exact F.
Qed.

Lemma rewrite_files_shape (files : list path) (old new : string) :
  forall (t t' : node) (n : nat) (evs : list event) (q : path),
  rewrite_files t files old new = (t', n, evs) ->
  path_exists t' q = path_exists t q /\ isdir t' q = isdir t q.
Proof.
  induction files as [|p rest IH]; intros t t' n evs q H; cbn in H.
  - inversion H. auto.
  - destruct (rewrite_file t p old new) as [[t1 n1] evs1] eqn:S1.
    destruct (rewrite_files t1 rest old new) as [[t2 n2] evs2] eqn:S2.
    inversion H; subst; clear H.
    destruct (IH _ _ _ _ q S2) as [-> ->].
    apply (rewrite_file_shape _ _ _ _ _ _ _ _ S1).
Qed.

(** X9.  When [replace_in_files] returns, whatever the list names and
    whatever has been rewritten, it has made and removed no path: what
    exists, and what is a directory, is as before; a file that is not in
    the list holds what it held; and nothing has been typed or run. *)
Theorem replace_in_files_frame (files : list path) (old new : string)
    (w w' : world) (n : nat) :
  replace_in_files files old new w = (Ok n, w') ->
  stdin w' = stdin w /\ procs w' = procs w /\
  (forall q, path_exists (fs w') q = path_exists (fs w) q) /\
  (forall q, isdir (fs w') q = isdir (fs w) q) /\
  (forall q, ~ In q files -> file_at (fs w') q = file_at (fs w) q).
Proof.
  rewrite replace_in_files_spec. destruct (String.eqb old new).
  - intros H. inversion H; subst. repeat split; reflexivity.
  - destruct (rewrite_files (fs w) files old new) as [[t k] evs] eqn:S.
    intros H. inversion H; subst. cbn [after fs stdin procs].
    split; [reflexivity|]. split; [reflexivity|].
    split; [|split]; intros q.
    + apply (rewrite_files_shape _ _ _ _ _ _ _ q S).
    + apply (rewrite_files_shape _ _ _ _ _ _ _ q S).
    + intros Hq. apply (rewrite_files_other _ _ _ _ _ _ _ _ S Hq).
Qed.

Lemma replace_in_files_frame_witness :
  let t := Dir [("a.txt", txt "APP_DB"); ("b.txt", txt "APP_DB")] in
  let w := mkWorld t ["y"] [(true, "main")] [] in
  let w' := snd (replace_in_files [["a.txt"]] "APP_DB" "ACME_DB" w) in
  stdin w' = stdin w /\ procs w' = procs w /\
  (forall q, path_exists (fs w') q = path_exists (fs w) q) /\
  (forall q, isdir (fs w') q = isdir (fs w) q) /\
  (forall q, ~ In q [["a.txt"]] -> file_at (fs w') q = file_at (fs w) q).
Proof.
  cbv zeta.
  apply (replace_in_files_frame [["a.txt"]] "APP_DB" "ACME_DB"
           (mkWorld (Dir [("a.txt", txt "APP_DB"); ("b.txt", txt "APP_DB")])
                    ["y"] [(true, "main")] []) _ 1).
  reflexivity.
Defined.

(** ** What [collect_text_files] finds *)

Lemma flat_map_flat_map {A B C : Type} (g : B -> list C) (h : A -> list B)
    (l : list A) :
  flat_map g (flat_map h l) = flat_map (fun a => flat_map g (h a)) l.
Proof.
  induction l as [|a l IH]; [reflexivity|].
  change (flat_map h (a :: l)) with (h a ++ flat_map h l).
  rewrite flat_map_app, IH. reflexivity.
Qed.

Lemma files_of_walk_flat_map {A : Type}
    (h : A -> list (path * list string * list string)) (l : list A) :
  files_of_walk (flat_map h l) = flat_map (fun a => files_of_walk (h a)) l.
Proof. unfold files_of_walk. apply flat_map_flat_map. Qed.

Lemma files_of_walk_cons (dirpath : path) (dirnames filenames : list string)
    (l : list (path * list string * list string)) :
  files_of_walk ((dirpath, dirnames, filenames) :: l) =
  map (fun filename => dirpath ++ [filename])
      (filter (fun filename => negb (is_binary filename)) filenames)
  ++ files_of_walk l.
Proof. reflexivity. Qed.

Lemma files_of_walk_dir (dirpath : path) (es : list (string * node)) :
  files_of_walk (os_walk keep_dirs dirpath (Dir es)) =
  map (fun filename => dirpath ++ [filename])
      (filter (fun filename => negb (is_binary filename)) (file_names es))
  ++ flat_map
       (fun e => if is_dir_node (snd e)
                    && mem (fst e) (keep_dirs (dir_names es))
                 then files_of_walk
                        (os_walk keep_dirs (dirpath ++ [fst e]) (snd e))
                 else [])
       es.
Proof.
  rewrite os_walk_dir, files_of_walk_cons, files_of_walk_flat_map. f_equal.
  apply flat_map_ext. intros e.
  destruct (is_dir_node (snd e) && mem (fst e) (keep_dirs (dir_names es)));
    reflexivity.
Qed.

Lemma files_of_walk_below (t : node) (dirpath p : path) :
  In p (files_of_walk (os_walk keep_dirs dirpath t)) ->
  exists sub, p = dirpath ++ sub /\ sub <> [].
Proof.
  unfold files_of_walk. intros H.
  apply in_flat_map in H as ([[dp ds] fns] & Hin & H).
  apply in_map_iff in H as (fn & <- & _).
  destruct (os_walk_no_skipped _ _ _ Hin) as (sub & E & _). cbn in E. subst dp.
  exists (sub ++ [fn]). rewrite app_assoc. split; [reflexivity|].
  destruct sub; discriminate.
Qed.

Lemma assoc_In (n : string) (es : list (string * node)) (c : node) :
  assoc n es = Some c -> In (n, c) es.
Proof.
  induction es as [|[m d] es IH]; cbn; [discriminate|].
  destruct (String.eqb n m) eqn:E.
  - apply String.eqb_eq in E. intros H. inversion H. subst. left. reflexivity.
  - intros H. right. apply IH, H.
Qed.

Lemma files_of_walk_complete (p : path) :
  forall (t : node) (dirpath : path) (f : file),
  lookup t p = Some (File f) -> p <> [] ->
  under_skipped p = false -> is_binary (basename p) = false ->
  In (dirpath ++ p) (files_of_walk (os_walk keep_dirs dirpath t)).
Proof.
  induction p as [|n p IH]; intros t dirpath f L Hne U B; [contradiction|].
  destruct t as [g|es]; [discriminate|]. cbn [lookup] in L.
  destruct (assoc n es) as [c|] eqn:A; [|discriminate].
  apply assoc_In in A. rewrite files_of_walk_dir. apply in_or_app.
  destruct p as [|m p].
  - left. cbn in L. inversion L; subst c.
    apply (in_map (fun filename => dirpath ++ [filename])).
    apply filter_In.
    split; [|change (basename [n]) with n in B; rewrite B; reflexivity].
    unfold file_names. apply in_map_iff. exists (n, File f).
    split; [reflexivity|]. apply filter_In. split; [exact A | reflexivity].
  - right. apply in_flat_map. exists (n, c). split; [exact A|]. cbn [fst snd].
    assert (D : is_dir_node c = true).
    { destruct c; [discriminate | reflexivity]. }
    unfold under_skipped in U. rewrite dirname_cons in U. cbn [existsb] in U.
    apply orb_false_iff in U as [U1 U2].
    assert (K : mem n (keep_dirs (dir_names es)) = true).
    { apply mem_true. unfold keep_dirs. apply filter_In. split.
      - unfold dir_names. apply in_map_iff. exists (n, c).
        split; [reflexivity|]. apply filter_In. split; [exact A | exact D].
      - rewrite U1. reflexivity. }
    rewrite D, K. cbn [andb].
    replace (dirpath ++ n :: m :: p) with ((dirpath ++ [n]) ++ m :: p)
      by (rewrite <- app_assoc; reflexivity).
    apply (IH c _ f L); [discriminate | exact U2 | exact B].
Qed.

(** X10.  [collect_text_files] misses nothing: a file of the tree that lies under
    no directory named in [SKIP_DIRS] and whose extension, lowercased, is
    not in [BINARY_EXTENSIONS] is among the paths it returns. *)
Theorem collect_text_files_complete (w : world) (p : path) (f : file) :
  lookup (fs w) p = Some (File f) -> p <> [] ->
  under_skipped p = false -> is_binary (basename p) = false ->
  exists found w',
    collect_text_files w = (Ok found, w') /\ In p found.
Proof.
  intros L Hne U B. eexists _, _. split; [apply collect_text_files_run|].
  apply (files_of_walk_complete p (fs w) [] f L Hne U B).
Qed.

Lemma collect_text_files_complete_witness :
  exists found w',
    collect_text_files
      (mkWorld (Dir [("models", Dir [("a.sql", txt "x"); ("b.csv", txt "y")]);
                     ("venv", Dir [("c.py", txt "z")])]) [] [] [])
    = (Ok found, w') /\ In ["models"; "a.sql"] found.
Proof.
  apply (collect_text_files_complete
           (mkWorld (Dir [("models", Dir [("a.sql", txt "x"); ("b.csv", txt "y")]);
                          ("venv", Dir [("c.py", txt "z")])]) [] [] [])
           ["models"; "a.sql"] (mkFile (encode "x") true true));
    [reflexivity | discriminate | reflexivity | reflexivity].
Defined.

Lemma distinct_NoDup (l : list string) : distinct l = true -> NoDup l.
Proof.
  induction l as [|x l IH]; cbn; intros H; constructor;
    apply andb_true_iff in H as [H1 H2].
  - intros Hin. apply mem_true in Hin. rewrite Hin in H1. discriminate.
  - apply IH, H2.
Qed.

Lemma well_formed_dir (es : list (string * node)) :
  well_formed (Dir es) = true ->
  NoDup (map fst es) /\ Forall (fun e => well_formed (snd e) = true) es.
Proof.
  cbn [well_formed]. intros H. apply andb_true_iff in H as [H1 H2].
  split; [apply distinct_NoDup, H1|]. clear H1.
  induction es as [|[n c] es IH]; constructor;
    apply andb_true_iff in H2 as [Ha Hb]; [exact Ha | apply IH, Hb].
Qed.

Lemma NoDup_map_inj {A B : Type} (f : A -> B) (l : list A) :
  (forall x y, f x = f y -> x = y) -> NoDup l -> NoDup (map f l).
Proof.
  intros Hf H. induction H as [|x l Hx H IH]; cbn; constructor; [|exact IH].
  intros Hin. apply in_map_iff in Hin as (y & E & Hy). apply Hf in E.
  subst y. contradiction.
Qed.

Lemma NoDup_names_filter (P : string * node -> bool)
    (es : list (string * node)) :
  NoDup (map fst es) -> NoDup (map fst (filter P es)).
Proof.
  induction es as [|e es IH]; cbn; intros H; [constructor|].
  inversion H as [|? ? Hx H']; subst.
  destruct (P e); [|apply IH, H']. cbn. constructor; [|apply IH, H'].
  intros Hin. apply Hx. apply in_map_iff in Hin as (e' & E & He').
  apply filter_In in He' as [He' _]. rewrite <- E. apply in_map, He'.
Qed.

Lemma files_of_subdirs_NoDup (dirpath : path) (kept : list string)
    (es : list (string * node)) :
  Forall (fun e => well_formed (snd e) = true ->
                   forall dirpath,
                   NoDup (files_of_walk (os_walk keep_dirs dirpath (snd e))))
         es ->
  Forall (fun e => well_formed (snd e) = true) es ->
  NoDup (map fst es) ->
  NoDup (flat_map
           (fun e => if is_dir_node (snd e) && mem (fst e) kept
                     then files_of_walk
                            (os_walk keep_dirs (dirpath ++ [fst e]) (snd e))
                     else [])
           es).
Proof.
  induction es as [|e es IHes]; intros IH W N; cbn [flat_map]; [constructor|].
  inversion IH as [|? ? IHe IH']; subst. inversion W as [|? ? We W']; subst.
  cbn [map] in N. inversion N as [|? ? Hx N']; subst.
  apply NoDup_app.
  - destruct (is_dir_node (snd e) && mem (fst e) kept); [|constructor].
    apply IHe, We.
  - apply IHes; assumption.
  - intros p H1 H2.
    destruct (is_dir_node (snd e) && mem (fst e) kept); [|contradiction].
    apply files_of_walk_below in H1 as (sub & -> & _).
    apply in_flat_map in H2 as (e' & He' & H2).
    destruct (is_dir_node (snd e') && mem (fst e') kept); [|contradiction].
    apply files_of_walk_below in H2 as (sub' & E & _).
    rewrite <- !app_assoc in E. apply app_inv_head in E. cbn in E.
    inversion E as [[E1 E2]]. apply Hx. rewrite E1. apply in_map, He'.
Qed.

Lemma files_of_walk_NoDup (t : node) :
  well_formed t = true ->
  forall dirpath, NoDup (files_of_walk (os_walk keep_dirs dirpath t)).
Proof.
  induction t as [f|es IH] using node_ind'; intros W dirpath; [constructor|].
  apply well_formed_dir in W as [N W]. rewrite files_of_walk_dir.
  apply NoDup_app.
  - apply NoDup_map_inj.
    + intros x y E. apply app_inv_head in E. inversion E. reflexivity.
    + apply NoDup_filter. unfold file_names. apply NoDup_names_filter, N.
  - apply files_of_subdirs_NoDup; assumption.
  - intros p H1 H2. apply in_map_iff in H1 as (fn & <- & _).
    apply in_flat_map in H2 as (e & _ & H2).
    destruct (is_dir_node (snd e) && mem (fst e) (keep_dirs (dir_names es)));
      [|contradiction].
    apply files_of_walk_below in H2 as (sub & E & Hs).
    rewrite <- app_assoc in E. apply app_inv_head in E. cbn in E.
    inversion E. subst sub. contradiction.
Qed.

(** X12.  In a tree where no directory holds two entries of one name, as a file
    system has it, [collect_text_files] returns no path twice. *)
Theorem collect_text_files_distinct (w : world) :
  well_formed (fs w) = true ->
  exists found w', collect_text_files w = (Ok found, w') /\ NoDup found.
Proof.
  intros W. eexists _, _. split; [apply collect_text_files_run|].
  apply (files_of_walk_NoDup (fs w) W []).
Qed.

Lemma collect_text_files_distinct_witness :
  exists found w',
    collect_text_files
      (mkWorld (Dir [("models", Dir [("a.sql", txt "x"); ("b.csv", txt "y")]);
                     ("a.sql", txt "z")]) [] [] [])
    = (Ok found, w') /\ NoDup found.
Proof.
  apply (collect_text_files_distinct
           (mkWorld (Dir [("models", Dir [("a.sql", txt "x"); ("b.csv", txt "y")]);
                          ("a.sql", txt "z")]) [] [] [])).
  reflexivity.
Defined.

Lemma In_assoc (n : string) (c : node) (es : list (string * node)) :
  NoDup (map fst es) -> In (n, c) es -> assoc n es = Some c.
Proof.
  induction es as [|[m d] es IH]; cbn; intros N H; [contradiction|].
  inversion N as [|? ? Hx N']; subst. destruct H as [H|H].
  - inversion H; subst. rewrite String.eqb_refl. reflexivity.
  - destruct (String.eqb n m) eqn:E; [|apply IH; assumption].
    apply String.eqb_eq in E. subst m. exfalso. apply Hx.
    apply (in_map fst) in H. exact H.
Qed.

Lemma files_of_walk_sound (t : node) :
  well_formed t = true ->
  forall dirpath p,
  In p (files_of_walk (os_walk keep_dirs dirpath t)) ->
  exists sub f, p = dirpath ++ sub /\ lookup t sub = Some (File f).
Proof.
  induction t as [f|es IH] using node_ind'; intros W dirpath p H;
    [contradiction|].
  apply well_formed_dir in W as [N W]. rewrite files_of_walk_dir in H.
  apply in_app_or in H as [H|H].
  - apply in_map_iff in H as (fn & <- & H). apply filter_In in H as [H _].
    unfold file_names in H. apply in_map_iff in H as ([n c] & E & H).
    cbn in E. subst n. apply filter_In in H as [H D]. cbn in D.
    destruct c as [f|]; [|discriminate].
    exists [fn], f. split; [reflexivity|]. cbn.
    rewrite (In_assoc _ _ _ N H). reflexivity.
  - apply in_flat_map in H as ([n c] & He & H). cbn [fst snd] in H.
    destruct (is_dir_node c && mem n (keep_dirs (dir_names es)));
      [|contradiction].
    rewrite Forall_forall in IH, W.
    destruct (IH _ He (W _ He) _ _ H) as (sub & f & -> & L).
    exists (n :: sub), f. rewrite <- app_assoc. split; [reflexivity|].
    cbn. rewrite (In_assoc _ _ _ N He). exact L.
Qed.

(** X11.  In a tree where no directory holds two entries of one name, every path
    [collect_text_files] returns is the path of a file of the tree. *)
Theorem collect_text_files_sound (w w' : world) (found : list path)
    (p : path) :
  well_formed (fs w) = true ->
  collect_text_files w = (Ok found, w') -> In p found ->
  exists f, lookup (fs w) p = Some (File f).
Proof.
  intros W E H. rewrite collect_text_files_run in E. inversion E; subst.
  destruct (files_of_walk_sound (fs w) W [] p H) as (sub & f & -> & L).
  exists f. exact L.
Qed.

Lemma collect_text_files_sound_witness :
  exists f,
    lookup (Dir [("models", Dir [("a.sql", txt "x"); ("b.csv", txt "y")])])
      ["models"; "a.sql"]
    = Some (File f).
Proof.
  apply (collect_text_files_sound
           (mkWorld (Dir [("models", Dir [("a.sql", txt "x"); ("b.csv", txt "y")])])
              [] [] [])
           (mkWorld (Dir [("models", Dir [("a.sql", txt "x"); ("b.csv", txt "y")])])
              [] [] [EvWalk [["models"; "a.sql"]]])
           [["models"; "a.sql"]]);
    [reflexivity | reflexivity | left; reflexivity].
Defined.

(** ** Collecting, counting and replacing together *)

(** X13.  In a tree where no directory holds two entries of one name and every
    collected file can be read and written, for [old] other than [new]:
    [count_replacements] over the collected files reports the number that
    [replace_in_files] over them then returns; afterwards every collected
    file in whose text, as it is read (the bytes that decode, line ends
    read as LF), [old] occurs holds the encoding of that text with [old]
    replaced by [new], every other collected file is as it was, and every
    file that was not collected holds what it held. *)
Theorem collected_files_are_replaced (w : world) (old new : string) :
  well_formed (fs w) = true ->
  (forall p, In p (text_files_of (fs w)) -> read_write (fs w) p) ->
  old <> new ->
  exists found w1 total file_count w2 w3,
    collect_text_files w = (Ok found, w1) /\
    count_replacements found old new w1 = (Ok (total, file_count), w2) /\
    replace_in_files found old new w2 = (Ok total, w3) /\
    (forall p f,
       In p found -> file_at (fs w) p = Some f ->
       let content := read_of (cells f) in
       exists f',
         file_at (fs w3) p = Some f' /\
         (0 < Py.count content old ->
          cells f' = encode (Py.replace content old new)) /\
         (Py.count content old = 0 -> f' = f)) /\
    (forall p, ~ In p found -> file_at (fs w3) p = file_at (fs w) p).
Proof.
  intros W RW Hne. apply String.eqb_neq in Hne.
  pose proof (files_of_walk_NoDup (fs w) W []) as ND.
  change (files_of_walk (os_walk keep_dirs [] (fs w)))
    with (text_files_of (fs w)) in ND.
  destruct (rewrite_files (fs w) (text_files_of (fs w)) old new)
    as [[t n] evs] eqn:S.
  eexists _, _, _, _, _, (after _ t evs).
  split; [apply collect_text_files_run|].
  rewrite count_replacements_spec, Hne. split; [reflexivity|].
  rewrite replace_in_files_spec, Hne. cbn [log fs]. rewrite S.
  cbn [after fs]. split; [|split].
  - assert (n = total_occurrences (fs w) (text_files_of (fs w)) old) as ->.
    { apply (rewrite_files_count _ _ _ _ _ _ _ S ND).
      intros p f Hp F R. destruct (RW p Hp) as (g & G & _ & Wg). congruence. }
    reflexivity.
  - intros p f Hp F. cbv zeta. exists (rewritten f old new).
    split; [exact (rewrite_files_text _ _ _ _ _ _ _ S ND RW p f Hp F)|].
    unfold rewritten. split; intros C.
    + apply Nat.ltb_lt in C. rewrite C. reflexivity.
    + rewrite C. reflexivity.
  - intros p Hp. apply (rewrite_files_other _ _ _ _ _ _ _ _ S Hp).
Qed.

Lemma collected_files_are_replaced_witness :
  let t := Dir [("models", Dir [("a.sql", txt "FROM APP_DB.x, APP_DB.y")]);
                ("README.md", txt ("APP_DB" ++ cr ++ nl));
                ("logs", Dir [("run.log", txt "APP_DB")])] in
  let w := mkWorld t [] [] [] in
  exists found w1 total file_count w2 w3,
    collect_text_files w = (Ok found, w1) /\
    count_replacements found "APP_DB" "ACME" w1 = (Ok (total, file_count), w2) /\
    replace_in_files found "APP_DB" "ACME" w2 = (Ok total, w3) /\
    (forall p f,
       In p found -> file_at (fs w) p = Some f ->
       let content := read_of (cells f) in
       exists f',
         file_at (fs w3) p = Some f' /\
         (0 < Py.count content "APP_DB" ->
          cells f' = encode (Py.replace content "APP_DB" "ACME")) /\
         (Py.count content "APP_DB" = 0 -> f' = f)) /\
    (forall p, ~ In p found -> file_at (fs w3) p = file_at (fs w) p).
Proof.
  cbv zeta.
  apply (collected_files_are_replaced
           (mkWorld
              (Dir [("models", Dir [("a.sql", txt "FROM APP_DB.x, APP_DB.y")]);
                    ("README.md", txt ("APP_DB" ++ cr ++ nl));
                    ("logs", Dir [("run.log", txt "APP_DB")])]) [] [] [])).
  - reflexivity.
  - intros p H. cbn in H. destruct H as [<-|[<-|[]]];
      eexists; (split; [reflexivity|]); split; reflexivity.
  - discriminate.
Defined.

(** ** The Git set-up *)

(** X16.  [git_setup] runs no command and changes nothing when the project has no
    [.git] directory, where it does not ask either, and when the URL typed
    is blank. *)
Theorem git_setup_runs_nothing (w : world) :
  (isdir (fs w) [".git"] = false ->
   exists evs,
     git_setup w = (Ok tt, log w evs) /\
     commands evs = [] /\
     printed evs
     = [""; "  No .git directory found. To set up Git:";
        "    git init && git remote add origin <your-repo-url>";
        "    git add -A && git commit -m 'Initial commit' && git push -u origin main"]) /\
  (forall line rest,
   isdir (fs w) [".git"] = true -> stdin w = line :: rest ->
   Py.strip line = "" ->
   exists evs,
     git_setup w = (Ok tt, mkWorld (fs w) rest (procs w) (trace w ++ evs)) /\
     commands evs = []).
Proof.
  destruct w as [t inp pr tr]. cbn [fs stdin procs trace]. split.
  - intros H. eexists. split; [|split].
    + cbv [git_setup bind get_fs print emit fs stdin procs trace log].
      rewrite H. rewrite <- !app_assoc. cbn [app]. reflexivity.
    + reflexivity.
    + reflexivity.
  - intros line rest H -> S. eexists. split.
    + cbv [git_setup bind get_fs print emit input fs stdin procs trace].
      rewrite H, S. cbn [nonempty]. rewrite <- !app_assoc. cbn [app].
      reflexivity.
    + reflexivity.
Qed.

Lemma git_setup_runs_nothing_witness :
  (exists evs,
     git_setup (mkWorld (Dir [(".git", Dir [])]) ["  "; "y"] [] [])
     = (Ok tt, mkWorld (Dir [(".git", Dir [])]) ["y"] [] ([] ++ evs)) /\
     commands evs = []).
Proof.
  apply (proj2 (git_setup_runs_nothing
                  (mkWorld (Dir [(".git", Dir [])]) ["  "; "y"] [] []))
           "  " ["y"]); reflexivity.
Defined.

(** X17.  With a URL typed, [git_setup] first sets the URL of the remote [origin];
    when that command fails it adds the remote instead; and when that fails
    too, the [CalledProcessError] is not caught: the script ends there, and
    no further command is run. *)
Theorem git_setup_remote_failure (w : world) (line : string)
    (rest : list string) (out1 out2 : string) (outcomes : list (bool * string)) :
  isdir (fs w) [".git"] = true ->
  stdin w = line :: rest ->
  nonempty (Py.strip line) = true ->
  procs w = (false, out1) :: (false, out2) :: outcomes ->
  exists evs,
    git_setup w
    = (Raise CalledProcessError,
       mkWorld (fs w) rest outcomes (trace w ++ evs)) /\
    commands evs
    = [["git"; "remote"; "set-url"; "origin"; Py.strip line];
       ["git"; "remote"; "add"; "origin"; Py.strip line]].
Proof.
  destruct w as [t inp pr tr]. cbn [fs stdin procs trace].
  intros H -> S ->. eexists. split.
  - cbv [git_setup bind get_fs print emit input run ret
         try_CalledProcessError fs stdin procs trace andb negb].
    rewrite H, S. rewrite <- !app_assoc. cbn [app]. reflexivity.
  - reflexivity.
Qed.

Lemma git_setup_remote_failure_witness :
  exists evs,
    git_setup (mkWorld (Dir [(".git", Dir [])]) [" git@host:acme.git "; "y"]
                 [(false, ""); (false, ""); (true, "main")] [])
    = (Raise CalledProcessError,
       mkWorld (Dir [(".git", Dir [])]) ["y"] [(true, "main")] ([] ++ evs)) /\
    commands evs
    = [["git"; "remote"; "set-url"; "origin"; Py.strip " git@host:acme.git "];
       ["git"; "remote"; "add"; "origin"; Py.strip " git@host:acme.git "]].
Proof.
  apply (git_setup_remote_failure
           (mkWorld (Dir [(".git", Dir [])]) [" git@host:acme.git "; "y"]
              [(false, ""); (false, ""); (true, "main")] [])
           " git@host:acme.git " ["y"] "" "" [(true, "main")]);
    reflexivity.
Defined.

(** X18.  With a URL typed and the commit agreed to, [git_setup] sets the remote,
    asks Git for the current branch, stages everything and commits; the
    branch it pushes to is the one Git named, or [main] when Git named
    none.  A push that fails is reported and does not end the script. *)
Theorem git_setup_push_failure (w : world) (line answer : string)
    (rest : list string) (out1 out2 out3 out4 out5 : string)
    (outcomes : list (bool * string)) (branch_found : bool) :
  isdir (fs w) [".git"] = true ->
  stdin w = line :: answer :: rest ->
  nonempty (Py.strip line) = true ->
  yes_or_empty (Py.lower (Py.strip answer)) = true ->
  procs w = (true, out1) :: (branch_found, out2) :: (true, out3)
            :: (true, out4) :: (false, out5) :: outcomes ->
  let branch := if nonempty (Py.strip out2) then Py.strip out2 else "main" in
  exists evs,
    git_setup w = (Ok tt, mkWorld (fs w) rest outcomes (trace w ++ evs)) /\
    commands evs
    = [["git"; "remote"; "set-url"; "origin"; Py.strip line];
       ["git"; "branch"; "--show-current"];
       ["git"; "add"; "-A"];
       ["git"; "commit"; "-m"; "Initialize project from dbt-workflow template"];
       ["git"; "push"; "-u"; "origin"; branch]] /\
    last (printed evs) "" = ("    git push -u origin " ++ branch)%string.
Proof.
  destruct w as [t inp pr tr]. cbn [fs stdin procs trace].
  intros H -> S Y ->. eexists. split; [|split].
  - cbv [git_setup bind get_fs print emit input run ret
         try_CalledProcessError fs stdin procs trace andb negb].
    rewrite H, S, Y. rewrite <- !app_assoc. cbn [app]. reflexivity.
  - reflexivity.
  - reflexivity.
Qed.

Lemma git_setup_push_failure_witness :
  exists evs,
    git_setup (mkWorld (Dir [(".git", Dir [])]) ["git@host:acme.git"; ""; "n"]
                 [(true, ""); (true, " "); (true, ""); (true, "");
                  (false, "")] [])
    = (Ok tt, mkWorld (Dir [(".git", Dir [])]) ["n"] [] ([] ++ evs)) /\
    commands evs
    = [["git"; "remote"; "set-url"; "origin"; Py.strip "git@host:acme.git"];
       ["git"; "branch"; "--show-current"];
       ["git"; "add"; "-A"];
       ["git"; "commit"; "-m"; "Initialize project from dbt-workflow template"];
       ["git"; "push"; "-u"; "origin"; "main"]] /\
    last (printed evs) "" = "    git push -u origin main".
Proof.
  apply (git_setup_push_failure
           (mkWorld (Dir [(".git", Dir [])]) ["git@host:acme.git"; ""; "n"]
              [(true, ""); (true, " "); (true, ""); (true, ""); (false, "")]
              [])
           "git@host:acme.git" "" ["n"] "" " " "" "" "" [] true);
    reflexivity.
Defined.

(** X19.  A commit that fails is not caught: with a URL typed and the commit
    agreed to, when [git commit] fails the script ends with its
    [CalledProcessError], and nothing is pushed. *)
Theorem git_setup_commit_failure (w : world) (line answer : string)
    (rest : list string) (out1 out2 out3 out4 : string)
    (outcomes : list (bool * string)) (branch_found : bool) :
  isdir (fs w) [".git"] = true ->
  stdin w = line :: answer :: rest ->
  nonempty (Py.strip line) = true ->
  yes_or_empty (Py.lower (Py.strip answer)) = true ->
  procs w = (true, out1) :: (branch_found, out2) :: (true, out3)
            :: (false, out4) :: outcomes ->
  exists evs,
    git_setup w
    = (Raise CalledProcessError,
       mkWorld (fs w) rest outcomes (trace w ++ evs)) /\
    commands evs
    = [["git"; "remote"; "set-url"; "origin"; Py.strip line];
       ["git"; "branch"; "--show-current"];
       ["git"; "add"; "-A"];
       ["git"; "commit"; "-m"; "Initialize project from dbt-workflow template"]].
Proof.
  destruct w as [t inp pr tr]. cbn [fs stdin procs trace].
  intros H -> S Y ->. eexists. split.
  - cbv [git_setup bind get_fs print emit input run ret
         try_CalledProcessError fs stdin procs trace andb negb].
    rewrite H, S, Y. rewrite <- !app_assoc. cbn [app]. reflexivity.
  - reflexivity.
Qed.

Lemma git_setup_commit_failure_witness :
  exists evs,
    git_setup (mkWorld (Dir [(".git", Dir [])]) ["git@host:acme.git"; "Y"]
                 [(true, ""); (true, "dev"); (true, ""); (false, "")] [])
    = (Raise CalledProcessError,
       mkWorld (Dir [(".git", Dir [])]) [] [] ([] ++ evs)) /\
    commands evs
    = [["git"; "remote"; "set-url"; "origin"; Py.strip "git@host:acme.git"];
       ["git"; "branch"; "--show-current"];
       ["git"; "add"; "-A"];
       ["git"; "commit"; "-m"; "Initialize project from dbt-workflow template"]].
Proof.
  apply (git_setup_commit_failure
           (mkWorld (Dir [(".git", Dir [])]) ["git@host:acme.git"; "Y"]
              [(true, ""); (true, "dev"); (true, ""); (false, "")] [])
           "git@host:acme.git" "Y" [] "" "dev" "" "" [] true);
    reflexivity.
Defined.

(** ** Deleting the script *)

(** X20.  [delete_script] removes nothing unless the answer, stripped and
    lowercased, is exactly "y": a blank answer, "yes" or anything else keeps
    the script, and the tree is what it was. *)
Theorem delete_script_keeps (w : world) (line : string) (rest : list string) :
  stdin w = line :: rest ->
  Py.lower (Py.strip line) <> "y" ->
  exists evs,
    delete_script w = (Ok tt, mkWorld (fs w) rest (procs w) (trace w ++ evs)) /\
    Forall (fun e => mutating e = false) evs /\
    printed evs
    = [""; "  Init script kept. You can re-run it or delete it manually."; ""].
Proof.
  destruct w as [t inp pr tr]. cbn [fs stdin procs trace].
  intros -> H. apply String.eqb_neq in H. eexists. split; [|split].
  - cbv [delete_script bind print emit input fs stdin procs trace].
    rewrite H. rewrite <- !app_assoc. cbn [app]. reflexivity.
  - repeat constructor.
  - reflexivity.
Qed.

Lemma delete_script_keeps_witness :
  exists evs,
    delete_script
      (mkWorld (Dir [("scripts", Dir [("init_project.py", txt "#")])])
         [" Yes "] [] [])
    = (Ok tt,
       mkWorld (Dir [("scripts", Dir [("init_project.py", txt "#")])])
         [] [] ([] ++ evs)) /\
    Forall (fun e => mutating e = false) evs /\
    printed evs
    = [""; "  Init script kept. You can re-run it or delete it manually."; ""].
Proof.
  apply (delete_script_keeps
           (mkWorld (Dir [("scripts", Dir [("init_project.py", txt "#")])])
              [" Yes "] [] [])
           " Yes " []); [reflexivity | discriminate].
Defined.

Lemma del_entry_set_entry (n : string) (x : node) (es : list (string * node)) :
  del_entry n (set_entry n x es) = del_entry n es.
Proof.
  unfold del_entry. induction es as [|[m c] es IH]; simpl.
  - rewrite String.eqb_refl. reflexivity.
  - destruct (String.eqb n m) eqn:E; simpl; rewrite E; simpl;
      [reflexivity | f_equal; exact IH].
Qed.

Lemma delete_script_run (top es : list (string * node)) (f : file)
    (line : string) (rest : list string) (pr : list (bool * string))
    (tr : list event) :
  Py.lower (Py.strip line) = "y" ->
  assoc "scripts" top = Some (Dir es) ->
  assoc "init_project.py" es = Some (File f) ->
  exists evs,
    delete_script (mkWorld (Dir top) (line :: rest) pr tr)
    = (Ok tt,
       mkWorld
         match del_entry "init_project.py" es with
         | [] => Dir (del_entry "scripts" top)
         | others => Dir (set_entry "scripts" (Dir others) top)
         end
         rest pr (tr ++ evs)).
Proof.
  intros Y T A.
  cbv [delete_script os_remove os_rmdir bind get_fs set_fs print emit input
       ret raise fs stdin procs trace SCRIPT_PATH dirname removelast].
  rewrite Y. cbn [String.eqb Ascii.eqb Bool.eqb lookup remove]. rewrite T, A.
  cbn [lookup remove fs stdin procs trace].
  rewrite assoc_set_entry_same.
  destruct (del_entry "init_project.py" es) as [|e others] eqn:D.
  - rewrite assoc_set_entry_same. cbn [fs stdin procs trace].
    rewrite del_entry_set_entry.
    eexists. rewrite <- !app_assoc. cbn [app]. reflexivity.
  - eexists. rewrite <- !app_assoc. cbn [app]. reflexivity.
Qed.

(** X21.  With the answer "y", and the script where it is run from,
    [delete_script] removes the script; it removes the directory of the
    script too when nothing else is left in it, and leaves it with its other
    entries otherwise; whatever lies outside that directory is as it was. *)
Theorem delete_script_deletes (w : world) (line : string) (rest : list string)
    (es : list (string * node)) (f : file) :
  stdin w = line :: rest ->
  Py.lower (Py.strip line) = "y" ->
  lookup (fs w) ["scripts"] = Some (Dir es) ->
  assoc "init_project.py" es = Some (File f) ->
  exists w',
    delete_script w = (Ok tt, w') /\
    stdin w' = rest /\
    lookup (fs w') SCRIPT_PATH = None /\
    lookup (fs w') ["scripts"]
    = match del_entry "init_project.py" es with
      | [] => None
      | others => Some (Dir others)
      end /\
    (forall n q, n <> "scripts" ->
                 lookup (fs w') (n :: q) = lookup (fs w) (n :: q)).
Proof.
  destruct w as [t inp pr tr]. cbn [fs stdin procs trace].
  intros -> Y L A. destruct t as [g|top]; [discriminate|]. cbn in L.
  destruct (assoc "scripts" top) as [c|] eqn:T; [|discriminate].
  inversion L; subst c; clear L.
  destruct (delete_script_run top es f line rest pr tr Y T A) as [evs E].
  eexists. split; [exact E|]. cbn [fs stdin]. split; [reflexivity|].
  pose proof (assoc_del_entry_same "init_project.py" es) as N.
  destruct (del_entry "init_project.py" es) as [|e others].
  - unfold SCRIPT_PATH. cbn [lookup]. rewrite assoc_del_entry_same.
    repeat split. intros n q Hn.
    rewrite assoc_del_entry_other by congruence. reflexivity.
  - unfold SCRIPT_PATH. cbn [lookup]. rewrite assoc_set_entry_same.
    cbn [lookup]. rewrite N. repeat split. intros n q Hn.
    rewrite assoc_set_entry_other by congruence. reflexivity.
Qed.

Lemma delete_script_deletes_witness :
  exists w',
    delete_script
      (mkWorld (Dir [("scripts", Dir [("init_project.py", txt "#");
                                      ("lint.sh", txt "#")]);
                     ("README.md", txt "x")]) [" Y"] [] [])
    = (Ok tt, w') /\
    stdin w' = [] /\
    lookup (fs w') SCRIPT_PATH = None /\
    lookup (fs w') ["scripts"]
    = match del_entry "init_project.py"
              [("init_project.py", txt "#"); ("lint.sh", txt "#")] with
      | [] => None
      | others => Some (Dir others)
      end /\
    (forall n q, n <> "scripts" ->
       lookup (fs w') (n :: q)
       = lookup (Dir [("scripts", Dir [("init_project.py", txt "#");
                                       ("lint.sh", txt "#")]);
                      ("README.md", txt "x")]) (n :: q)).
Proof.
  apply (delete_script_deletes
           (mkWorld (Dir [("scripts", Dir [("init_project.py", txt "#");
                                           ("lint.sh", txt "#")]);
                          ("README.md", txt "x")]) [" Y"] [] [])
           " Y" [] [("init_project.py", txt "#"); ("lint.sh", txt "#")]
           (mkFile (encode "#") true true)); reflexivity.
Defined.

(** ** [rename_path], where the new path is taken or cannot be made *)

Lemma is_prefix_app_last (p q : path) (b : string) :
  is_prefix p (q ++ [b]) = true -> is_prefix p q = true \/ p = q ++ [b].
Proof.
  revert q. induction p as [|a p IH]; intros q H; [left; reflexivity|].
  destruct q as [|c q]; cbn in H |- *.
  - apply andb_true_iff in H as [H1 H2]. apply String.eqb_eq in H1. subst.
    destruct p; [right; reflexivity | discriminate].
  - apply andb_true_iff in H as [H1 H2]. apply String.eqb_eq in H1. subst.
    rewrite String.eqb_refl. destruct (IH _ H2) as [H|H];
      [left; exact H | right; rewrite H; reflexivity].
Qed.

Lemma isdir_dirname (t : node) (p : path) :
  isdir t p = true -> isdir t (dirname p) = true.
Proof.
  unfold isdir. intros H. destruct (lookup t p) as [[f|es]|] eqn:L;
    try discriminate.
  destruct p as [|n p] using rev_ind;
    [cbn in L |- *; inversion L; reflexivity|].
  rewrite dirname_app_last.
  destruct (lookup_above _ _ _ _ L) as [es' ->]; [discriminate | reflexivity].
Qed.

Lemma rename_path_into (old_name new_name : path) (w : world) (x : node) :
  lookup (fs w) old_name = Some x -> old_name <> [] ->
  isdir (fs w) new_name = true ->
  is_prefix old_name new_name = false ->
  lookup (fs w) (new_name ++ [basename old_name]) = None ->
  rename_path old_name new_name w
  = (Ok true,
     after w (put (new_name ++ [basename old_name]) x
                (remove old_name (fs w)))
       [EvMakedirs (dirname new_name); EvMove old_name new_name]) /\
  is_prefix old_name (new_name ++ [basename old_name]) = false /\
  is_prefix (new_name ++ [basename old_name]) old_name = false.
Proof.
  intros Lold Hold D Hin Lreal.
  remember (new_name ++ [basename old_name]) as real_dst eqn:Er.
  assert (path_eqb old_name new_name = false) as Hne.
  { apply path_eqb_neq. intros ->. rewrite is_prefix_refl in Hin.
    discriminate. }
  assert (path_eqb old_name real_dst = false) as Hnr.
  { apply path_eqb_neq. intros E. rewrite E in Lold. congruence. }
  assert (is_prefix old_name real_dst = false) as P1.
  { destruct (is_prefix old_name real_dst) eqn:E; [|reflexivity].
    rewrite Er in E. apply is_prefix_app_last in E as [E|E]; [congruence|].
    rewrite <- Er in E.
    apply path_eqb_neq in Hnr. contradiction. }
  assert (is_prefix real_dst old_name = false) as P2.
  { destruct (is_prefix real_dst old_name) eqn:E; [|reflexivity].
    apply is_prefix_split in E as [r ->].
    destruct (lookup_prefix_exists _ _ _ _ Lold) as [y Y]. congruence. }
  assert (path_exists (fs w) real_dst = false) as Ereal.
  { unfold path_exists. rewrite Lreal. rewrite Er.
    destruct new_name; reflexivity. }
  assert (move_tree old_name new_name (fs w)
          = Ok (put real_dst x (remove old_name (fs w)))) as Mv.
  { unfold move_tree. destruct old_name as [|o os]; [contradiction|].
    rewrite Lold, D, Hne. cbv zeta. rewrite <- Er, Ereal.
    unfold rename_tree. rewrite Hnr, P1, Lreal.
    replace (dirname real_dst) with new_name
      by (rewrite Er; symmetry; apply dirname_app_last).
    destruct x as [f|es].
    - rewrite D. reflexivity.
    - rewrite (makedirs_tree_exists _ _ D). reflexivity. }
  split; [|split; assumption].
  unfold rename_path. rewrite Hne. unfold bind, get_fs at 1.
  unfold path_exists. rewrite Lold.
  destruct old_name as [|o os]; [contradiction|].
  unfold makedirs, move, bind, emit, get_fs, set_fs, raise, ret, after.
  cbn [fs stdin procs trace].
  rewrite (makedirs_tree_exists _ _ (isdir_dirname _ _ D)).
  cbn [fs stdin procs trace]. rewrite Mv. cbn [fs stdin procs trace].
  rewrite <- app_assoc. reflexivity.
Qed.

(** X14.  When something exists at the old path, which is not the root, and
    the new path is an existing directory that is neither the old path nor
    inside it and holds nothing under the last name of the old path,
    [rename_path] does not move the old path to the new path:
    [shutil.move] moves it into that directory, under its own last name;
    [rename_path] returns True, and every path aside of the old path and
    of the path inside the directory is as it was. *)
Theorem rename_path_into_directory (old_name new_name : path) (w : world)
    (x : node) :
  lookup (fs w) old_name = Some x -> old_name <> [] ->
  isdir (fs w) new_name = true ->
  is_prefix old_name new_name = false ->
  lookup (fs w) (new_name ++ [basename old_name]) = None ->
  exists w',
    rename_path old_name new_name w = (Ok true, w') /\
    lookup (fs w') (new_name ++ [basename old_name]) = Some x /\
    lookup (fs w') old_name = None /\
    isdir (fs w') new_name = true /\
    (forall q,
       is_prefix q old_name = false -> is_prefix old_name q = false ->
       is_prefix q (new_name ++ [basename old_name]) = false ->
       is_prefix (new_name ++ [basename old_name]) q = false ->
       lookup (fs w') q = lookup (fs w) q).
Proof.
  intros Lold Hold D Hin Lreal.
  destruct (rename_path_into _ _ _ _ Lold Hold D Hin Lreal) as (E & P1 & P2).
  eexists. split; [exact E|]. cbn [after fs].
  assert (isdir (remove old_name (fs w))
            (dirname (new_name ++ [basename old_name])) = true) as D'.
  { rewrite dirname_app_last, isdir_remove by exact Hin. exact D. }
  assert (new_name ++ [basename old_name] <> []) as Hr
    by (destruct new_name; discriminate).
  destruct (lookup_put_new _ x _ Hr D') as [A B].
  rewrite dirname_app_last in B.
  split; [exact A|]. split; [|split; [exact B|]].
  - rewrite lookup_put_diverge by assumption.
    apply lookup_remove_same. exact Hold.
  - intros q Q1 Q2 Q3 Q4. rewrite lookup_put_diverge by assumption.
    apply lookup_remove_diverge; assumption.
Qed.

Lemma rename_path_into_directory_witness :
  let t := Dir [("ddls", Dir [("APP_DB", Dir [("t.sql", txt "x")]);
                              ("ACME", Dir [])])] in
  exists w',
    rename_path ["ddls"; "APP_DB"] ["ddls"; "ACME"] (mkWorld t [] [] [])
    = (Ok true, w') /\
    lookup (fs w') (["ddls"; "ACME"] ++ [basename ["ddls"; "APP_DB"]])
    = Some (Dir [("t.sql", txt "x")]) /\
    lookup (fs w') ["ddls"; "APP_DB"] = None /\
    isdir (fs w') ["ddls"; "ACME"] = true /\
    (forall q,
       is_prefix q ["ddls"; "APP_DB"] = false ->
       is_prefix ["ddls"; "APP_DB"] q = false ->
       is_prefix q (["ddls"; "ACME"] ++ [basename ["ddls"; "APP_DB"]]) = false ->
       is_prefix (["ddls"; "ACME"] ++ [basename ["ddls"; "APP_DB"]]) q = false ->
       lookup (fs w') q = lookup t q).
Proof.
  cbv zeta.
  apply (rename_path_into_directory ["ddls"; "APP_DB"] ["ddls"; "ACME"]
           (mkWorld (Dir [("ddls", Dir [("APP_DB", Dir [("t.sql", txt "x")]);
                                        ("ACME", Dir [])])]) [] [] []));
    [reflexivity | discriminate | reflexivity | reflexivity | reflexivity].
Defined.

Lemma makedirs_tree_blocked (p : path) :
  forall (t : node) (q : path) (f : file),
  is_prefix q p = true -> lookup t q = Some (File f) ->
  makedirs_tree p t = None.
Proof.
  induction p as [|n p IH]; intros t q f Hq L.
  - destruct q; [|discriminate]. cbn in L. inversion L. reflexivity.
  - destruct t as [g|es]; [reflexivity|]. destruct q as [|m q];
      [discriminate|].
    cbn in Hq. apply andb_true_iff in Hq as [E Hq].
    apply String.eqb_eq in E. subst m. cbn in L |- *.
    destruct (assoc n es) as [c|]; [|discriminate].
    rewrite (IH c q f Hq L). reflexivity.
Qed.

(** X15.  When a file stands where a parent directory of the new path has to be,
    [rename_path] raises the [OSError] of [os.makedirs]: nothing is moved
    and the tree is what it was. *)
Theorem rename_path_parent_is_file (old_name new_name q : path) (w : world)
    (f : file) :
  old_name <> new_name ->
  path_exists (fs w) old_name = true ->
  is_prefix q (dirname new_name) = true ->
  lookup (fs w) q = Some (File f) ->
  rename_path old_name new_name w
  = (Raise OSError, log w [EvMakedirs (dirname new_name)]).
Proof.
  intros Hne E Hq L. apply path_eqb_neq in Hne.
  unfold rename_path. rewrite Hne. unfold bind, get_fs at 1. rewrite E.
  unfold makedirs, bind, emit, get_fs, raise. cbn [fs stdin procs trace].
  rewrite (makedirs_tree_blocked _ _ _ _ Hq L). reflexivity.
Qed.

Lemma rename_path_parent_is_file_witness :
  let t := Dir [("ddls", txt "not a directory"); ("a.sql", txt "x")] in
  rename_path ["a.sql"] ["ddls"; "b.sql"] (mkWorld t [] [] [])
  = (Raise OSError,
     log (mkWorld t [] [] []) [EvMakedirs (dirname ["ddls"; "b.sql"])]).
Proof.
  cbv zeta.
  apply (rename_path_parent_is_file ["a.sql"] ["ddls"; "b.sql"] ["ddls"]
           (mkWorld (Dir [("ddls", txt "not a directory"); ("a.sql", txt "x")])
              [] [] [])
           (mkFile (encode "not a directory") true true));
    [discriminate | reflexivity | reflexivity | reflexivity].
Defined.

(** ** The dry run of [main] *)

Lemma log_nil (w : world) : log w [] = w.
Proof. destruct w. unfold log. cbn. rewrite app_nil_r. reflexivity. Qed.

Lemma reads_only_ret {A : Type} (a : A) : reads_only (ret a).
Proof. intros w. exists a, []. rewrite log_nil. split; [reflexivity | constructor]. Qed.

Lemma reads_only_print (s : string) : reads_only (print s).
Proof. intros w. exists tt, [EvPrint s]. split; [reflexivity | repeat constructor]. Qed.

Lemma reads_only_get_fs : reads_only get_fs.
Proof.
  intros w. exists (fs w), []. rewrite log_nil.
  split; [reflexivity | constructor].
Qed.

Lemma reads_only_bind {A B : Type} (m : M A) (k : A -> M B) :
  reads_only m -> (forall a, reads_only (k a)) -> reads_only (bind m k).
Proof.
  intros Hm Hk w. destruct (Hm w) as (a & evs1 & E1 & F1).
  destruct (Hk a (log w evs1)) as (b & evs2 & E2 & F2).
  exists b, (evs1 ++ evs2). rewrite (bind_ok _ _ _ _ _ E1), E2, log_log.
  split; [reflexivity | apply Forall_app; auto].
Qed.

Lemma reads_only_collect_text_files : reads_only collect_text_files.
Proof.
  intros w. eexists _, _. split; [apply collect_text_files_run|].
  repeat constructor.
Qed.

Lemma reads_only_count_replacements (files : list path) (old new : string) :
  reads_only (count_replacements files old new).
Proof.
  intros w. rewrite count_replacements_spec. destruct (String.eqb old new).
  - eexists _, []. rewrite log_nil. split; [reflexivity | constructor].
  - eexists _, _. split; [reflexivity|]. apply Forall_forall.
    intros e He. apply in_map_iff in He as (p & <- & _). reflexivity.
Qed.

Lemma reads_only_dry_run_replacements (text_files : list path)
    (replacements : list (string * string * string)) :
  reads_only (dry_run_replacements text_files replacements).
Proof.
  induction replacements as [|[[old new] label] rest IH];
    cbn [dry_run_replacements]; [apply reads_only_ret|].
  apply reads_only_bind; [apply reads_only_count_replacements|].
  intros [total files]. apply reads_only_bind; [|intros; exact IH].
  destruct (Nat.ltb 0 total); apply reads_only_print.
Qed.

Lemma reads_only_dry_run_renames (what : string) (shown : path -> string)
    (renames : list (path * path)) :
  reads_only (dry_run_renames what shown renames).
Proof.
  induction renames as [|[old new] rest IH]; cbn [dry_run_renames];
    [apply reads_only_ret|].
  apply reads_only_bind; [apply reads_only_get_fs|]. intros t.
  apply reads_only_bind; [|intros; exact IH].
  destruct (path_exists t old); [apply reads_only_print | apply reads_only_ret].
Qed.

(** The dry run of [main], from the collection of the files to the last
    empty line before the confirmation prompt. *)
Lemma reads_only_dry_run (replacements : list (string * string * string))
    (dir_renames file_renames : list (path * path)) (k : M unit) (w : world) :
  exists evs,
    Forall (fun e => mutating e = false) evs /\
    (text_files <- collect_text_files ;;
     print "" ;;
     print "  Changes to apply:" ;;
     dry_run_replacements text_files replacements ;;
     dry_run_renames "directory" show_path dir_renames ;;
     dry_run_renames "file" basename file_renames ;;
     print "" ;;
     k) w
    = k (log w evs).
Proof.
  assert (R : reads_only
    (text_files <- collect_text_files ;;
     print "" ;;
     print "  Changes to apply:" ;;
     dry_run_replacements text_files replacements ;;
     dry_run_renames "directory" show_path dir_renames ;;
     dry_run_renames "file" basename file_renames ;;
     print "")).
  { apply reads_only_bind; [apply reads_only_collect_text_files|].
    intros text_files.
    apply reads_only_bind; [apply reads_only_print|]. intros _.
    apply reads_only_bind; [apply reads_only_print|]. intros _.
    apply reads_only_bind; [apply reads_only_dry_run_replacements|]. intros _.
    apply reads_only_bind; [apply reads_only_dry_run_renames|]. intros _.
    apply reads_only_bind; [apply reads_only_dry_run_renames|]. intros _.
    apply reads_only_print. }
  destruct (R w) as ([] & evs & E & F). exists evs. split; [exact F|].
  unfold bind in E |- *.
  destruct (collect_text_files w) as [[tf|e] w1]; [|discriminate].
  destruct (print "" w1) as [[[]|e] w2]; [|discriminate].
  destruct (print "  Changes to apply:" w2) as [[[]|e] w3]; [|discriminate].
  destruct (dry_run_replacements tf replacements w3) as [[[]|e] w4];
    [|discriminate].
  destruct (dry_run_renames "directory" show_path dir_renames w4)
    as [[[]|e] w5]; [|discriminate].
  destruct (dry_run_renames "file" basename file_renames w5) as [[[]|e] w6];
    [|discriminate].
  destruct (print "" w6) as [[[]|e] w7]; [|discriminate].
  inversion E. reflexivity.
Qed.

Lemma plans_nonempty {X Y Z T : Type} (xs : list X) (ys : list Y)
    (zs : list Z) (a b : T) :
  xs <> [] ->
  match xs, ys, zs with
  | [], [], [] => a
  | _, _, _ => b
  end = b.
Proof. intros H. destruct xs; [contradiction | reflexivity]. Qed.

Lemma filter_nonempty {A : Type} (P : A -> bool) (l : list A) (x : A) :
  In x l -> P x = true -> filter P l <> [].
Proof.
  intros Hin Hp E. assert (H : In x (filter P l)) by (apply filter_In; auto).
  rewrite E in H. contradiction.
Qed.

Lemma replacements_of_nonempty (a0 a1 a2 a3 a4 a5 : string) :
  value_of (default_of 0) a0 <> default_of 0 \/
  value_of (default_of 1) a1 <> default_of 1 \/
  value_of (default_of 2) a2 <> default_of 2 \/
  value_of (default_of 3) a3 <> default_of 3 \/
  value_of (default_of 4) a4 <> default_of 4 \/
  value_of (default_of 5) a5 <> default_of 5 ->
  replacements_of
    [("project_name",   value_of (default_of 0) a0);
     ("author_name",    value_of (default_of 1) a1);
     ("organization",   value_of (default_of 2) a2);
     ("app_database",   value_of (default_of 3) a3);
     ("ci_database",    value_of (default_of 4) a4);
     ("warehouse_name", value_of (default_of 5) a5)] <> [].
Proof.
  intros H. unfold replacements_of.
  cbn [dict_get find fst snd String.eqb Ascii.eqb Bool.eqb].
  assert (N : forall d v : string, v <> d -> negb (String.eqb d v) = true).
  { intros d v Hv. apply negb_true_iff, String.eqb_neq. congruence. }
  destruct H as [H|[H|[H|[H|[H|H]]]]];
    [ apply (filter_nonempty _ _
               (default_of 0, value_of (default_of 0) a0, "project name"))
    | apply (filter_nonempty _ _
               (default_of 1, value_of (default_of 1) a1, "author name"))
    | apply (filter_nonempty _ _
               (default_of 2, value_of (default_of 2) a2, "organization"))
    | apply (filter_nonempty _ _
               (default_of 3, value_of (default_of 3) a3,
                "application database"))
    | apply (filter_nonempty _ _
               (default_of 4, value_of (default_of 4) a4,
                "CI/utilities database"))
    | apply (filter_nonempty _ _
               (default_of 5, value_of (default_of 5) a5, "warehouse name")) ];
    try (cbn [fst snd]; apply (N _ _ H)); cbn [In]; tauto.
Qed.

(** X4.  When six values have been typed of which one at least is not the
    default, the dry run cannot fail, whatever the tree holds: [main] gets
    to the confirmation prompt; and with an answer there that is neither
    blank nor "y", it prints that it aborts and returns, having read seven
    lines and changed nothing. *)
Theorem main_aborts (w : world) (a0 a1 a2 a3 a4 a5 answer : string)
    (rest : list string) :
  stdin w = a0 :: a1 :: a2 :: a3 :: a4 :: a5 :: answer :: rest ->
  value_of (default_of 0) a0 <> default_of 0 \/
  value_of (default_of 1) a1 <> default_of 1 \/
  value_of (default_of 2) a2 <> default_of 2 \/
  value_of (default_of 3) a3 <> default_of 3 \/
  value_of (default_of 4) a4 <> default_of 4 \/
  value_of (default_of 5) a5 <> default_of 5 ->
  Py.lower (Py.strip answer) <> "" ->
  Py.lower (Py.strip answer) <> "y" ->
  exists evs,
    main w = (Ok tt, mkWorld (fs w) rest (procs w) (trace w ++ evs)) /\
    Forall (fun e => mutating e = false) evs /\
    In (EvPrompt CONFIRM_PROMPT) evs /\
    last evs (EvPrint "") = EvPrint "  Aborted.".
Proof.
  intros Hin Hv N1 N2.
  destruct (prompt_values_run w _ _ _ _ _ _ _ Hin) as (evs1 & E1 & F1 & _).
  unfold main. rewrite (bind_ok _ _ _ _ _ E1). cbv zeta.
  rewrite (plans_nonempty _ _ _ _ _ (replacements_of_nonempty _ _ _ _ _ _ Hv)).
  match goal with
  | |- context [bind collect_text_files ?k ?w1] =>
      match k with
      | context [bind (input CONFIRM_PROMPT) ?c] =>
          destruct (reads_only_dry_run
                      (replacements_of
                         [("project_name",   value_of (default_of 0) a0);
                          ("author_name",    value_of (default_of 1) a1);
                          ("organization",   value_of (default_of 2) a2);
                          ("app_database",   value_of (default_of 3) a3);
                          ("ci_database",    value_of (default_of 4) a4);
                          ("warehouse_name", value_of (default_of 5) a5)])
                      (dir_renames_of
                         [("project_name",   value_of (default_of 0) a0);
                          ("author_name",    value_of (default_of 1) a1);
                          ("organization",   value_of (default_of 2) a2);
                          ("app_database",   value_of (default_of 3) a3);
                          ("ci_database",    value_of (default_of 4) a4);
                          ("warehouse_name", value_of (default_of 5) a5)])
                      (file_renames_of
                         [("project_name",   value_of (default_of 0) a0);
                          ("author_name",    value_of (default_of 1) a1);
                          ("organization",   value_of (default_of 2) a2);
                          ("app_database",   value_of (default_of 3) a3);
                          ("ci_database",    value_of (default_of 4) a4);
                          ("warehouse_name", value_of (default_of 5) a5)])
                      (bind (input CONFIRM_PROMPT) c) w1)
            as (evs2 & F2 & E2)
      end
  end.
  rewrite E2.
  erewrite bind_ok by (apply input_line; reflexivity).
  cbn [log fs stdin procs trace].
  assert (T : nonempty (Py.lower (Py.strip answer))
              && negb (String.eqb (Py.lower (Py.strip answer)) "y") = true).
  { apply andb_true_iff. split.
    - destruct (Py.lower (Py.strip answer)); [contradiction | reflexivity].
    - apply negb_true_iff, String.eqb_neq. exact N2. }
  rewrite T. unfold print, emit. cbn [fs stdin procs trace].
  exists (evs1 ++ evs2 ++ [EvPrompt CONFIRM_PROMPT; EvAnswer answer;
                           EvPrint "  Aborted."]).
  split; [|split; [|split]].
  - rewrite <- !app_assoc. reflexivity.
  - apply Forall_app. split.
    + eapply Forall_impl; [|exact F1]. intros e He.
      destruct e; cbn in He |- *; congruence.
    + apply Forall_app. split; [exact F2 | repeat constructor].
  - apply in_or_app. right. apply in_or_app. right. left. reflexivity.
  - rewrite !app_assoc.
    change [EvPrompt CONFIRM_PROMPT; EvAnswer answer; EvPrint "  Aborted."]
      with ([EvPrompt CONFIRM_PROMPT; EvAnswer answer]
            ++ [EvPrint "  Aborted."]).
    rewrite app_assoc. apply last_last.
Qed.

Lemma main_aborts_witness :
  exists evs,
    main (mkWorld (Dir [("dbt_project.yml", txt "name: ci_cd_project")])
            ["acme"; ""; ""; ""; ""; ""; "n"; "later"] [] [])
    = (Ok tt,
       mkWorld (Dir [("dbt_project.yml", txt "name: ci_cd_project")])
         ["later"] [] ([] ++ evs)) /\
    Forall (fun e => mutating e = false) evs /\
    In (EvPrompt CONFIRM_PROMPT) evs /\
    last evs (EvPrint "") = EvPrint "  Aborted.".
Proof.
  apply (main_aborts
           (mkWorld (Dir [("dbt_project.yml", txt "name: ci_cd_project")])
              ["acme"; ""; ""; ""; ""; ""; "n"; "later"] [] [])
           "acme" "" "" "" "" "" "n" ["later"]);
    [reflexivity | left; discriminate | discriminate | discriminate].
Defined.

(** ** A whole run *)

Lemma print_run (s : string) (w : world) :
  print s w = (Ok tt, log w [EvPrint s]).
Proof. reflexivity. Qed.

Lemma git_setup_without_git (w : world) :
  isdir (fs w) [".git"] = false ->
  exists evs,
    git_setup w = (Ok tt, log w evs) /\
    Forall (fun e => is_write e = false /\ is_rename e = false) evs.
Proof.
  destruct w as [t inp pr tr]. cbn [fs]. intros H. eexists. split.
  - cbv [git_setup bind get_fs print emit fs stdin procs trace log].
    rewrite H. rewrite <- !app_assoc. cbn [app]. reflexivity.
  - repeat constructor.
Qed.

Lemma delete_script_kept (w : world) (line : string) (rest : list string) :
  stdin w = line :: rest ->
  Py.lower (Py.strip line) <> "y" ->
  exists evs,
    delete_script w = (Ok tt, mkWorld (fs w) rest (procs w) (trace w ++ evs)) /\
    Forall (fun e => is_write e = false /\ is_rename e = false) evs.
Proof.
  destruct w as [t inp pr tr]. cbn [fs stdin procs trace].
  intros -> H. apply String.eqb_neq in H. eexists. split.
  - cbv [delete_script bind print emit input fs stdin procs trace].
    rewrite H. rewrite <- !app_assoc. cbn [app]. reflexivity.
  - repeat constructor.
Qed.

Lemma project_plans (new : string) :
  new <> default_of 0 ->
  replacements_of
    [("project_name", new); ("author_name", default_of 1);
     ("organization", default_of 2); ("app_database", default_of 3);
     ("ci_database", default_of 4); ("warehouse_name", default_of 5)]
  = [(default_of 0, new, "project name")] /\
  dir_renames_of
    [("project_name", new); ("author_name", default_of 1);
     ("organization", default_of 2); ("app_database", default_of 3);
     ("ci_database", default_of 4); ("warehouse_name", default_of 5)]
  = [] /\
  file_renames_of
    [("project_name", new); ("author_name", default_of 1);
     ("organization", default_of 2); ("app_database", default_of 3);
     ("ci_database", default_of 4); ("warehouse_name", default_of 5)]
  = [].
Proof.
  intros H. assert (E : String.eqb (default_of 0) new = false).
  { apply String.eqb_neq. congruence. }
  unfold replacements_of, dir_renames_of, file_renames_of.
  cbn [dict_get find fst snd String.eqb Ascii.eqb Bool.eqb].
  cbn [filter fst snd]. rewrite E. split; [|split]; reflexivity.
Qed.

Lemma bind_ret {A B : Type} (a : A) (k : A -> M B) (w : world) :
  bind (ret a) k w = k a w.
Proof. reflexivity. Qed.

(** X5.  A whole run in which only the project name is changed, the changes are
    agreed to, the project has no [.git] directory and the script is kept:
    in a tree where no directory holds two entries of one name and every
    collected file can be read and written, [main] returns normally, having
    read eight lines; every collected file in whose text, as it is read
    (the bytes that decode, line ends read as LF), the default project name
    occurs holds the encoding of that text with the default project name
    replaced by the name typed, every other file holds what it held, no
    path has been made, removed or renamed, and the number printed in the
    last summary is the number of occurrences there were. *)
Theorem main_renames_the_project (w : world)
    (a0 a1 a2 a3 a4 a5 answer delete new : string) (rest : list string) :
  stdin w = a0 :: a1 :: a2 :: a3 :: a4 :: a5 :: answer :: delete :: rest ->
  value_of (default_of 0) a0 = new -> new <> default_of 0 ->
  value_of (default_of 1) a1 = default_of 1 ->
  value_of (default_of 2) a2 = default_of 2 ->
  value_of (default_of 3) a3 = default_of 3 ->
  value_of (default_of 4) a4 = default_of 4 ->
  value_of (default_of 5) a5 = default_of 5 ->
  Py.lower (Py.strip answer) = "" \/ Py.lower (Py.strip answer) = "y" ->
  Py.lower (Py.strip delete) <> "y" ->
  isdir (fs w) [".git"] = false ->
  well_formed (fs w) = true ->
  (forall p, In p (text_files_of (fs w)) -> read_write (fs w) p) ->
  exists w' evs,
    main w = (Ok tt, w') /\
    stdin w' = rest /\
    trace w' = trace w ++ evs /\
    (forall p f,
       In p (text_files_of (fs w)) -> file_at (fs w) p = Some f ->
       let content := read_of (cells f) in
       exists f',
         file_at (fs w') p = Some f' /\
         (0 < Py.count content (default_of 0) ->
          cells f' = encode (Py.replace content (default_of 0) new)) /\
         (Py.count content (default_of 0) = 0 -> f' = f)) /\
    (forall p, ~ In p (text_files_of (fs w)) ->
               file_at (fs w') p = file_at (fs w) p) /\
    (forall q, path_exists (fs w') q = path_exists (fs w) q) /\
    In (EvPrint ("  Done! "
                 ++ Py.str_of_nat
                      (total_occurrences (fs w) (text_files_of (fs w))
                         (default_of 0))
                 ++ " replacements applied.")) evs /\
    Forall (fun e => is_rename e = false) evs.
Proof.
  intros Hin H0 Hnew H1 H2 H3 H4 H5 Hans Hdel Hgit W RW.
  destruct (prompt_values_run w _ _ _ _ _ _ _ Hin) as (evs1 & E1 & F1 & _).
  rewrite H0, H1, H2, H3, H4, H5 in E1.
  destruct (project_plans new Hnew) as (PR & PD & PF).
  unfold main. rewrite (bind_ok _ _ _ _ _ E1). cbv zeta.
  rewrite PR, PD, PF. cbv iota.
  match goal with
  | |- context [bind collect_text_files ?k ?w1] =>
      match k with
      | context [bind (input CONFIRM_PROMPT) ?c] =>
          destruct (reads_only_dry_run
                      [(default_of 0, new, "project name")] [] []
                      (bind (input CONFIRM_PROMPT) c) w1)
            as (evs2 & F2 & E2)
      end
  end.
  rewrite E2. clear E2.
  erewrite bind_ok by (apply input_line; reflexivity).
  cbn [log fs stdin procs trace]. cbv zeta.
  assert (T : nonempty (Py.lower (Py.strip answer))
              && negb (String.eqb (Py.lower (Py.strip answer)) "y") = false).
  { destruct Hans as [-> | ->]; reflexivity. }
  rewrite T. unfold apply_changes. cbn [apply_renames apply_replacements].
  rewrite !bind_ret.
  rewrite (bind_ok _ _ _ _ _ (collect_text_files_run _)).
  cbn [log fs stdin procs trace].
  pose proof (files_of_walk_NoDup (fs w) W []) as ND.
  change (files_of_walk (os_walk keep_dirs [] (fs w)))
    with (text_files_of (fs w)) in ND.
  destruct (rewrite_files (fs w) (text_files_of (fs w)) (default_of 0) new)
    as [[t n] evs3] eqn:S.
  assert (n = total_occurrences (fs w) (text_files_of (fs w)) (default_of 0))
    as Hn.
  { apply (rewrite_files_count _ _ _ _ _ _ _ S ND).
    intros p f Hp F R. destruct (RW p Hp) as (g & G & _ & Wg). congruence. }
  assert (E : String.eqb (default_of 0) new = false).
  { apply String.eqb_neq. congruence. }
  match goal with
  | |- context [bind (bind (replace_in_files ?files ?old ?new') ?k1) ?k2 ?w2] =>
      assert (ER : bind (replace_in_files files old new') k1 w2
                   = (Ok n, after w2 t evs3))
  end.
  { erewrite bind_ok
      by (rewrite replace_in_files_spec, E; cbn [log fs]; rewrite S;
          reflexivity).
    reflexivity. }
  rewrite (bind_ok _ _ _ _ _ ER). clear ER.
  rewrite (bind_ok _ _ _ _ _ (print_run _ _)).
  rewrite (bind_ok _ _ _ _ _ (print_run _ _)).
  cbn [log after fs stdin procs trace].
  match goal with
  | |- context [bind git_setup _ ?w3] =>
      destruct (git_setup_without_git w3) as (evs4 & E4 & F4)
  end.
  { cbn [fs]. rewrite (proj2 (rewrite_files_shape _ _ _ _ _ _ _ _ S)).
    exact Hgit. }
  rewrite (bind_ok _ _ _ _ _ E4). clear E4. cbn [log fs stdin procs trace].
  match goal with
  | |- context [delete_script ?w4] =>
      destruct (delete_script_kept w4 delete rest eq_refl Hdel)
        as (evs5 & E5 & F5)
  end.
  rewrite E5. clear E5. cbn [fs stdin procs trace].
  eexists _, _. split; [reflexivity|]. cbn [log after fs stdin procs trace].
  split; [reflexivity|]. split; [rewrite <- !app_assoc; reflexivity|].
  split; [|split; [|split; [|split]]].
  - intros p f Hp Fp. cbv zeta. exists (rewritten f (default_of 0) new).
    split; [exact (rewrite_files_text _ _ _ _ _ _ _ S ND RW p f Hp Fp)|].
    unfold rewritten. split; intros C.
    + apply Nat.ltb_lt in C. rewrite C. reflexivity.
    + rewrite C. reflexivity.
  - intros p Hp. apply (rewrite_files_other _ _ _ _ _ _ _ _ S Hp).
  - intros q. apply (rewrite_files_shape _ _ _ _ _ _ _ q S).
  - rewrite <- Hn, !in_app_iff. cbn [In]. auto 20.
  - assert (G1 : Forall (fun e => is_rename e = false) evs1).
    { eapply Forall_impl; [|exact F1]. intros e He.
      destruct e; cbn in He |- *; congruence. }
    assert (G2 : Forall (fun e => is_rename e = false) evs2).
    { eapply Forall_impl; [|exact F2]. intros e He. apply mutating_rename, He. }
    assert (G3 : Forall (fun e => is_rename e = false) evs3).
    { eapply Forall_impl; [|exact (rewrite_files_events _ _ _ _ _ _ _ S)].
      intros e (p & _ & Tp). destruct e; cbn in Tp |- *; congruence. }
    assert (G4 : Forall (fun e => is_rename e = false) evs4).
    { eapply Forall_impl; [|exact F4]. intros e He. apply He. }
    assert (G5 : Forall (fun e => is_rename e = false) evs5).
    { eapply Forall_impl; [|exact F5]. intros e He. apply He. }
    rewrite ?Forall_app, ?Forall_cons_iff, ?Forall_app, ?Forall_cons_iff,
      ?Forall_app.
    cbn [is_rename]. repeat split; try assumption; constructor.
Qed.

Lemma main_renames_the_project_witness :
  let t := Dir [("dbt_project.yml", txt ("name: ci_cd_project" ++ cr ++ nl));
                ("logs", Dir [("dbt.log", txt "ci_cd_project")])] in
  let w := mkWorld t ["acme"; ""; ""; ""; ""; ""; "Y"; ""; "more"] [] [] in
  exists w' evs,
    main w = (Ok tt, w') /\
    stdin w' = ["more"] /\
    trace w' = trace w ++ evs /\
    (forall p f,
       In p (text_files_of (fs w)) -> file_at (fs w) p = Some f ->
       let content := read_of (cells f) in
       exists f',
         file_at (fs w') p = Some f' /\
         (0 < Py.count content (default_of 0) ->
          cells f' = encode (Py.replace content (default_of 0) "acme")) /\
         (Py.count content (default_of 0) = 0 -> f' = f)) /\
    (forall p, ~ In p (text_files_of (fs w)) ->
               file_at (fs w') p = file_at (fs w) p) /\
    (forall q, path_exists (fs w') q = path_exists (fs w) q) /\
    In (EvPrint ("  Done! "
                 ++ Py.str_of_nat
                      (total_occurrences (fs w) (text_files_of (fs w))
                         (default_of 0))
                 ++ " replacements applied.")) evs /\
    Forall (fun e => is_rename e = false) evs.
Proof.
  cbv zeta.
  apply (main_renames_the_project
           (mkWorld (Dir [("dbt_project.yml",
                           txt ("name: ci_cd_project" ++ cr ++ nl));
                          ("logs", Dir [("dbt.log", txt "ci_cd_project")])])
              ["acme"; ""; ""; ""; ""; ""; "Y"; ""; "more"] [] [])
           "acme" "" "" "" "" "" "Y" "" "acme" ["more"]);
    try reflexivity; try discriminate.
  - right. reflexivity.
  - intros p H. cbn in H. destruct H as [<-|[]].
    eexists. split; [reflexivity|]. split; reflexivity.
Defined.

(** ** The plans of [main] *)

Lemma prompt_values_ok (w w' : world) (values : list (string * string)) :
  prompt_values w = (Ok values, w') ->
  exists a0 a1 a2 a3 a4 a5,
    values
    = [("project_name",   value_of (default_of 0) a0);
       ("author_name",    value_of (default_of 1) a1);
       ("organization",   value_of (default_of 2) a2);
       ("app_database",   value_of (default_of 3) a3);
       ("ci_database",    value_of (default_of 4) a4);
       ("warehouse_name", value_of (default_of 5) a5)].
Proof.
  intros H.
  destruct (stdin w) as [|a0 [|a1 [|a2 [|a3 [|a4 [|a5 rest]]]]]] eqn:Hs;
    try (destruct (prompt_values_eof w) as (evs & E & _);
         [rewrite Hs; cbn; lia | congruence]).
  destruct (prompt_values_run w _ _ _ _ _ _ _ Hs) as (evs & E & _).
  rewrite E in H. inversion H. exists a0, a1, a2, a3, a4, a5. reflexivity.
Qed.

(** X6.  Whatever is typed, the replacements [main] plans from the values of
    [prompt_values] never have an empty [old] or an empty [new], and never
    an [old] equal to [new]: a run never deletes text, never counts the
    empty string, and the pairs that would change nothing are left out.
    The renames it plans are of paths that differ. *)
Theorem plans_are_proper (w w' : world) (values : list (string * string)) :
  prompt_values w = (Ok values, w') ->
  (forall old new label,
     In (old, new, label) (replacements_of values) ->
     old <> new /\ old <> "" /\ new <> "") /\
  (forall old new,
     In (old, new) (dir_renames_of values ++ file_renames_of values) ->
     old <> new).
Proof.
  intros H. apply prompt_values_ok in H as (a0 & a1 & a2 & a3 & a4 & a5 & ->).
  split.
  - intros old new label Hin. unfold replacements_of in Hin.
    apply filter_In in Hin as [Hin Hne]. cbn [fst snd] in Hne.
    apply negb_true_iff, String.eqb_neq in Hne. split; [exact Hne|].
    assert (N : forall d a, nonempty d = true -> value_of d a <> "").
    { intros d a Hd E. pose proof (value_of_nonempty d a Hd) as V.
      rewrite E in V. discriminate. }
    cbn [dict_get find fst snd String.eqb Ascii.eqb Bool.eqb] in Hin.
    cbn [In] in Hin.
    repeat (destruct Hin as [Hin|Hin];
            [inversion Hin; subst; split;
             [discriminate | apply N; reflexivity]|]).
    contradiction.
  - intros old new Hin. apply in_app_or in Hin as [Hin|Hin];
      [unfold dir_renames_of in Hin | unfold file_renames_of in Hin];
      apply filter_In in Hin as [_ Hne]; cbn [fst snd] in Hne;
      apply negb_true_iff in Hne; apply path_eqb_neq; exact Hne.
Qed.

Lemma plans_are_proper_witness :
  let values := [("project_name", "acme"); ("author_name", "Anouar Zbaida");
                 ("organization", "Crithink"); ("app_database", "ACME_DB");
                 ("ci_database", "_DB_UTILS");
                 ("warehouse_name", "ANALYTICS_WH")] in
  (forall old new label,
     In (old, new, label) (replacements_of values) ->
     old <> new /\ old <> "" /\ new <> "") /\
  (forall old new,
     In (old, new) (dir_renames_of values ++ file_renames_of values) ->
     old <> new).
Proof.
  cbv zeta.
  eapply (plans_are_proper
            (mkWorld (Dir []) ["acme"; ""; ""; " ACME_DB"; ""; ""] [] [])).
  cbv. reflexivity.
Defined.

(** ** The renames and the replacements of a run *)

Lemma rename_path_tree (old_name new_name : path) (w : world) :
  match renamed_tree (fs w) old_name new_name with
  | Ok t1 => exists b evs, rename_path old_name new_name w = (Ok b, after w t1 evs)
  | Raise e => exists w1, rename_path old_name new_name w = (Raise e, w1)
  end.
Proof.
  assert (forall t,
            makedirs_tree (dirname new_name) (fs w) = Some t ->
            makedirs (dirname new_name) w
            = (Ok tt, after w t [EvMakedirs (dirname new_name)])) as Mk.
  { intros t E. unfold makedirs, bind, emit, get_fs, set_fs.
    cbn [fs stdin procs trace]. rewrite E. reflexivity. }
  unfold renamed_tree, rename_path.
  destruct (path_eqb old_name new_name).
  { exists false, []. rewrite after_nil. reflexivity. }
  rewrite (bind_ok _ _ _ _ _ (eq_refl : get_fs w = (Ok (fs w), w))).
  destruct (path_exists (fs w) old_name).
  2: { exists false, []. rewrite after_nil. reflexivity. }
  destruct (makedirs_tree (dirname new_name) (fs w)) as [t1|] eqn:E3.
  - rewrite (bind_ok _ _ _ _ _ (Mk t1 eq_refl)).
    unfold move, bind, emit, get_fs, set_fs, raise, ret, after.
    cbn [fs stdin procs trace].
    destruct (move_tree old_name new_name t1) as [t2|e].
    + eexists true, _. cbn [fs stdin procs trace]. rewrite <- app_assoc.
      reflexivity.
    + eexists. reflexivity.
  - unfold makedirs, bind, emit, get_fs, set_fs, raise.
    cbn [fs stdin procs trace]. rewrite E3. eexists. reflexivity.
Qed.

Lemma apply_renames_tree (shown : path -> string) (renames : list (path * path)) :
  forall w,
  match rename_paths (fs w) renames with
  | Ok t1 => exists evs, apply_renames shown renames w = (Ok tt, after w t1 evs)
  | Raise e => exists w1, apply_renames shown renames w = (Raise e, w1)
  end.
Proof.
  induction renames as [|[old new] rest IH]; intros w;
    cbn [rename_paths apply_renames].
  - exists []. rewrite after_nil. reflexivity.
  - pose proof (rename_path_tree old new w) as H.
    destruct (renamed_tree (fs w) old new) as [t1|e].
    + destruct H as (b & evs & E). rewrite (bind_ok _ _ _ _ _ E).
      assert (exists evs',
                (if b then print ("  Renamed: " ++ show_path old ++ " -> "
                                  ++ shown new)
                 else ret tt) (after w t1 evs)
                = (Ok tt, after w t1 evs')) as (evs' & E').
      { destruct b.
        - eexists. unfold print, emit, after. cbn [fs stdin procs trace].
          rewrite <- app_assoc. reflexivity.
        - eexists. reflexivity. }
      rewrite (bind_ok _ _ _ _ _ E').
      specialize (IH (after w t1 evs')). cbn [after fs] in IH.
      destruct (rename_paths t1 rest) as [t2|e].
      * destruct IH as (evs2 & ->). eexists.
        unfold after. cbn [fs stdin procs trace]. rewrite <- app_assoc.
        reflexivity.
      * exact IH.
    + destruct H as (w1 & E). rewrite (bind_raise _ _ _ _ _ E). eauto.
Qed.

Lemma rename_paths_app (l1 l2 : list (path * path)) :
  forall t,
  rename_paths t (l1 ++ l2)
  = match rename_paths t l1 with
    | Ok t1 => rename_paths t1 l2
    | Raise e => Raise e
    end.
Proof.
  induction l1 as [|[old new] l1 IH]; intros t; cbn [rename_paths app];
    [reflexivity|].
  destruct (renamed_tree t old new); [apply IH | reflexivity].
Qed.

Lemma apply_replacements_spec (files : list path)
    (replacements : list (string * string * string)) :
  forall (total : nat) (w : world),
  apply_replacements files replacements total w
  = let '(t, n, evs) := rewrite_pairs (fs w) files replacements in
    (Ok (total + n), after w t evs).
Proof.
  induction replacements as [|[[old new] label] rest IH]; intros total w;
    cbn [apply_replacements rewrite_pairs].
  - rewrite after_nil, Nat.add_0_r. reflexivity.
  - unfold bind. rewrite replace_in_files_spec.
    destruct (String.eqb old new).
    + rewrite IH.
      destruct (rewrite_pairs (fs w) files rest) as [[t2 n2] evs2].
      rewrite Nat.add_0_r. reflexivity.
    + destruct (rewrite_files (fs w) files old new) as [[t1 n1] evs1].
      rewrite IH. cbn [after fs].
      destruct (rewrite_pairs t1 files rest) as [[t2 n2] evs2].
      rewrite after_after, Nat.add_assoc. reflexivity.
Qed.

Lemma rewrite_pairs_events (files : list path)
    (replacements : list (string * string * string)) :
  forall (t t' : node) (n : nat) (evs : list event),
  rewrite_pairs t files replacements = (t', n, evs) ->
  Forall (fun e => exists p, In p files /\ touches p e = true) evs.
Proof.
  induction replacements as [|[[old new] label] rest IH]; intros t t' n evs H;
    cbn [rewrite_pairs] in H.
  - inversion H. constructor.
  - destruct (String.eqb old new).
    + destruct (rewrite_pairs t files rest) as [[t2 n2] evs2] eqn:S2.
      inversion H; subst. apply (IH _ _ _ _ S2).
    + destruct (rewrite_files t files old new) as [[t1 n1] evs1] eqn:S1.
      destruct (rewrite_pairs t1 files rest) as [[t2 n2] evs2] eqn:S2.
      inversion H; subst. apply Forall_app. split.
      * apply (rewrite_files_events _ _ _ _ _ _ _ S1).
      * apply (IH _ _ _ _ S2).
Qed.

Lemma plans_some {X Y Z T : Type} (xs : list X) (ys : list Y)
    (zs : list Z) (a b : T) :
  (xs, ys, zs) <> ([], [], []) ->
  match xs, ys, zs with
  | [], [], [] => a
  | _, _, _ => b
  end = b.
Proof.
  intros H. destruct xs; [|reflexivity]. destruct ys; [|reflexivity].
  destruct zs; [contradiction | reflexivity].
Qed.

Lemma apply_renames_events (shown : path -> string)
    (renames : list (path * path)) (w w1 : world) (r : result unit)
    (evs : list event) :
  apply_renames shown renames w = (r, w1) -> trace w1 = trace w ++ evs ->
  Forall (fun e => is_write e = false) evs.
Proof.
  intros E T. destruct (only_apply_renames shown renames w) as (evs' & E' & F).
  rewrite E in E'. cbn [snd] in E'. rewrite T in E'.
  apply app_inv_head in E'. subst evs'.
  eapply Forall_impl; [|exact F]. intros e He.
  apply rename_event_facts in He. tauto.
Qed.

Lemma finish_events (w : world) :
  exists tail,
    trace (snd ((git_setup ;; delete_script) w)) = trace w ++ tail /\
    Forall (fun e => is_rename e = false /\ is_write e = false) tail.
Proof.
  assert (only (later_event []) (git_setup ;; delete_script)) as H.
  { apply only_bind; [apply only_git_setup|]. intros _.
    apply only_delete_script. }
  destruct (H w) as (tail & E & F). exists tail. split; [exact E|].
  eapply Forall_impl; [|exact F]. intros e He.
  apply later_event_facts in He as (R & _ & Wr). split; [exact R|].
  destruct (is_write e); [|reflexivity].
  destruct (Wr eq_refl) as (p & [] & _).
Qed.

(** C8.  A run of [main] that applies changes: values have been typed, plain
    names of which one at least is not the default, and the answer at the
    confirmation prompt agrees.  Up to that answer nothing has been changed.
    From the world [w0] the answer leaves, [main] first makes the
    [rename_path] calls for the directories and then those for the files,
    in the order of the plans: they rewrite no file, and the tree they
    leave is the one [rename_paths] gives.  If one of them raises, [main]
    ends there with that exception, and no file has been rewritten.
    Otherwise the text files are collected from the tree the renames have
    left; the [replace_in_files] calls run over these files, pair after
    pair, rename nothing, rewrite files of that collection only, and leave
    the tree and the total that [rewrite_pairs] gives for that tree and
    those files; the total is the one [main] prints, and in what follows,
    the Git set-up and the deletion of the script, nothing is renamed and
    no file is rewritten. *)
Theorem renames_come_before_replacements (w wp : world)
    (values : list (string * string)) (line : string) (rest : list string) :
  prompt_values w = (Ok values, wp) ->
  Forall (fun kv => plain_name (snd kv) = true) values ->
  (replacements_of values, dir_renames_of values, file_renames_of values)
  <> ([], [], []) ->
  stdin wp = line :: rest ->
  agrees line = true ->
  exists dry w0,
    Forall (fun e => mutating e = false) dry /\
    w0 = mkWorld (fs wp) rest (procs wp)
           (trace wp ++ dry ++ [EvPrompt CONFIRM_PROMPT; EvAnswer line]) /\
    match rename_paths (fs wp)
            (dir_renames_of values ++ file_renames_of values) with
    | Raise e =>
        exists w1 moves,
          main w = (Raise e, w1) /\
          trace w1 = trace w0 ++ moves /\
          Forall (fun e => is_write e = false) moves
    | Ok t1 =>
        let found := text_files_of t1 in
        let '(t2, total, writes) :=
          rewrite_pairs t1 found (replacements_of values) in
        exists moves,
          Forall (fun e => is_write e = false) moves /\
          Forall (fun e => is_rename e = false) writes /\
          Forall (fun e => exists p, In p found /\ touches p e = true) writes /\
          let w3 :=
            mkWorld t2 rest (procs wp)
              (trace w0 ++ moves ++ EvWalk found :: writes
               ++ [EvPrint "";
                   EvPrint ("  Done! " ++ Py.str_of_nat total
                            ++ " replacements applied.")]) in
          main w = (git_setup ;; delete_script) w3 /\
          exists tail,
            trace (snd (main w)) = trace w3 ++ tail /\
            Forall (fun e => is_rename e = false /\ is_write e = false) tail
    end.
Proof.
  intros Hp _ Hplans Hin Ag.
  unfold main. rewrite (bind_ok _ _ _ _ _ Hp). cbv zeta.
  rewrite (plans_some _ _ _ _ _ Hplans).
  match goal with
  | |- context [bind collect_text_files ?k ?w1] =>
      match k with
      | context [bind (input CONFIRM_PROMPT) ?c] =>
          destruct (reads_only_dry_run (replacements_of values)
                      (dir_renames_of values) (file_renames_of values)
                      (bind (input CONFIRM_PROMPT) c) w1)
            as (dry & Fd & E2)
      end
  end.
  rewrite E2. clear E2.
  erewrite bind_ok by (apply input_line; cbn [log stdin]; exact Hin).
  cbn [log fs stdin procs trace].
  unfold agrees in Ag. apply negb_true_iff in Ag. rewrite Ag.
  rewrite <- app_assoc.
  exists dry. eexists. split; [exact Fd|]. split; [reflexivity|].
  set (w0 := mkWorld (fs wp) rest (procs wp)
               (trace wp ++ dry ++ [EvPrompt CONFIRM_PROMPT; EvAnswer line])).
  rewrite rename_paths_app. unfold apply_changes.
  pose proof (apply_renames_tree show_path (dir_renames_of values) w0) as HD.
  change (fs w0) with (fs wp) in HD.
  destruct (rename_paths (fs wp) (dir_renames_of values)) as [ta|e].
  2: { destruct HD as (w1 & ED). rewrite (bind_raise _ _ _ _ _ ED).
       destruct (only_apply_renames show_path (dir_renames_of values) w0)
         as (evs & E & _).
       rewrite ED in E. cbn [snd] in E.
       exists w1, evs. split; [reflexivity|]. split; [exact E|].
       apply (apply_renames_events _ _ _ _ _ _ ED E). }
  destruct HD as (evsD & ED). rewrite (bind_ok _ _ _ _ _ ED).
  pose proof (apply_renames_events _ _ _ _ _ evsD ED eq_refl) as FD.
  pose proof (apply_renames_tree basename (file_renames_of values)
                (after w0 ta evsD)) as HF.
  change (fs (after w0 ta evsD)) with ta in HF.
  destruct (rename_paths ta (file_renames_of values)) as [t1|e].
  2: { destruct HF as (w1 & EF). rewrite (bind_raise _ _ _ _ _ EF).
       destruct (only_apply_renames basename (file_renames_of values)
                   (after w0 ta evsD)) as (evs & E & _).
       rewrite EF in E. cbn [snd] in E.
       exists w1, (evsD ++ evs). split; [reflexivity|].
       split; [rewrite E; cbn [after trace]; rewrite app_assoc; reflexivity|].
       apply Forall_app. split; [exact FD|].
       apply (apply_renames_events _ _ _ _ _ _ EF E). }
  destruct HF as (evsF & EF). rewrite (bind_ok _ _ _ _ _ EF).
  pose proof (apply_renames_events _ _ _ _ _ evsF EF eq_refl) as FF.
  rewrite after_after.
  rewrite (bind_ok _ _ _ _ _ (collect_text_files_run _)).
  cbn [after log fs stdin procs trace]. cbv zeta.
  destruct (rewrite_pairs t1 (text_files_of t1) (replacements_of values))
    as [[t2 total] writes] eqn:S.
  match goal with
  | |- context [bind (apply_replacements ?fl ?R 0) ?k ?wx] =>
      assert (ER : apply_replacements fl R 0 wx = (Ok total, after wx t2 writes))
  end.
  { rewrite apply_replacements_spec. cbn [fs log after]. rewrite S. reflexivity. }
  pose proof (rewrite_pairs_events _ _ _ _ _ _ S) as FW.
  exists (evsD ++ evsF).
  split; [apply Forall_app; split; assumption|].
  split.
  { eapply Forall_impl; [|exact FW]. intros e (p & _ & Tp).
    destruct e; cbn in Tp |- *; congruence. }
  split; [exact FW|].
  rewrite (bind_ok _ _ _ _ _ ER). clear ER.
  rewrite (bind_ok _ _ _ _ _ (print_run _ _)).
  rewrite (bind_ok _ _ _ _ _ (print_run _ _)).
  cbn [after log fs stdin procs trace].
  match goal with
  | |- ?m ?wa = ?m' ?wb /\ _ =>
      assert (wa = wb) as ->
  end.
  { unfold log, after, w0. cbn [fs stdin procs trace]. f_equal.
    rewrite <- !app_assoc. cbn [app]. reflexivity. }
  split; [reflexivity|]. apply finish_events.
Qed.

Lemma renames_come_before_replacements_witness :
  let t := Dir [("ddls", Dir [("APP_DB", Dir [("t.sql", txt "USE APP_DB;")])])] in
  let w := mkWorld t [""; ""; ""; "ACME_DB"; ""; ""; "y"; "n"] [] [] in
  let wp :=
    mkWorld t ["y"; "n"] []
      [EvPrint ""; EvPrint "  dbt-workflow Project Initializer";
       EvPrint "  ================================="; EvPrint "";
       EvPrint "  Customize this template for your project.";
       EvPrint "  Press Enter to keep the default value shown in [brackets].";
       EvPrint "";
       EvPrompt "  Project name (dbt_project.yml) [ci_cd_project]: ";
       EvAnswer ""; EvPrompt "  Author name [Anouar Zbaida]: ";
       EvAnswer ""; EvPrompt "  Organization [Crithink]: ";
       EvAnswer ""; EvPrompt "  Application database [APP_DB]: ";
       EvAnswer "ACME_DB";
       EvPrompt "  CI/utilities database [_DB_UTILS]: ";
       EvAnswer ""; EvPrompt "  Warehouse name [ANALYTICS_WH]: ";
       EvAnswer ""] in
  let values := [("project_name", "ci_cd_project");
                 ("author_name", "Anouar Zbaida"); ("organization", "Crithink");
                 ("app_database", "ACME_DB"); ("ci_database", "_DB_UTILS");
                 ("warehouse_name", "ANALYTICS_WH")] in
  exists dry w0,
    Forall (fun e => mutating e = false) dry /\
    w0 = mkWorld (fs wp) ["n"] (procs wp)
           (trace wp ++ dry ++ [EvPrompt CONFIRM_PROMPT; EvAnswer "y"]) /\
    match rename_paths (fs wp)
            (dir_renames_of values ++ file_renames_of values) with
    | Raise e =>
        exists w1 moves,
          main w = (Raise e, w1) /\
          trace w1 = trace w0 ++ moves /\
          Forall (fun e => is_write e = false) moves
    | Ok t1 =>
        let found := text_files_of t1 in
        let '(t2, total, writes) :=
          rewrite_pairs t1 found (replacements_of values) in
        exists moves,
          Forall (fun e => is_write e = false) moves /\
          Forall (fun e => is_rename e = false) writes /\
          Forall (fun e => exists p, In p found /\ touches p e = true) writes /\
          let w3 :=
            mkWorld t2 ["n"] (procs wp)
              (trace w0 ++ moves ++ EvWalk found :: writes
               ++ [EvPrint "";
                   EvPrint ("  Done! " ++ Py.str_of_nat total
                            ++ " replacements applied.")]) in
          main w = (git_setup ;; delete_script) w3 /\
          exists tail,
            trace (snd (main w)) = trace w3 ++ tail /\
            Forall (fun e => is_rename e = false /\ is_write e = false) tail
    end.
Proof.
  intros t w wp values.
  apply (renames_come_before_replacements w wp values "y" ["n"]).
  - reflexivity.
  - repeat constructor.
  - discriminate.
  - reflexivity.
  - reflexivity.
Defined.

(** ** Occurrences of one string and replacements of another *)

Lemma prefix_cons (a b : ascii) (p s : string) :
  String.prefix (String a p) (String b s) = true <->
  a = b /\ String.prefix p s = true.
Proof.
  cbn. destruct (Ascii.ascii_dec a b) as [E|E]; split.
  - auto.
  - tauto.
  - discriminate.
  - intros [H _]. contradiction.
Qed.

Lemma prefix_self_app (p u : string) : String.prefix p (p ++ u) = true.
Proof.
  induction p as [|c p IH]; [destruct u; reflexivity|].
  apply prefix_cons. auto.
Qed.

Lemma prefix_split (p : string) :
  forall s, String.prefix p s = true -> exists t, s = (p ++ t)%string.
Proof.
  induction p as [|c p IH]; intros s H.
  - exists s. reflexivity.
  - destruct s as [|d s]; [discriminate|].
    apply prefix_cons in H as [-> H]. destruct (IH s H) as [t ->].
    exists t. reflexivity.
Qed.

(** A prefix of [v ++ t] lies within [v] or goes on from it. *)
Lemma prefix_app_cases (p : string) :
  forall v t, String.prefix p (v ++ t) = true ->
  String.prefix p v = true \/ String.prefix v p = true.
Proof.
  induction p as [|c p IH]; intros v t H.
  - left. destruct v; reflexivity.
  - destruct v as [|d v]; [right; reflexivity|].
    cbn [append] in H. apply prefix_cons in H as [-> H].
    destruct (IH v t H) as [H1|H1]; [left | right]; apply prefix_cons; auto.
Qed.

Lemma count_from_skip (pat v u : string) :
  Py.count_from pat (v ++ u) (String.length v) = Py.count_from pat u 0.
Proof. induction v as [|c v IH]; [reflexivity | exact IH]. Qed.

Lemma replace_from_skip (old new v u : string) :
  Py.replace_from old new (v ++ u) (String.length v)
  = Py.replace_from old new u 0.
Proof. induction v as [|c v IH]; [reflexivity | exact IH]. Qed.

Lemma count_from_at (pat u : string) :
  pat <> EmptyString ->
  Py.count_from pat (pat ++ u) 0 = S (Py.count_from pat u 0).
Proof.
  intros H. destruct pat as [|c p]; [contradiction|].
  change (Py.count_from (String c p) (String c p ++ u) 0)
    with (if String.prefix (String c p) (String c p ++ u)
          then S (Py.count_from (String c p) (p ++ u)
                    (String.length (String c p) - 1))
          else Py.count_from (String c p) (p ++ u) 0).
  rewrite prefix_self_app.
  replace (String.length (String c p) - 1) with (String.length p)
    by (cbn [String.length]; lia).
  rewrite count_from_skip. reflexivity.
Qed.

Lemma replace_from_at (old new u : string) :
  old <> EmptyString ->
  Py.replace_from old new (old ++ u) 0
  = (new ++ Py.replace_from old new u 0)%string.
Proof.
  intros H. destruct old as [|c p]; [contradiction|].
  change (Py.replace_from (String c p) new (String c p ++ u) 0)
    with (if String.prefix (String c p) (String c p ++ u)
          then (new ++ Py.replace_from (String c p) new (p ++ u)
                         (String.length (String c p) - 1))%string
          else String c (Py.replace_from (String c p) new (p ++ u) 0)).
  rewrite prefix_self_app.
  replace (String.length (String c p) - 1) with (String.length p)
    by (cbn [String.length]; lia).
  rewrite replace_from_skip. reflexivity.
Qed.

Lemma no_overlap_head (c : ascii) (v pat t : string) :
  no_overlap (String c v) pat = true ->
  String.prefix pat (String c v ++ t) = false /\ no_overlap v pat = true.
Proof.
  cbn [no_overlap]. intros H. apply andb_prop in H as [H H3].
  apply andb_prop in H as [H1 H2]. apply negb_true_iff in H1, H2.
  split; [|exact H3].
  destruct (String.prefix pat (String c v ++ t)) eqn:E; [|reflexivity].
  apply prefix_app_cases in E as [E|E]; congruence.
Qed.

(** No occurrence of [pat] starts within [v], where no end of [v] is a
    start of [pat] or starts with it. *)
Lemma count_from_apart (pat v t : string) :
  no_overlap v pat = true ->
  Py.count_from pat (v ++ t) 0 = Py.count_from pat t 0.
Proof.
  induction v as [|c v IH]; intros H; [reflexivity|].
  destruct (no_overlap_head _ _ _ t H) as [E H'].
  cbn [append Py.count_from]. cbn [append] in E. rewrite E. apply IH, H'.
Qed.

Lemma replace_from_apart (old new z t : string) :
  no_overlap z old = true ->
  Py.replace_from old new (z ++ t) 0
  = (z ++ Py.replace_from old new t 0)%string.
Proof.
  induction z as [|c z IH]; intros H; [reflexivity|].
  destruct (no_overlap_head _ _ _ t H) as [E H'].
  cbn [append Py.replace_from]. cbn [append] in E. rewrite E.
  rewrite (IH H'). reflexivity.
Qed.

(** A string that overlaps with no [new] starts the text after the
    replacement only where it started the text before. *)
Lemma prefix_replace_from (old new z : string) :
  no_overlap z new = true ->
  forall s, String.prefix z (Py.replace_from old new s 0) = true ->
  String.prefix z s = true.
Proof.
  induction z as [|d z IH]; intros H s P; [destruct s; reflexivity|].
  destruct s as [|e s]; [discriminate|].
  cbn [Py.replace_from] in P.
  destruct (String.prefix old (String e s)).
  - exfalso. cbn [no_overlap] in H. apply andb_prop in H as [H _].
    apply andb_prop in H as [H1 H2]. apply negb_true_iff in H1, H2.
    apply prefix_app_cases in P as [P|P]; congruence.
  - apply prefix_cons in P as [-> P]. apply prefix_cons. split; [reflexivity|].
    apply IH; [|exact P]. cbn [no_overlap] in H.
    apply andb_prop in H as [_ H]. exact H.
Qed.

Lemma length_append (a b : string) :
  String.length (a ++ b) = String.length a + String.length b.
Proof. induction a as [|c a IH]; cbn; [reflexivity | rewrite IH; reflexivity]. Qed.

(** Replacing [old] by [new] neither makes nor breaks an occurrence of
    [pat], where [pat] overlaps with neither and neither overlaps with
    [pat]. *)
Lemma count_replace_other (old new pat : string) :
  old <> EmptyString -> pat <> EmptyString ->
  no_overlap pat old = true -> no_overlap pat new = true ->
  no_overlap old pat = true -> no_overlap new pat = true ->
  forall s, Py.count (Py.replace s old new) pat = Py.count s pat.
Proof.
  intros Ho Hp A1 A2 B1 B2 s. unfold Py.count, Py.replace.
  destruct old as [|oc os] eqn:Eo; [contradiction|].
  destruct pat as [|pc ps] eqn:Ep; [contradiction|].
  rewrite <- Eo, <- Ep in *. clear Eo Ep oc os pc ps.
  remember (String.length s) as n eqn:Hn.
  revert s Hn. induction n as [n IH] using lt_wf_ind. intros s Hn.
  destruct s as [|c s]; [reflexivity|].
  destruct (String.prefix old (String c s)) eqn:Po.
  - destruct (prefix_split _ _ Po) as [t Et]. rewrite Et.
    rewrite (replace_from_at _ _ _ Ho), !count_from_apart by assumption.
    apply (IH (String.length t)); [|reflexivity].
    rewrite Hn, Et, length_append.
    destruct old; [contradiction | cbn; lia].
  - destruct (String.prefix pat (String c s)) eqn:Pp.
    + destruct (prefix_split _ _ Pp) as [t Et]. rewrite Et.
      rewrite replace_from_apart by assumption.
      rewrite !(count_from_at _ _ Hp). f_equal.
      apply (IH (String.length t)); [|reflexivity].
      rewrite Hn, Et, length_append.
      destruct pat; [contradiction | cbn; lia].
    + assert (String.prefix pat (Py.replace_from old new (String c s) 0)
              = false) as Pr.
      { destruct (String.prefix pat
                    (Py.replace_from old new (String c s) 0)) eqn:E;
          [|reflexivity].
        apply (prefix_replace_from _ _ _ A2) in E. congruence. }
      cbn [Py.replace_from] in Pr |- *. rewrite Po in Pr |- *.
      cbn [Py.count_from]. rewrite Pr, Pp.
      apply (IH (String.length s)); [|reflexivity]. rewrite Hn. cbn. lia.
Qed.

(** After the replacement [old] occurs no more, where [old] and [new] do
    not overlap. *)
Lemma count_replace_same (old new : string) :
  old <> EmptyString ->
  no_overlap old new = true -> no_overlap new old = true ->
  forall s, Py.count (Py.replace s old new) old = 0.
Proof.
  intros Ho A B s. unfold Py.count, Py.replace.
  destruct old as [|oc os] eqn:Eo; [contradiction|].
  rewrite <- Eo in *. clear Eo oc os.
  remember (String.length s) as n eqn:Hn.
  revert s Hn. induction n as [n IH] using lt_wf_ind. intros s Hn.
  destruct s as [|c s]; [reflexivity|].
  destruct (String.prefix old (String c s)) eqn:Po.
  - destruct (prefix_split _ _ Po) as [t Et]. rewrite Et.
    rewrite (replace_from_at _ _ _ Ho), count_from_apart by assumption.
    apply (IH (String.length t)); [|reflexivity].
    rewrite Hn, Et, length_append.
    destruct old; [contradiction | cbn; lia].
  - assert (String.prefix old (Py.replace_from old new (String c s) 0)
            = false) as Pr.
    { destruct (String.prefix old
                  (Py.replace_from old new (String c s) 0)) eqn:E;
        [|reflexivity].
      apply (prefix_replace_from _ _ _ A) in E. congruence. }
    cbn [Py.replace_from] in Pr |- *. rewrite Po in Pr |- *.
    cbn [Py.count_from]. rewrite Pr.
    apply (IH (String.length s)); [|reflexivity]. rewrite Hn. cbn. lia.
Qed.

(** ** Line ends *)

Lemma has_cr_newlines_from (s : string) :
  forall b, has_cr (Py.newlines_from s b) = false.
Proof.
  induction s as [|c s IH]; intros b; [reflexivity|].
  cbn [Py.newlines_from]. destruct (Ascii.eqb c Py.CR) eqn:E.
  - cbn [has_cr]. rewrite IH. reflexivity.
  - destruct (Ascii.eqb c Py.LF && b); [apply IH|].
    cbn [has_cr]. rewrite E. apply IH.
Qed.

Lemma newlines_from_without_cr (s : string) :
  has_cr s = false -> Py.newlines_from s false = s.
Proof.
  induction s as [|c s IH]; intros H; [reflexivity|].
  cbn [has_cr] in H. apply orb_false_iff in H as [H1 H2].
  cbn [Py.newlines_from]. rewrite H1, andb_false_r, (IH H2). reflexivity.
Qed.

Lemma has_cr_append (a b : string) :
  has_cr (a ++ b) = has_cr a || has_cr b.
Proof.
  induction a as [|c a IH]; [reflexivity|]. cbn [append has_cr].
  rewrite IH, orb_assoc. reflexivity.
Qed.

Lemma has_cr_replace_from (old new s : string) :
  has_cr s = false -> has_cr new = false ->
  forall k, has_cr (Py.replace_from old new s k) = false.
Proof.
  intros Hs Hn. induction s as [|c s IH]; intros k; [reflexivity|].
  cbn [has_cr] in Hs. apply orb_false_iff in Hs as [H1 H2].
  cbn [Py.replace_from]. destruct k as [|k]; [|apply IH, H2].
  destruct (String.prefix old (String c s)).
  - rewrite has_cr_append, Hn. apply IH, H2.
  - cbn [has_cr]. rewrite H1. apply IH, H2.
Qed.

Lemma has_cr_replace (s old new : string) :
  old <> EmptyString -> has_cr s = false -> has_cr new = false ->
  has_cr (Py.replace s old new) = false.
Proof.
  intros Ho Hs Hn. unfold Py.replace. destruct old; [contradiction|].
  apply has_cr_replace_from; assumption.
Qed.

Lemma has_cr_read_of (cs : list cell) : has_cr (read_of cs) = false.
Proof. apply has_cr_newlines_from. Qed.

(** A text without CR is read back as it was written. *)
Lemma read_of_encode (s : string) :
  has_cr s = false -> read_of (encode s) = s.
Proof.
  intros H. unfold read_of. rewrite decode_encode.
  apply newlines_from_without_cr, H.
Qed.

(** ** The example of the specification *)

(** [replace_in_files] on one file that can be read and written and in
    whose text [old] occurs. *)
Lemma replace_in_files_one (w : world) (p : path) (f : file)
    (old new : string) :
  file_at (fs w) p = Some f -> readable f = true -> writable f = true ->
  String.eqb old new = false ->
  0 < Py.count (read_of (cells f)) old ->
  replace_in_files [p] old new w
  = (Ok (Py.count (read_of (cells f)) old),
     after w
       (put p (File (mkFile (encode (Py.replace (read_of (cells f)) old new))
                            true true)) (fs w))
       [EvOpenRead p; EvOpenWrite p;
        EvWrite p (Py.replace (read_of (cells f)) old new)]).
Proof.
  intros F R W E C. rewrite replace_in_files_spec, E.
  cbn [rewrite_files]. unfold rewrite_file, text_at. rewrite F, R, W.
  apply Nat.ltb_lt in C. rewrite C. rewrite Nat.add_0_r. reflexivity.
Qed.

Lemma count_replacements_one (w : world) (p : path) (f : file)
    (old new : string) :
  file_at (fs w) p = Some f -> readable f = true ->
  String.eqb old new = false ->
  0 < Py.count (read_of (cells f)) old ->
  fst (count_replacements [p] old new w)
  = Ok (Py.count (read_of (cells f)) old, 1).
Proof.
  intros F R E C. rewrite count_replacements_spec, E. cbn [fst].
  unfold files_with. cbn [total_occurrences filter].
  unfold occurrences, text_at. rewrite F, R.
  apply Nat.ltb_lt in C. rewrite C. rewrite Nat.add_0_r. reflexivity.
Qed.

(** C6.  The example of the specification, for any file that can be read and
    written and in whose text ci_cd_project occurs twice and APP_DB once,
    the project being named acme and the application database ACME_DB: the
    plan of [main] is the two pairs; the dry run counts 2 occurrences in 1
    file and 1 occurrence in 1 file; the two calls of [replace_in_files]
    over the file return 2 and 1 and the loop of [main] over the plan ends
    with a total of 3; and in what the file holds afterwards neither
    ci_cd_project nor APP_DB occurs. *)
Theorem example_three_replacements (w : world) (p : path) (f : file) :
  file_at (fs w) p = Some f -> readable f = true -> writable f = true ->
  Py.count (read_of (cells f)) "ci_cd_project" = 2 ->
  Py.count (read_of (cells f)) "APP_DB" = 1 ->
  let values := [("project_name", "acme"); ("author_name", "Anouar Zbaida");
                 ("organization", "Crithink"); ("app_database", "ACME_DB");
                 ("ci_database", "_DB_UTILS");
                 ("warehouse_name", "ANALYTICS_WH")] in
  let result :=
    Py.replace (Py.replace (read_of (cells f)) "ci_cd_project" "acme")
      "APP_DB" "ACME_DB" in
  replacements_of values
  = [("ci_cd_project", "acme", "project name");
     ("APP_DB", "ACME_DB", "application database")] /\
  fst (count_replacements [p] "ci_cd_project" "acme" w) = Ok (2, 1) /\
  fst (count_replacements [p] "APP_DB" "ACME_DB" w) = Ok (1, 1) /\
  exists w1 w2,
    replace_in_files [p] "ci_cd_project" "acme" w = (Ok 2, w1) /\
    replace_in_files [p] "APP_DB" "ACME_DB" w1 = (Ok 1, w2) /\
    apply_replacements [p] (replacements_of values) 0 w = (Ok 3, w2) /\
    file_at (fs w2) p = Some (mkFile (encode result) true true) /\
    text_at (fs w2) p = Some result /\
    Py.count result "ci_cd_project" = 0 /\
    Py.count result "APP_DB" = 0.
Proof.
  intros F R W C1 C2 values result.
  set (content := read_of (cells f)) in *.
  set (s1 := Py.replace content "ci_cd_project" "acme") in *.
  assert (has_cr s1 = false) as H1.
  { apply has_cr_replace; [discriminate | apply has_cr_read_of | reflexivity]. }
  assert (has_cr result = false) as H2.
  { apply has_cr_replace; [discriminate | exact H1 | reflexivity]. }
  assert (Py.count s1 "APP_DB" = 1) as C3.
  { unfold s1. rewrite count_replace_other; try reflexivity; try discriminate.
    exact C2. }
  assert (Py.count result "ci_cd_project" = 0) as Z1.
  { unfold result. rewrite count_replace_other;
      try reflexivity; try discriminate.
    apply count_replace_same; try reflexivity. discriminate. }
  assert (Py.count result "APP_DB" = 0) as Z2.
  { apply count_replace_same; try reflexivity. discriminate. }
  assert (replacements_of values
          = [("ci_cd_project", "acme", "project name");
             ("APP_DB", "ACME_DB", "application database")]) as Ev
    by reflexivity.
  pose proof (replace_in_files_one w p f "ci_cd_project" "acme" F R W eq_refl)
    as E1.
  fold content in E1. rewrite C1 in E1. specialize (E1 ltac:(lia)).
  fold s1 in E1.
  set (w1 := after w (put p (File (mkFile (encode s1) true true)) (fs w))
               [EvOpenRead p; EvOpenWrite p; EvWrite p s1]) in *.
  assert (file_at (fs w1) p = Some (mkFile (encode s1) true true)) as F1
    by (apply (file_at_put_same _ _ _ _ F)).
  pose proof (replace_in_files_one w1 p _ "APP_DB" "ACME_DB" F1 eq_refl eq_refl
                eq_refl) as E2.
  cbn [cells] in E2. rewrite (read_of_encode _ H1) in E2. rewrite C3 in E2.
  specialize (E2 ltac:(lia)). fold result in E2.
  split; [exact Ev|]. split.
  { rewrite (count_replacements_one w p f "ci_cd_project" "acme" F R eq_refl);
      fold content; rewrite C1; [reflexivity | lia]. }
  split.
  { rewrite (count_replacements_one w p f "APP_DB" "ACME_DB" F R eq_refl);
      fold content; rewrite C2; [reflexivity | lia]. }
  eexists w1, _. split; [exact E1|]. split; [exact E2|]. split; [|split].
  - rewrite Ev. cbn [apply_replacements].
    rewrite (bind_ok _ _ _ _ _ E1), (bind_ok _ _ _ _ _ E2). reflexivity.
  - cbn [after fs]. apply (file_at_put_same _ _ _ _ F1).
  - split; [|split; assumption].
    unfold text_at. cbn [after fs].
    rewrite (file_at_put_same _ _ _ _ F1). cbn [readable cells].
    rewrite (read_of_encode _ H2). reflexivity.
Qed.

Lemma example_three_replacements_witness :
  let held := ("name: ci_cd_project" ++ cr ++ nl ++ "profile: ci_cd_project"
               ++ cr ++ nl ++ "database: APP_DB" ++ cr ++ nl)%string in
  let f := mkFile (encode held) true true in
  let p := ["dbt_project.yml"] in
  let w := mkWorld (Dir [("dbt_project.yml", File f)]) [] [] [] in
  let values := [("project_name", "acme"); ("author_name", "Anouar Zbaida");
                 ("organization", "Crithink"); ("app_database", "ACME_DB");
                 ("ci_database", "_DB_UTILS");
                 ("warehouse_name", "ANALYTICS_WH")] in
  let result :=
    Py.replace (Py.replace (read_of (cells f)) "ci_cd_project" "acme")
      "APP_DB" "ACME_DB" in
  replacements_of values
  = [("ci_cd_project", "acme", "project name");
     ("APP_DB", "ACME_DB", "application database")] /\
  fst (count_replacements [p] "ci_cd_project" "acme" w) = Ok (2, 1) /\
  fst (count_replacements [p] "APP_DB" "ACME_DB" w) = Ok (1, 1) /\
  exists w1 w2,
    replace_in_files [p] "ci_cd_project" "acme" w = (Ok 2, w1) /\
    replace_in_files [p] "APP_DB" "ACME_DB" w1 = (Ok 1, w2) /\
    apply_replacements [p] (replacements_of values) 0 w = (Ok 3, w2) /\
    file_at (fs w2) p = Some (mkFile (encode result) true true) /\
    text_at (fs w2) p = Some result /\
    Py.count result "ci_cd_project" = 0 /\
    Py.count result "APP_DB" = 0.
Proof.
  intros held f p w.
  apply (example_three_replacements w p f); reflexivity.
Defined.
